(** * Alert-to-notification pipeline of the flights tracker

    A shallow embedding of the alert pipeline:
    - [src/core/alert-flight-fetcher.ts]: filter translator, result filter,
      batch processor;
    - [scripts/generate-email-to-user.ts]: expiry partition of the alert
      lifecycle manager;
    - the worker alert store adapter ([updateAlert]);
    - [src/lib/notifications]: AI blueprint generation, schema validation and
      the deterministic fallback templates;
    - further on: the verbose batch, the deduplication and the alert
      descriptors of [scripts/generate-email-to-user.ts], the daily digest
      context of [ai-email-context], the rendering of blueprints and
      [send-notification].

    Asynchronous code is modelled sequentially in an exception monad;
    logging is dropped.  JavaScript numbers are modelled by rationals
    ([Qc]) where they are prices and by integers ([Z]) where they are
    counts or time values; NaN and the infinities are outside the model
    except where noted. *)

From Stdlib Require Import ZArith QArith Qcanon Qround Qabs Ascii String List Lia.
From stdpp Require Import base tactics option numbers list strings gmap relations.

Local Open Scope string_scope.
Local Open Scope list_scope.
Local Open Scope Z_scope.

(** ** The JavaScript runtime pieces the pipeline relies on *)

Module Js.

(** Exceptions: a computation either returns or throws. *)
Inductive Exc (A : Type) : Type :=
| Ok (a : A)
| Throw (e : string).
Arguments Ok {A} a.
Arguments Throw {A} e.

#[global] Instance Exc_ret : MRet Exc := λ A a, Ok a.
#[global] Instance Exc_bind : MBind Exc := λ A B f m,
  match m with
  | Ok a => f a
  | Throw e => Throw e
  end.

(** [try { body } catch (e) { handler }] *)
Definition try_catch {A} (body : Exc A) (handler : string → Exc A) : Exc A :=
  match body with
  | Ok a => Ok a
  | Throw e => handler e
  end.

(** [Promise.all]: the results in input order, or the first rejection. *)
Fixpoint Promise_all {A} (ps : list (Exc A)) : Exc (list A) :=
  match ps with
  | [] => Ok []
  | p :: ps' => a ← p; r ← Promise_all ps'; Ok (a :: r)
  end.

(** Truthiness of an optional string / optional number field. *)
Definition truthy_str (o : option string) : bool :=
  match o with
  | Some s => negb (bool_decide (s = ""))
  | None => false
  end.

Definition truthy_num (o : option Qc) : bool :=
  match o with
  | Some q => negb (bool_decide (q = 0%Qc))
  | None => false
  end.

(** [String.prototype.toUpperCase] on ASCII text (airline codes). *)
Definition upper_ascii (c : ascii) : ascii :=
  let n := nat_of_ascii c in
  if ((97 <=? n) && (n <=? 122))%nat then ascii_of_nat (n - 32) else c.

Fixpoint toUpperCase (s : string) : string :=
  match s with
  | EmptyString => EmptyString
  | String c s' => String (upper_ascii c) (toUpperCase s')
  end.

(** [Array.prototype.slice(0, end)] for an integer [end]: a negative
    [end] counts from the end of the array. *)
Definition slice0 {A} (l : list A) (end_ : Z) : list A :=
  if end_ <? 0
  then take (Z.to_nat (Z.max 0 (Z.of_nat (length l) + end_))) l
  else take (Z.to_nat end_) l.

(** *** Dates

    A [Date] holds a time value in milliseconds since the epoch, or is
    an Invalid Date ([None]).  What [Date.parse] accepts beyond the ISO
    formats is implementation defined, so the parser is a parameter of
    the runtime, together with the local time zone offset (taken to be
    constant: no daylight-saving change inside the window looked at). *)
Definition msPerDay : Z := 86400000.

Class Runtime := {
  Date_parse : string → option Z;
  LocalTZA : Z;
  (** [new Date("")] is an Invalid Date. *)
  Date_parse_empty : Date_parse "" = None;
}.

(** [d.setHours(0, 0, 0, 0)]: local midnight of the day of [t]. *)
Definition setHours0 `{Runtime} (t : Z) : Z :=
  (t + LocalTZA) `div` msPerDay * msPerDay - LocalTZA.

(** [d.setDate(d.getDate() + 1)] *)
Definition addOneDay (t : Z) : Z := t + msPerDay.

(** [new Date(s); setHours(0,0,0,0)] on a possibly invalid date. *)
Definition startOfDayOf `{Runtime} (s : string) : option Z :=
  setHours0 <$> Date_parse s.

(** [a < b] and [a <= b] on dates: false as soon as one is invalid. *)
Definition date_lt (a b : option Z) : bool :=
  match a, b with
  | Some x, Some y => bool_decide (x < y)
  | _, _ => false
  end.

Definition date_le (a b : option Z) : bool :=
  match a, b with
  | Some x, Some y => bool_decide (x ≤ y)
  | _, _ => false
  end.

(** Calendar date of a day number (days since 1970-01-01, UTC). *)
Definition civil_from_days (days : Z) : Z * Z * Z :=
  let z := days + 719468 in
  let era := z `div` 146097 in
  let doe := z - era * 146097 in
  let yoe := (doe - doe `div` 1460 + doe `div` 36524 - doe `div` 146096) `div` 365 in
  let y := yoe + era * 400 in
  let doy := doe - (365 * yoe + yoe `div` 4 - yoe `div` 100) in
  let mp := (5 * doy + 2) `div` 153 in
  let d := doy - (153 * mp + 2) `div` 5 + 1 in
  let m := if mp <? 10 then mp + 3 else mp - 9 in
  (if m <=? 2 then y + 1 else y, m, d).

Definition days_from_civil (y m d : Z) : Z :=
  let y' := if m <=? 2 then y - 1 else y in
  let era := y' `div` 400 in
  let yoe := y' - era * 400 in
  let doy := (153 * (if 2 <? m then m - 3 else m + 9) + 2) `div` 5 + d - 1 in
  let doe := yoe * 365 + yoe `div` 4 - yoe `div` 100 + doy in
  era * 146097 + doe - 719468.

Definition digit_char (d : Z) : ascii := ascii_of_nat (48 + Z.to_nat d).

Fixpoint fixed_digits (w : nat) (n : Z) : string :=
  match w with
  | O => ""
  | S w' => fixed_digits w' (n `div` 10) +:+ String (digit_char (n `mod` 10)) ""
  end.

Definition year_string (y : Z) : string :=
  if (0 <=? y) && (y <=? 9999) then fixed_digits 4 y
  else (if y <? 0 then "-" else "+") +:+ fixed_digits 6 (Z.abs y).

(** [d.toISOString().split("T")[0]]: the UTC calendar date of [t]. *)
Definition toISODate (t : Z) : string :=
  let '(y, m, d) := civil_from_days (t `div` msPerDay) in
  year_string y +:+ "-" +:+ fixed_digits 2 m +:+ "-" +:+ fixed_digits 2 d.

(** Non-negative integer to decimal text, as a template literal
    prints it. *)
Fixpoint decimal_fuel (fuel : nat) (n : Z) : string :=
  match fuel with
  | O => ""
  | S fuel' =>
      if n <? 10 then String (digit_char n) ""
      else decimal_fuel fuel' (n `div` 10) +:+ String (digit_char (n `mod` 10)) ""
  end.

Definition Number_toString (n : Z) : string :=
  if n <? 0 then "-" +:+ decimal_fuel (S (Z.to_nat (Z.log2 (-n)))) (-n)
  else decimal_fuel (S (Z.to_nat (Z.log2 n))) n.

End Js.

Import Js.

(** A concrete runtime, used to run the model on examples: its
  [Date.parse] accepts exactly the ISO calendar dates [YYYY-MM-DD]
  (UTC midnight) and the UTC timestamps [YYYY-MM-DDTHH:mm:ss.sssZ]. *)
Module IsoRuntime.

Definition digit_val (c : ascii) : option Z :=
  let n := nat_of_ascii c in
  if ((48 <=? n) && (n <=? 57))%nat then Some (Z.of_nat (n - 48)) else None.

Fixpoint digits_val (acc : Z) (s : string) : option Z :=
  match s with
  | EmptyString => Some acc
  | String c s' => d ← digit_val c; digits_val (acc * 10 + d) s'
  end.

Definition number_at (s : string) (i len : nat) : option Z :=
  let sub := substring i len s in
  if (String.length sub =? len)%nat then digits_val 0 sub else None.

Definition char_at (s : string) (i : nat) (c : ascii) : bool :=
  bool_decide (get i s = Some c).

Definition isLeap (y : Z) : bool :=
  ((y `mod` 4 =? 0) && negb (y `mod` 100 =? 0)) || (y `mod` 400 =? 0).

Definition daysInMonth (y m : Z) : Z :=
  if m =? 2 then (if isLeap y then 29 else 28)
  else if (m =? 4) || (m =? 6) || (m =? 9) || (m =? 11) then 30 else 31.

Definition parse_date_part (s : string) : option Z :=
  y ← number_at s 0 4;
  m ← number_at s 5 2;
  d ← number_at s 8 2;
  if char_at s 4 "-" && char_at s 7 "-"
     && (1 <=? m) && (m <=? 12) && (1 <=? d) && (d <=? daysInMonth y m)
  then Some (days_from_civil y m d * msPerDay) else None.

Definition parse_time_part (s : string) : option Z :=
  h ← number_at s 11 2;
  mi ← number_at s 14 2;
  sec ← number_at s 17 2;
  ms ← number_at s 20 3;
  if char_at s 10 "T" && char_at s 13 ":" && char_at s 16 ":"
     && char_at s 19 "." && char_at s 23 "Z"
     && (h <=? 23) && (mi <=? 59) && (sec <=? 59)
  then Some (((h * 60 + mi) * 60 + sec) * 1000 + ms) else None.

Definition parse (s : string) : option Z :=
  if (String.length s =? 10)%nat then parse_date_part s
  else if (String.length s =? 24)%nat then
    day ← parse_date_part s; time ← parse_time_part s; Some (day + time)
  else None.

(** The ISO runtime in the time zone [tza] milliseconds east of UTC. *)
Definition at_offset (tza : Z) : Runtime :=
  {| Date_parse := parse; LocalTZA := tza; Date_parse_empty := eq_refl |}.

Definition utc : Runtime := at_offset 0.

End IsoRuntime.


(** ** Data model

    The type declarations of the repository ([core/filters],
    [db/schema], [lib/fli/models], [server/services/flights],
    [lib/notifications/types]) are read off the fields the code uses. *)

Module TripType.
Inductive t := ONE_WAY | ROUND_TRIP.
End TripType.

Module MaxStops.
Inductive t := ANY | NON_STOP | ONE_STOP_OR_FEWER | TWO_OR_FEWER_STOPS.
End MaxStops.

Module SeatType.
Inductive t := ECONOMY | PREMIUM_ECONOMY | BUSINESS | FIRST.
End SeatType.

Module Currency.
Inductive t := USD.
End Currency.

Module Route.
Record t := mk { from : string; to : string }.
End Route.

Module TimeRange.
Record t := mk { from : Z; to : Z }.
End TimeRange.

(** The criteria bundle of an alert.  [stops] and [class] are kept as
    the strings stored with the alert: the code maps unknown values to
    a default. *)
Module Filters.
Record t := mk {
  dateFrom : option string;
  dateTo : option string;
  departureTimeRange : option TimeRange.t;
  arrivalTimeRange : option TimeRange.t;
  class : option string;
  stops : option string;
  airlines : option (list string);
  price : option Qc;
}.
End Filters.

Module AlertFilters.
Record t := mk { route : Route.t; filters : option Filters.t }.
End AlertFilters.

Module Status.
Inductive t := active | completed | deleted.
#[global] Instance eq_dec : EqDecision t.
Proof. solve_decision. Defined.
End Status.

Module Alert.
Record t := mk {
  id : string;
  userId : string;
  type : string;
  status : Status.t;
  filters : AlertFilters.t;
  alertEnd : option string;
}.
End Alert.

Module Leg.
Record t := mk {
  airlineCode : string;
  departureAirportCode : string;
  departureDateTime : string;
  arrivalAirportCode : string;
  arrivalDateTime : string;
}.
End Leg.

Module Slice.
Record t := mk { stops : Z; durationMinutes : Z; legs : list Leg.t }.
End Slice.

Module FlightOption.
Record t := mk { totalPrice : Qc; currency : string; slices : list Slice.t }.
End FlightOption.

Module Segment.
Record t := mk {
  origin : string;
  destination : string;
  departureDate : string;
  departureTimeRange : option TimeRange.t;
  arrivalTimeRange : option TimeRange.t;
}.
End Segment.

Module DateRange.
Record t := mk { from : string; to : string }.
End DateRange.

Module PriceLimit.
Record t := mk { amount : Qc; currency : Currency.t }.
End PriceLimit.

Module FlightFiltersInput.
Record t := mk {
  tripType : TripType.t;
  segments : list Segment.t;
  dateRange : DateRange.t;
  seatType : SeatType.t;
  stops : MaxStops.t;
  airlines : option (list string);
  priceLimit : option PriceLimit.t;
}.
End FlightFiltersInput.

Module AlertWithFlights.
Record t := mk { alert : Alert.t; flights : list FlightOption.t }.
End AlertWithFlights.

(** ** [src/core/alert-flight-fetcher.ts] *)

Module Fetcher.

(** [filters?.field] *)
Definition opt {A} (af : AlertFilters.t) (field : Filters.t → option A) : option A :=
  AlertFilters.filters af ≫= field.

Definition today `{Runtime} (now : Z) : Z := setHours0 now.
Definition tomorrow `{Runtime} (now : Z) : Z := addOneDay (today now).
Definition tomorrowStr `{Runtime} (now : Z) : string := toISODate (tomorrow now).

(** The check "entire date range has expired". *)
Definition rangeExpired `{Runtime} (now : Z) (af : AlertFilters.t) : bool :=
  if truthy_str (opt af Filters.dateTo) then
    match opt af Filters.dateTo with
    | Some dateTo => date_lt (startOfDayOf dateTo) (Some (today now))
    | None => false
    end
  else false.

(** [effectiveDateFrom] after the adjustment of a start date in the past. *)
Definition effectiveDateFrom `{Runtime} (now : Z) (af : AlertFilters.t) : string :=
  match opt af Filters.dateFrom with
  | Some dateFrom =>
      if truthy_str (Some dateFrom) then
        if date_lt (startOfDayOf dateFrom) (Some (today now))
        then tomorrowStr now
        else dateFrom
      else tomorrowStr now
  | None => tomorrowStr now
  end.

(** [stopsMap[key]] and [seatTypeMap[key]], among the keys the tables
    define. *)
Definition stopsMap (key : string) : option MaxStops.t :=
  if bool_decide (key = "ANY") then Some MaxStops.ANY
  else if bool_decide (key = "NONSTOP") then Some MaxStops.NON_STOP
  else if bool_decide (key = "ONE_STOP") then Some MaxStops.ONE_STOP_OR_FEWER
  else if bool_decide (key = "TWO_STOPS") then Some MaxStops.TWO_OR_FEWER_STOPS
  else None.

Definition seatTypeMap (key : string) : option SeatType.t :=
  if bool_decide (key = "ECONOMY") then Some SeatType.ECONOMY
  else if bool_decide (key = "PREMIUM_ECONOMY") then Some SeatType.PREMIUM_ECONOMY
  else if bool_decide (key = "BUSINESS") then Some SeatType.BUSINESS
  else if bool_decide (key = "FIRST") then Some SeatType.FIRST
  else None.

(** [cond ? (table[key] ?? dflt) : dflt] *)
Definition mapped {A} (table : string → option A) (dflt : A) (o : option string) : A :=
  match o with
  | Some key => if truthy_str o then default dflt (table key) else dflt
  | None => dflt
  end.

(** [filters?.airlines && filters.airlines.length > 0] *)
Definition hasAirlines (o : option (list string)) : bool :=
  match o with
  | Some l => bool_decide (0 < length l)%nat
  | None => false
  end.

Definition convertAlertFiltersToFlightFilters `{Runtime}
    (now : Z) (alertFilters : AlertFilters.t) : option FlightFiltersInput.t :=
  let route := AlertFilters.route alertFilters in
  if rangeExpired now alertFilters then None
  else
    let effective := effectiveDateFrom now alertFilters in
    let tripType := TripType.ONE_WAY in
    let segments :=
      [ Segment.mk (Route.from route) (Route.to route) effective
          (opt alertFilters Filters.departureTimeRange)
          (opt alertFilters Filters.arrivalTimeRange) ] in
    let stops := mapped stopsMap MaxStops.ANY (opt alertFilters Filters.stops) in
    let seatType := mapped seatTypeMap SeatType.ECONOMY (opt alertFilters Filters.class) in
    let dateRange :=
      DateRange.mk effective
        (if truthy_str (opt alertFilters Filters.dateTo)
         then default effective (opt alertFilters Filters.dateTo)
         else effective) in
    Some (FlightFiltersInput.mk tripType segments dateRange seatType stops
            (if hasAirlines (opt alertFilters Filters.airlines)
             then opt alertFilters Filters.airlines else None)
            (if truthy_num (opt alertFilters Filters.price)
             then (λ p, PriceLimit.mk p Currency.USD) <$> opt alertFilters Filters.price
             else None)).

(** The stops ceiling of a tier; [None] is [Number.POSITIVE_INFINITY]. *)
Definition maxStopsOf (tier : string) : option Z :=
  if bool_decide (tier = "NONSTOP") then Some 0
  else if bool_decide (tier = "ONE_STOP") then Some 1
  else if bool_decide (tier = "TWO_STOPS") then Some 2
  else None.

(** [slice.stops <= maxStops] *)
Definition stops_le (n : Z) (maxStops : option Z) : bool :=
  match maxStops with
  | Some m => bool_decide (n ≤ m)
  | None => true
  end.

(** [new Set(filters.airlines.map((code) => code.toUpperCase()))] *)
Definition allowedAirlines (airlines : list string) : gset string :=
  list_to_set (toUpperCase <$> airlines).

Definition hasMatchingAirline (allowed : gset string) (flight : FlightOption.t) : bool :=
  existsb (λ slice,
      existsb (λ leg, bool_decide (Leg.airlineCode leg ∈ allowed)) (Slice.legs slice))
    (FlightOption.slices flight).

Definition hasValidStops (maxStops : option Z) (flight : FlightOption.t) : bool :=
  forallb (λ slice, stops_le (Slice.stops slice) maxStops) (FlightOption.slices flight).

(** The three guards of the callback of [flights.filter(...)], each
    one an [if (...) return false]. *)
Definition exceedsPrice (filters : Filters.t) (flight : FlightOption.t) : bool :=
  truthy_num (Filters.price filters)
  && bool_decide (default 0%Qc (Filters.price filters) < FlightOption.totalPrice flight)%Qc.

Definition failsAirlines (filters : Filters.t) (flight : FlightOption.t) : bool :=
  hasAirlines (Filters.airlines filters)
  && negb (hasMatchingAirline
             (allowedAirlines (default [] (Filters.airlines filters))) flight).

Definition failsStops (filters : Filters.t) (flight : FlightOption.t) : bool :=
  truthy_str (Filters.stops filters)
  && negb (hasValidStops (maxStopsOf (default "" (Filters.stops filters))) flight).

Definition keepFlight (filters : Filters.t) (flight : FlightOption.t) : bool :=
  if exceedsPrice filters flight then false
  else if failsAirlines filters flight then false
  else if failsStops filters flight then false
  else true.

Definition filterFlightsByAlertCriteria
    (flights : list FlightOption.t) (alertFilters : AlertFilters.t) : list FlightOption.t :=
  match AlertFilters.filters alertFilters with
  | None => flights
  | Some filters => List.filter (keepFlight filters) flights
  end.

(** The flight search collaborator ([server/services/flights]):
    validation of a query and the search itself; either may throw. *)
Class SearchService := {
  ValidatedFilters : Type;
  parseFlightFiltersInput : FlightFiltersInput.t → Exc ValidatedFilters;
  searchFlights : ValidatedFilters → Exc (list FlightOption.t);
}.

(** The body of the [try] block of [fetchFlightsForAlert]; [now] is the
    clock reading taken by the filter translator. *)
Definition fetchFlightsForAlert_body `{Runtime, SearchService}
    (now : Z) (alert : Alert.t) (maxFlights : Z) : Exc (option AlertWithFlights.t) :=
  match convertAlertFiltersToFlightFilters now (Alert.filters alert) with
  | None => Ok None
  | Some flightFilters =>
      validatedFilters ← parseFlightFiltersInput flightFilters;
      flights ← searchFlights validatedFilters;
      let limitedFlights := slice0 flights maxFlights in
      let matchingFlights :=
        filterFlightsByAlertCriteria limitedFlights (Alert.filters alert) in
      Ok (Some (AlertWithFlights.mk alert matchingFlights))
  end.

Definition fetchFlightsForAlert `{Runtime, SearchService}
    (now : Z) (alert : Alert.t) (maxFlights : Z) : Exc (option AlertWithFlights.t) :=
  try_catch (fetchFlightsForAlert_body now alert maxFlights) (λ _, Ok None).

Definition routeKey (alert : Alert.t) : string :=
  let route := AlertFilters.route (Alert.filters alert) in
  Route.from route +:+ "-" +:+ Route.to route.

(** Computed for the log line only. *)
Definition groupAlertsByRoute (alerts : list Alert.t) : gmap string (list Alert.t) :=
  foldl (λ routeMap alert,
           let existing := default [] (routeMap !! routeKey alert) in
           <[routeKey alert := existing ++ [alert]]> routeMap)
        ∅ alerts.

(** [result !== null && result.flights.length > 0] *)
Definition successful (result : option AlertWithFlights.t) : option AlertWithFlights.t :=
  match result with
  | Some r => if bool_decide (0 < length (AlertWithFlights.flights r))%nat then Some r else None
  | None => None
  end.

(** [clock i] is the clock reading seen while the [i]-th alert is
    translated. *)
Definition fetchFlightDataForAlerts `{Runtime, SearchService}
    (clock : nat → Z) (alerts : list Alert.t) (maxFlights : Z)
    : Exc (list AlertWithFlights.t) :=
  if bool_decide (length alerts = 0%nat) then Ok []
  else
    let routeGroups := groupAlertsByRoute alerts in
    let fetchPromises :=
      imap (λ i alert, fetchFlightsForAlert (clock i) alert maxFlights) alerts in
    results ← Promise_all fetchPromises;
    let successfulResults := omap (M:=list) successful results in
    Ok successfulResults.

(** [maxFlights = 5] *)
Definition defaultMaxFlights : Z := 5.

End Fetcher.

(** ** The alert store ([updateAlert] of the alerts adapter) *)

Module UpdateAlertInput.
Record t := mk {
  status : option Status.t;
  filters : option AlertFilters.t;
  alertEnd : option (option string);
}.
End UpdateAlertInput.

Module AlertStore.

(** [.set(updates)] on one row. *)
Definition applyUpdates (updates : UpdateAlertInput.t) (row : Alert.t) : Alert.t :=
  Alert.mk (Alert.id row) (Alert.userId row) (Alert.type row)
    (default (Alert.status row) (UpdateAlertInput.status updates))
    (default (Alert.filters row) (UpdateAlertInput.filters updates))
    (default (Alert.alertEnd row) (UpdateAlertInput.alertEnd updates)).

(** [update(alert).set(updates).where(eq(alert.id, alertId)).returning()]
    on a table keyed by alert id; [result[0] || null].  [reachable]
    tells whether the database call goes through; otherwise it throws
    and the table is unchanged. *)
Definition updateAlert (reachable : bool) (alertId : string) (updates : UpdateAlertInput.t)
    (db : gmap string Alert.t) : gmap string Alert.t * Exc (option Alert.t) :=
  if reachable then
    match db !! alertId with
    | Some row =>
        let row' := applyUpdates updates row in
        (<[alertId := row']> db, Ok (Some row'))
    | None => (db, Ok None)
    end
  else (db, Throw "database unavailable").

End AlertStore.

(** ** Expiry handling of [scripts/generate-email-to-user.ts] *)

Module Lifecycle.

(** [alert.alertEnd && new Date(alert.alertEnd) <= now] *)
Definition isExpired `{Runtime} (now : Z) (alert : Alert.t) : bool :=
  match Alert.alertEnd alert with
  | Some alertEnd =>
      if truthy_str (Some alertEnd) then date_le (Date_parse alertEnd) (Some now) else false
  | None => false
  end.

(** The alert has an end time, and it is at or before [now]. *)
Definition endsBy `{Runtime} (now : Z) (alert : Alert.t) : Prop :=
  ∃ alertEnd e, Alert.alertEnd alert = Some alertEnd
                ∧ Date_parse alertEnd = Some e ∧ e ≤ now.

(** The [for] loop pushing each alert on one of the two arrays; the
    result is [(activeAlerts, expiredAlerts)]. *)
Definition partitionByExpiry `{Runtime} (now : Z) (alerts : list Alert.t)
    : list Alert.t * list Alert.t :=
  foldl (λ '(activeAlerts, expiredAlerts) alert,
           if isExpired now alert
           then (activeAlerts, expiredAlerts ++ [alert])
           else (activeAlerts ++ [alert], expiredAlerts))
        ([], []) alerts.

(** The patch sent for an expired alert: [{ status: "completed" }]. *)
Definition completedPatch : UpdateAlertInput.t :=
  UpdateAlertInput.mk (Some Status.completed) None None.

(** The updates issued for a list of expired alerts. *)
Definition issuedUpdates (expiredAlerts : list Alert.t) : list (string * UpdateAlertInput.t) :=
  (λ alert, (Alert.id alert, completedPatch)) <$> expiredAlerts.

(** Runs the issued updates against the store; [reachable id] tells
    whether the call for alert [id] goes through. *)
Definition runUpdates (reachable : string → bool)
    (updates : list (string * UpdateAlertInput.t)) (db : gmap string Alert.t)
    : gmap string Alert.t * list (Exc (option Alert.t)) :=
  foldl (λ '(db, results) '(alertId, patch),
           let '(db', r) := AlertStore.updateAlert (reachable alertId) alertId patch db in
           (db', results ++ [r]))
        (db, []) updates.

Definition filterAndUpdateExpiredAlerts `{Runtime}
    (reachable : string → bool) (now : Z) (alerts : list Alert.t)
    (db : gmap string Alert.t) : gmap string Alert.t * Exc (list Alert.t) :=
  let '(activeAlerts, expiredAlerts) := partitionByExpiry now alerts in
  if bool_decide (0 < length expiredAlerts)%nat then
    let '(db', results) := runUpdates reachable (issuedUpdates expiredAlerts) db in
    (db', _ ← Promise_all results; Ok activeAlerts)
  else (db, Ok activeAlerts).

(** One run of the lifecycle manager, for any input and any outcome of
    the database calls. *)
Definition lm_step `{Runtime} (db db' : gmap string Alert.t) : Prop :=
  ∃ reachable now alerts,
    db' = (filterAndUpdateExpiredAlerts reachable now alerts db).1.

(** Between two stores, the same alerts are present and each status
    either stays or has become [completed]. *)
Definition status_mono (db db' : gmap string Alert.t) : Prop :=
  ∀ k, match db !! k, db' !! k with
       | Some row, Some row' =>
           Alert.status row' = Alert.status row ∨ Alert.status row' = Status.completed
       | None, None => True
       | _, _ => False
       end.

End Lifecycle.

(** ** Notification payloads ([lib/notifications/types]) *)

Module Money.
Record t := mk { amount : Qc; currency : string }.
End Money.

Module AlertDescriptor.
Record t := mk {
  id : string;
  label : string;
  origin : string;
  destination : string;
  seatType : option string;
  stops : option string;
  airlines : option (list string);
  priceLimit : option Money.t;
}.
End AlertDescriptor.

Module DailyAlertSummary.
Record t := mk {
  alert : AlertDescriptor.t;
  flights : list FlightOption.t;
  generatedAt : string;
}.
End DailyAlertSummary.

Module DailyPriceUpdateEmail.
Record t := mk { summaryDate : string; alerts : list DailyAlertSummary.t }.
End DailyPriceUpdateEmail.

Module PriceDropAlertEmail.
Record t := mk {
  alert : AlertDescriptor.t;
  flights : list FlightOption.t;
  detectedAt : string;
  previousLowestPrice : option Money.t;
  newLowestPrice : option Money.t;
}.
End PriceDropAlertEmail.

(** The tagged union, by its [type] tag. *)
Inductive NotificationEmailPayload :=
| daily_price_update (payload : DailyPriceUpdateEmail.t)
| price_drop_alert (payload : PriceDropAlertEmail.t).

Module RenderedEmail.
Record t := mk { subject : string; html : string; text : string }.
End RenderedEmail.

(** ** Markup: React elements and [renderToStaticMarkup] *)

Module Tag.
Inductive t :=
| html | head | meta | title | body | div | section
| h1 | h2 | h3 | p | span | ul | li | strong | a.

Definition name (tag : t) : string :=
  match tag with
  | html => "html" | head => "head" | meta => "meta" | title => "title"
  | body => "body" | div => "div" | section => "section"
  | h1 => "h1" | h2 => "h2" | h3 => "h3" | p => "p" | span => "span"
  | ul => "ul" | li => "li" | strong => "strong" | a => "a"
  end.

(** Elements without content or closing tag. *)
Definition isVoid (tag : t) : bool :=
  match tag with
  | meta => true
  | _ => false
  end.
End Tag.

Module Attr.
Inductive t := lang | style | charSet | name | content | href.

Definition text (attr : t) : string :=
  match attr with
  | lang => "lang" | style => "style" | charSet => "charSet"
  | name => "name" | content => "content" | href => "href"
  end.
End Attr.

Module Html.

(** An element tree: the intrinsic elements and attributes the
    templates use, and text. *)
#[warnings="-register-all"] Inductive node :=
| text (s : string)
| elem (tag : Tag.t) (attrs : list (Attr.t * string)) (children : list node).

(** The double quote character. *)
Definition dquote : ascii := ascii_of_nat 34.

(** The five characters React escapes in text and attribute values. *)
Definition escape_char (ch : ascii) : string :=
  if bool_decide (ch = "&"%char) then "&amp;"
  else if bool_decide (ch = "<"%char) then "&lt;"
  else if bool_decide (ch = ">"%char) then "&gt;"
  else if bool_decide (ch = dquote) then "&quot;"
  else if bool_decide (ch = "'"%char) then "&#x27;"
  else String ch "".

(** [escaped s rest]: the escaped form of [s], followed by [rest]. *)
Fixpoint escaped (s : string) (rest : string) : string :=
  match s with
  | EmptyString => rest
  | String ch s' => escape_char ch +:+ escaped s' rest
  end.

Fixpoint attributes (attrs : list (Attr.t * string)) (rest : string) : string :=
  match attrs with
  | [] => rest
  | (name, value) :: attrs' =>
      " " +:+ Attr.text name +:+ "=" +:+
      String dquote (escaped value (String dquote (attributes attrs' rest)))
  end.

(** [markup n rest]: the static markup of [n], followed by [rest]. *)
Fixpoint markup (n : node) (rest : string) : string :=
  match n with
  | text s => escaped s rest
  | elem tag attrs children =>
      "<" +:+ Tag.name tag +:+
      attributes attrs
        (if Tag.isVoid tag then "/>" +:+ rest
         else ">" +:+
              (fix all (cs : list node) : string :=
                 match cs with
                 | [] => "</" +:+ Tag.name tag +:+ ">" +:+ rest
                 | child :: cs' => markup child (all cs')
                 end) children)
  end.

Definition renderToStaticMarkup (n : node) : string := markup n "".

(** The escaped text of the tree in document order, followed by [rest]. *)
Fixpoint textOf (n : node) (rest : string) : string :=
  match n with
  | text s => escaped s rest
  | elem tag _ children =>
      if Tag.isVoid tag then rest
      else (fix all (cs : list node) : string :=
              match cs with
              | [] => rest
              | child :: cs' => textOf child (all cs')
              end) children
  end.

(** [t] is the content of a text node of the tree, outside void
    elements. *)
Fixpoint hasText (t : string) (n : node) : Prop :=
  match n with
  | text s => s = t
  | elem tag _ children =>
      Tag.isVoid tag = false
      ∧ (fix any (cs : list node) : Prop :=
           match cs with
           | [] => False
           | child :: cs' => hasText t child ∨ any cs'
           end) children
  end.

(** [{cond ? <x/> : null}] *)
Definition when (o : option node) : list node :=
  match o with
  | Some n => [n]
  | None => []
  end.

Definition style (css : string) : list (Attr.t * string) := [(Attr.style, css)].

End Html.

(** ** Formatters and platform functions *)

(** Modelled from the spec: the [lib/notifications/formatters] module
    ([escapeHtml], [formatCurrency], [formatDate], [formatDateTime],
    [joinWithAnd]) is not among the sources.  The specification has the
    fallback path free of external dependencies and always succeeding,
    so the formatters are taken as total functions on text, otherwise
    arbitrary.  [Date_toLocaleString] stands for
    [new Date(s).toLocaleString("en-US", ...)] and [URL_canParse] for
    the URL syntax check of the schema library. *)
Class Formatters := {
  escapeHtml : string → string;
  formatCurrency : Qc → string → option Z → string;
  formatDate : string → string;
  formatDateTime : string → string;
  joinWithAnd : list string → string;
  Date_toLocaleString : string → string;
  URL_canParse : string → bool;
}.

(** Modelled from the spec: [stripHtml] of the same missing module.
    "[text] is always derivable from [html] by stripping markup":
    everything from a [<] up to the next [>] is dropped, the rest is
    kept. *)
Fixpoint strip_from (inTag : bool) (html : string) : string :=
  match html with
  | EmptyString => EmptyString
  | String ch rest =>
      if inTag then
        strip_from (negb (bool_decide (ch = ">"%char))) rest
      else if bool_decide (ch = "<"%char) then strip_from true rest
      else String ch (strip_from false rest)
  end.

Definition stripHtml (html : string) : string := strip_from false html.

(** [value.toFixed(0)] on a rational: nearest integer, ties away from
    zero, with the sign of the value. *)
Definition toFixed0 (q : Qc) : string :=
  let n := Qfloor (Qabs (this q) + (1 # 2)) in
  if bool_decide (q < 0)%Qc then "-" +:+ Number_toString n else Number_toString n.

(** ** Email components ([templates/components]) *)

Module Components.

Import Html.

Definition EmailLayout (previewText : string) (children : list node) : node :=
  elem Tag.html [(Attr.lang, "en"); (Attr.style, "width:100%")]
    [ elem Tag.head []
        [ elem Tag.meta [(Attr.charSet, "UTF-8")] [];
          elem Tag.meta [(Attr.name, "viewport");
                       (Attr.content, "width=device-width, initial-scale=1")] [];
          elem Tag.title [] [text "Flight Alerts"] ];
      elem Tag.body
        (style "font-family:-apple-system, BlinkMacSystemFont, 'Segoe UI', sans-serif;margin:0;padding:0;background-color:#f4f6fb;color:#0f172a")
        [ elem Tag.div (style "display:none;max-height:0;overflow:hidden") [text previewText];
          elem Tag.div (style "width:100%;padding:24px 0")
            [ elem Tag.div
                (style "max-width:640px;margin:0 auto;background:#ffffff;border-radius:12px;box-shadow:0 12px 36px rgba(15, 23, 42, 0.08);overflow:hidden")
                (children ++
                 [ elem Tag.div
                     (style "padding:24px 28px;font-size:13px;color:#64748b;border-top:1px solid #e2e8f0")
                     [text "You are receiving this update because you subscribed to flight alerts."] ]) ] ] ].

Definition EmailSection (title description : option string) (children : list node) : node :=
  elem Tag.section (style "padding:28px;border-bottom:1px solid #e2e8f0")
    (when (if truthy_str title
           then (λ t, elem Tag.h2 (style "margin:0 0 8px;font-size:18px;font-weight:600;color:#0f172a")
                        [text t]) <$> title
           else None)
     ++ when (if truthy_str description
              then (λ d, elem Tag.p (style "margin:0 0 16px;font-size:14px;color:#64748b")
                           [text d]) <$> description
              else None)
     ++ [elem Tag.div (style "display:grid;gap:16px") children]).

Definition TextBlock (headline : option string) (body : string) : node :=
  elem Tag.div []
    (when (if truthy_str headline
           then (λ h, elem Tag.h3 (style "margin:0 0 6px;font-size:16px;font-weight:600;color:#0f172a")
                        [text h]) <$> headline
           else None)
     ++ [elem Tag.p (style "margin:0;font-size:14px;line-height:1.6;color:#475569") [text body]]).

Definition BadgeRow (items : list string) : node :=
  elem Tag.div (style "display:flex;flex-wrap:wrap;gap:8px")
    ((λ label,
        elem Tag.span
          (style "display:inline-block;padding:4px 10px;font-size:12px;border-radius:9999px;background:#eef2ff;color:#4338ca;letter-spacing:0.02em")
          [text label]) <$> items).

Module FlightHighlight.
Record t := mk { label : string; value : string }.
End FlightHighlight.

Module CardAction.
Record t := mk { label : string; url : string }.
End CardAction.

Module FlightCardProps.
Record t := mk {
  title : string;
  description : string;
  highlights : list FlightHighlight.t;
  action : option CardAction.t;
}.
End FlightCardProps.

Definition FlightCard (card : FlightCardProps.t) : node :=
  elem Tag.div (style "border:1px solid #e2e8f0;border-radius:12px;padding:20px;background:#ffffff")
    ([ elem Tag.div (style "display:flex;justify-content:space-between;gap:12px")
         [ elem Tag.div []
             [ elem Tag.h3 (style "margin:0 0 6px;font-size:16px;color:#0f172a")
                 [text (FlightCardProps.title card)];
               elem Tag.p (style "margin:0;font-size:13px;color:#64748b")
                 [text (FlightCardProps.description card)] ] ];
       elem Tag.ul (style "list-style:none;padding:0;margin:16px 0 0;display:grid;gap:8px")
         ((λ item,
             elem Tag.li (style "font-size:13px;color:#475569")
               [ elem Tag.strong (style "color:#0f172a")
                   [text (FlightHighlight.label item); text ":"];
                 text " ";
                 text (FlightHighlight.value item) ])
          <$> FlightCardProps.highlights card) ]
     ++ when ((λ action,
                 elem Tag.div (style "margin-top:16px")
                   [ elem Tag.a
                       [(Attr.href, CardAction.url action);
                        (Attr.style, "display:inline-block;padding:10px 16px;border-radius:8px;background:#4338ca;color:#ffffff;text-decoration:none;font-size:13px;font-weight:600")]
                       [text (CardAction.label action)] ])
              <$> FlightCardProps.action card)).

Definition FlightCardGrid (cards : list FlightCardProps.t) : node :=
  elem Tag.div (style "display:grid;gap:16px") (FlightCard <$> cards).

(** [flight.slices[0]?.legs[0]] and the last leg of the last slice. *)
Definition firstLeg (flight : FlightOption.t) : option Leg.t :=
  head (FlightOption.slices flight) ≫= λ slice, head (Slice.legs slice).

Definition lastLeg (flight : FlightOption.t) : option Leg.t :=
  last (FlightOption.slices flight) ≫= λ slice, last (Slice.legs slice).

Definition buildFlightHighlights `{Formatters} (flight : FlightOption.t)
    : list FlightHighlight.t :=
  let durationMinutes :=
    foldl (λ acc slice, acc + Slice.durationMinutes slice) 0 (FlightOption.slices flight) in
  let totalStops :=
    foldl (λ acc slice, acc + Slice.stops slice) 0 (FlightOption.slices flight) in
  [ FlightHighlight.mk "Price"
      (toFixed0 (FlightOption.totalPrice flight) +:+ " " +:+ FlightOption.currency flight);
    FlightHighlight.mk "Duration"
      (Number_toString (durationMinutes `div` 60) +:+ "h " +:+
       Number_toString (durationMinutes `rem` 60) +:+ "m");
    FlightHighlight.mk "Stops"
      (if bool_decide (totalStops = 0) then "Nonstop"
       else Number_toString totalStops +:+ " stop" +:+
            (if bool_decide (1 < totalStops) then "s" else "")) ]
  ++ omap id
       [ (λ leg, FlightHighlight.mk "Departure"
                   (Leg.departureAirportCode leg +:+ " • " +:+
                    Date_toLocaleString (Leg.departureDateTime leg)))
         <$> firstLeg flight;
         (λ leg, FlightHighlight.mk "Arrival"
                   (Leg.arrivalAirportCode leg +:+ " • " +:+
                    Date_toLocaleString (Leg.arrivalDateTime leg)))
         <$> lastLeg flight ].

End Components.

(** ** [templates/base] and [templates/blueprint-utils] *)

Module Templates.

Import Html Components.

Definition renderEmail (subject html : string) : RenderedEmail.t :=
  RenderedEmail.mk subject html (stripHtml html).

Definition DOCTYPE : string := "<!DOCTYPE html>".

Definition wrapWithLayout (previewText : string) (children : list node) : string :=
  DOCTYPE +:+ renderToStaticMarkup (EmailLayout previewText children).

(** [`Option ${idx + 1}`] cards of a list of flights. *)
Definition optionCards `{Formatters} (origin destination : string)
    (flights : list FlightOption.t) : list FlightCardProps.t :=
  imap (λ idx flight,
          FlightCardProps.mk
            ("Option " +:+ Number_toString (Z.of_nat idx + 1))
            (origin +:+ " → " +:+ destination)
            (buildFlightHighlights flight)
            None)
       flights.

End Templates.

(** ** Blueprints ([ai-email-schemas]) *)

Module Blueprint.

Inductive Tone := concise | detailed | urgent | celebratory.
Inductive ChartType := sparkline | bar.
Inductive ChartUnit := usd | minutes | percent | count.

Module CallToAction.
Record t := mk { label : string; url : option string }.
End CallToAction.

Module Metadata.
Record t := mk {
  subject : string;
  previewText : string;
  intro : string;
  callToAction : option CallToAction.t;
  personalization : option string;
}.
End Metadata.

Inductive Component :=
| TextBlockComponent (id : string) (headline : option string) (body : string) (tone : Tone)
| FlightCardComponent (id title description : string)
    (highlights : list (string * string)) (action : option (string * string))
| ChartComponent (id title : string) (chartType : ChartType) (unit : option ChartUnit)
    (data : list (string * Qc)) (summary : string)
| BadgeRowComponent (id : string) (items : list string).

Module Section.
Record t := mk {
  id : string;
  title : option string;
  description : option string;
  components : list Component;
}.
End Section.

Record t := mk { metadata : Metadata.t; sections : list Section.t }.

End Blueprint.

(** A parsed JSON value, as an AI response comes back. *)
#[warnings="-register-all"] Inductive json :=
| JNull
| JBool (b : bool)
| JNum (q : Qc)
| JStr (s : string)
| JArr (items : list json)
| JObj (fields : list (string * json)).

(** The schema combinators in use; a parser returns [None] on a
    mismatch.  String lengths count characters of the model's strings. *)
Module Zod.

Definition field (key : string) (j : json) : option json :=
  match j with
  | JObj fields => snd <$> List.find (λ kv, bool_decide (kv.1 = key)) fields
  | _ => None
  end.

Definition isObject (j : json) : bool :=
  match j with
  | JObj _ => true
  | _ => false
  end.

(** A required key: present and valid. *)
Definition required {A} (p : json → option A) (key : string) (j : json) : option A :=
  field key j ≫= p.

(** [.optional()]: absent, or present and valid. *)
Definition optional {A} (p : json → option A) (key : string) (j : json)
    : option (option A) :=
  match field key j with
  | None => if isObject j then Some None else None
  | Some v => Some <$> p v
  end.

(** [z.string().min(lo).max(hi)] *)
Definition string_between (lo hi : nat) (j : json) : option string :=
  match j with
  | JStr s =>
      if bool_decide (lo ≤ String.length s ≤ hi)%nat then Some s else None
  | _ => None
  end.

(** [z.string().min(lo)] *)
Definition string_min (lo : nat) (j : json) : option string :=
  match j with
  | JStr s => if bool_decide (lo ≤ String.length s)%nat then Some s else None
  | _ => None
  end.

(** [z.string().max(hi)] *)
Definition string_max (hi : nat) (j : json) : option string :=
  match j with
  | JStr s => if bool_decide (String.length s ≤ hi)%nat then Some s else None
  | _ => None
  end.

(** [z.string().url()] *)
Definition url `{Formatters} (j : json) : option string :=
  match j with
  | JStr s => if URL_canParse s then Some s else None
  | _ => None
  end.

(** [z.number().finite()] *)
Definition number (j : json) : option Qc :=
  match j with
  | JNum q => Some q
  | _ => None
  end.

(** [z.literal(s)] *)
Definition literal (s : string) (j : json) : option unit :=
  match j with
  | JStr s' => if bool_decide (s' = s) then Some () else None
  | _ => None
  end.

(** [z.enum([...])] *)
Definition enum {A} (table : list (string * A)) (j : json) : option A :=
  match j with
  | JStr s => snd <$> List.find (λ kv, bool_decide (kv.1 = s)) table
  | _ => None
  end.

(** [z.array(p).min(lo).max(hi)] *)
Definition array_between {A} (lo hi : nat) (p : json → option A) (j : json)
    : option (list A) :=
  match j with
  | JArr items =>
      if bool_decide (lo ≤ length items ≤ hi)%nat then mapM p items else None
  | _ => None
  end.

End Zod.

Module Schemas.

Import Zod.

Definition CallToAction `{Formatters} (j : json) : option Blueprint.CallToAction.t :=
  label ← required (string_between 1 60) "label" j;
  url ← optional url "url" j;
  Some (Blueprint.CallToAction.mk label url).

Definition EmailBlueprintMetadataSchema `{Formatters} (j : json)
    : option Blueprint.Metadata.t :=
  subject ← required (string_between 1 120) "subject" j;
  previewText ← required (string_between 1 180) "previewText" j;
  intro ← required (string_between 1 600) "intro" j;
  callToAction ← optional CallToAction "callToAction" j;
  personalization ← optional (string_max 240) "personalization" j;
  Some (Blueprint.Metadata.mk subject previewText intro callToAction personalization).

Definition TextBlockComponentSchema (j : json) : option Blueprint.Component :=
  id ← required (string_min 1) "id" j;
  _ ← required (literal "text") "type" j;
  headline ← optional (string_between 1 120) "headline" j;
  body ← required (string_between 1 800) "body" j;
  tone ← optional (enum [("concise", Blueprint.concise); ("detailed", Blueprint.detailed);
                         ("urgent", Blueprint.urgent);
                         ("celebratory", Blueprint.celebratory)]) "tone" j;
  Some (Blueprint.TextBlockComponent id headline body (default Blueprint.concise tone)).

Definition highlight (j : json) : option (string * string) :=
  label ← required (string_between 1 60) "label" j;
  value ← required (string_between 1 120) "value" j;
  Some (label, value).

Definition cardAction `{Formatters} (j : json) : option (string * string) :=
  label ← required (string_between 1 50) "label" j;
  url ← required url "url" j;
  Some (label, url).

Definition FlightCardComponentSchema `{Formatters} (j : json)
    : option Blueprint.Component :=
  id ← required (string_min 1) "id" j;
  _ ← required (literal "flight-card") "type" j;
  title ← required (string_between 1 120) "title" j;
  description ← required (string_between 1 240) "description" j;
  highlights ← required (array_between 1 6 highlight) "highlights" j;
  action ← optional cardAction "action" j;
  Some (Blueprint.FlightCardComponent id title description highlights action).

Definition chartPoint (j : json) : option (string * Qc) :=
  label ← required (string_between 1 40) "label" j;
  value ← required number "value" j;
  Some (label, value).

Definition ChartComponentSchema (j : json) : option Blueprint.Component :=
  id ← required (string_min 1) "id" j;
  _ ← required (literal "chart") "type" j;
  title ← required (string_between 1 120) "title" j;
  chartType ← required (enum [("sparkline", Blueprint.sparkline);
                              ("bar", Blueprint.bar)]) "chartType" j;
  unit ← optional (enum [("usd", Blueprint.usd); ("minutes", Blueprint.minutes);
                         ("percent", Blueprint.percent);
                         ("count", Blueprint.count)]) "unit" j;
  data ← required (array_between 2 20 chartPoint) "data" j;
  summary ← required (string_between 1 200) "summary" j;
  Some (Blueprint.ChartComponent id title chartType unit data summary).

Definition badge (j : json) : option string :=
  required (string_between 1 40) "label" j.

Definition BadgeRowComponentSchema (j : json) : option Blueprint.Component :=
  id ← required (string_min 1) "id" j;
  _ ← required (literal "badge-row") "type" j;
  items ← required (array_between 1 10 badge) "items" j;
  Some (Blueprint.BadgeRowComponent id items).

(** [z.discriminatedUnion("type", [...])] *)
Definition EmailComponentSchema `{Formatters} (j : json) : option Blueprint.Component :=
  match field "type" j with
  | Some (JStr tag) =>
      if bool_decide (tag = "text") then TextBlockComponentSchema j
      else if bool_decide (tag = "flight-card") then FlightCardComponentSchema j
      else if bool_decide (tag = "chart") then ChartComponentSchema j
      else if bool_decide (tag = "badge-row") then BadgeRowComponentSchema j
      else None
  | _ => None
  end.

Definition EmailSectionSchema `{Formatters} (j : json) : option Blueprint.Section.t :=
  id ← required (string_min 1) "id" j;
  title ← optional (string_between 1 120) "title" j;
  description ← optional (string_between 1 240) "description" j;
  components ← required (array_between 1 6 EmailComponentSchema) "components" j;
  Some (Blueprint.Section.mk id title description components).

Definition EmailBlueprintSchema `{Formatters} (j : json) : option Blueprint.t :=
  metadata ← required EmailBlueprintMetadataSchema "metadata" j;
  sections ← required (array_between 1 6 EmailSectionSchema) "sections" j;
  Some (Blueprint.mk metadata sections).

(** [EmailBlueprintSchema.safeParse(candidate)]: the data on success. *)
Definition safeParse `{Formatters} (candidate : json) : option Blueprint.t :=
  EmailBlueprintSchema candidate.

End Schemas.

(** ** AI blueprint generation ([ai-email-agent]) *)

(** The generation collaborator and its configuration.  The context
    builders of [ai-email-context] are pure summaries of the payload
    that only feed the prompt; they are kept abstract, as is the
    collaborator, which returns a parsed object or throws. *)
Class AiGateway := {
  AI_GATEWAY_API_KEY : option string;
  BlueprintContext : Type;
  buildPriceDropBlueprintContext : PriceDropAlertEmail.t → BlueprintContext;
  buildDailyDigestBlueprintContext : DailyPriceUpdateEmail.t → BlueprintContext;
  generateObject : string → string → BlueprintContext → Exc json;
}.

(** The rendering of a validated blueprint
    ([renderBlueprintEmail] of either template) may throw; what it
    produces plays no part below and is left open. *)
Class BlueprintRenderer := {
  renderBlueprintEmail_daily :
    DailyPriceUpdateEmail.t → Blueprint.t → string → string → Exc RenderedEmail.t;
  renderBlueprintEmail_priceDrop :
    PriceDropAlertEmail.t → Blueprint.t → string → string → Exc RenderedEmail.t;
}.

Module AiEmailAgent.

(** [if (candidate)] *)
Definition truthy (j : json) : bool :=
  match j with
  | JNull => false
  | JBool b => b
  | JNum q => negb (bool_decide (q = 0%Qc))
  | JStr s => negb (bool_decide (s = ""))
  | JArr _ | JObj _ => true
  end.

Definition generateBlueprint `{Formatters, AiGateway}
    (type prompt : string) (context : BlueprintContext) : Exc (option Blueprint.t) :=
  if negb (truthy_str AI_GATEWAY_API_KEY) then Ok None
  else
    try_catch
      (candidate ← generateObject type prompt context;
       if truthy candidate then
         match Schemas.safeParse candidate with
         | Some data => Ok (Some data)
         | None => Ok None
         end
       else Ok None)
      (λ _, Ok None).

Definition priceDropPrompt : string :=
  "Flight alert price drop context provided. Produce a compelling summary highlighting savings, urgency, and best flight options.".

Definition dailyDigestPrompt : string :=
  "Daily flight alert digest context provided. Summarize key findings, highlight notable routes, and include chart-ready insights.".

Definition generatePriceDropBlueprint `{Formatters, AiGateway}
    (context : BlueprintContext) : Exc (option Blueprint.t) :=
  generateBlueprint "price-drop" priceDropPrompt context.

Definition generateDailyDigestBlueprint `{Formatters, AiGateway}
    (context : BlueprintContext) : Exc (option Blueprint.t) :=
  generateBlueprint "daily-update" dailyDigestPrompt context.

(** The collaborator's answer to the request made for a payload. *)
Definition aiResponse `{AiGateway} (payload : NotificationEmailPayload) : Exc json :=
  match payload with
  | daily_price_update payload =>
      generateObject "daily-update" dailyDigestPrompt
        (buildDailyDigestBlueprintContext payload)
  | price_drop_alert payload =>
      generateObject "price-drop" priceDropPrompt
        (buildPriceDropBlueprintContext payload)
  end.

End AiEmailAgent.

(** ** [templates/daily-price-update] *)

Module DailyPriceUpdate.

Import Html Components Templates.

(** The badge labels of an alert descriptor, in order. *)
Definition badges `{Formatters} (prefix : string) (digits : option Z)
    (alert : AlertDescriptor.t) : list string :=
  omap id
    [ if truthy_str (AlertDescriptor.seatType alert) then AlertDescriptor.seatType alert
      else None;
      if truthy_str (AlertDescriptor.stops alert) then AlertDescriptor.stops alert
      else None;
      if Fetcher.hasAirlines (AlertDescriptor.airlines alert)
      then (λ airlines, "Airlines: " +:+ joinWithAnd airlines)
           <$> AlertDescriptor.airlines alert
      else None;
      (λ limit, prefix +:+ formatCurrency (Money.amount limit) (Money.currency limit) digits)
      <$> AlertDescriptor.priceLimit alert ].

Definition noMatches : string := "No new flight matches were found in the past day.".

Definition renderFallbackSections `{Formatters} (payload : DailyPriceUpdateEmail.t)
    : list node :=
  if bool_decide (length (DailyPriceUpdateEmail.alerts payload) = 0%nat) then
    [ EmailSection None None [TextBlock None noMatches] ]
  else
    (λ summary,
       let alert := DailyAlertSummary.alert summary in
       let generated := formatDateTime (DailyAlertSummary.generatedAt summary) in
       EmailSection (Some (AlertDescriptor.label alert))
         (Some (AlertDescriptor.origin alert +:+ " → " +:+
                AlertDescriptor.destination alert +:+ " • Updated " +:+ generated))
         [ BadgeRow (badges "Max " None alert);
           FlightCardGrid
             (optionCards (AlertDescriptor.origin alert) (AlertDescriptor.destination alert)
                (DailyAlertSummary.flights summary)) ])
    <$> DailyPriceUpdateEmail.alerts payload.

Definition renderFallbackEmail `{Formatters}
    (payload : DailyPriceUpdateEmail.t) (subject previewText : string) : RenderedEmail.t :=
  let sections := renderFallbackSections payload in
  let html :=
    wrapWithLayout previewText
      ([ EmailSection (Some "Daily flight price update") None
           [ TextBlock None
               ("Summary for " +:+
                escapeHtml (formatDate (DailyPriceUpdateEmail.summaryDate payload))) ] ]
       ++ sections) in
  renderEmail subject html.

Definition subjectOf `{Formatters} (payload : DailyPriceUpdateEmail.t) : string :=
  "Daily update: " +:+ formatDate (DailyPriceUpdateEmail.summaryDate payload) +:+ " alerts".

Definition previewTextOf (payload : DailyPriceUpdateEmail.t) : string :=
  let n := Z.of_nat (length (DailyPriceUpdateEmail.alerts payload)) in
  if bool_decide (n = 0) then "No new matches today."
  else "Top matches for " +:+ Number_toString n +:+ " active alert" +:+
       (if bool_decide (1 < n) then "s" else "") +:+ ".".

(** [options?.blueprint] is the second argument. *)
Definition renderDailyPriceUpdateEmail `{Formatters, BlueprintRenderer}
    (payload : DailyPriceUpdateEmail.t) (blueprint : option Blueprint.t)
    : Exc RenderedEmail.t :=
  let subject := subjectOf payload in
  let previewText := previewTextOf payload in
  match blueprint with
  | None => Ok (renderFallbackEmail payload subject previewText)
  | Some blueprint =>
      try_catch (renderBlueprintEmail_daily payload blueprint subject previewText)
        (λ _, Ok (renderFallbackEmail payload subject previewText))
  end.

End DailyPriceUpdate.

(** ** [templates/price-drop-alert] *)

Module PriceDropAlert.

Import Html Components Templates.

Module HeroContent.
Record t := mk {
  title : string;
  subtitle : string;
  updated : string;
  badges : list string;
  summary : option string;
}.
End HeroContent.

Definition summaryDivOpen : string :=
  "<div style=" +:+ String dquote "font-size:14px; color:#4338ca; margin-top:12px;"
  +:+ String dquote ">".

Definition buildHeroContent `{Formatters} (payload : PriceDropAlertEmail.t) : HeroContent.t :=
  let alert := PriceDropAlertEmail.alert payload in
  let detectedLabel := formatDateTime (PriceDropAlertEmail.detectedAt payload) in
  let priceSummary :=
    match PriceDropAlertEmail.newLowestPrice payload with
    | Some newLowest =>
        let newPrice := formatCurrency (Money.amount newLowest) (Money.currency newLowest) None in
        match PriceDropAlertEmail.previousLowestPrice payload with
        | Some previous =>
            let previousPrice :=
              formatCurrency (Money.amount previous) (Money.currency previous) None in
            summaryDivOpen +:+ "New low price " +:+ escapeHtml newPrice +:+ " (was " +:+
            escapeHtml previousPrice +:+ ")</div>"
        | None =>
            summaryDivOpen +:+ "Lowest available price " +:+ escapeHtml newPrice +:+ "</div>"
        end
    | None => ""
    end in
  HeroContent.mk
    (AlertDescriptor.origin alert +:+ " → " +:+ AlertDescriptor.destination alert)
    ("Alert: " +:+ AlertDescriptor.label alert)
    ("Updated " +:+ detectedLabel)
    (DailyPriceUpdate.badges "Target: " None alert)
    (if truthy_str (Some priceSummary) then Some priceSummary else None).

Definition renderHero `{Formatters} (payload : PriceDropAlertEmail.t) : node :=
  let hero := buildHeroContent payload in
  elem Tag.section
    (style "padding:32px 28px;border-bottom:1px solid #e2e8f0;background:linear-gradient(135deg, #eef2ff 0%, #fff 100%)")
    ([ elem Tag.div
         (style "font-size:13px;color:#64748b;text-transform:uppercase;letter-spacing:0.1em")
         [text "Price drop detected"];
       elem Tag.h1 (style "margin:8px 0 0;font-size:22px;color:#0f172a")
         [text (HeroContent.title hero)];
       elem Tag.div (style "font-size:14px;color:#475569;margin-top:6px")
         [text (HeroContent.subtitle hero)];
       elem Tag.div (style "font-size:13px;color:#64748b;margin-top:6px")
         [text (HeroContent.updated hero)] ]
     ++ when (if bool_decide (0 < length (HeroContent.badges hero))%nat
              then Some (elem Tag.div
                           (style "margin-top:10px;display:flex;gap:6px;flex-wrap:wrap")
                           ((λ label,
                               elem Tag.span
                                 (style "display:inline-block;padding:4px 10px;font-size:12px;border-radius:9999px;background:#eef2ff;color:#4338ca;letter-spacing:0.02em")
                                 [text label]) <$> HeroContent.badges hero))
              else None)
     ++ when ((λ summary,
                 elem Tag.div (style "font-size:14px;color:#4338ca;margin-top:12px")
                   [text summary]) <$> HeroContent.summary hero)).

Definition renderFallbackEmail `{Formatters}
    (payload : PriceDropAlertEmail.t) (subject previewText : string) : RenderedEmail.t :=
  let alert := PriceDropAlertEmail.alert payload in
  let html :=
    wrapWithLayout previewText
      [ renderHero payload;
        EmailSection None None
          [ TextBlock None
              "Here are the best matches right now. Prices can change quickly, so book soon if any option works for you.";
            FlightCardGrid
              (optionCards (AlertDescriptor.origin alert) (AlertDescriptor.destination alert)
                 (PriceDropAlertEmail.flights payload)) ] ] in
  renderEmail subject html.

(** [parts.join(sep)] *)
Fixpoint join (sep : string) (parts : list string) : string :=
  match parts with
  | [] => ""
  | [part] => part
  | part :: parts' => part +:+ sep +:+ join sep parts'
  end.

Definition baseSubjectOf (payload : PriceDropAlertEmail.t) : string :=
  let alert := PriceDropAlertEmail.alert payload in
  "Price drop: " +:+ AlertDescriptor.origin alert +:+ " → " +:+
  AlertDescriptor.destination alert.

Definition fallbackPreviewOf `{Formatters} (payload : PriceDropAlertEmail.t) : string :=
  let previewParts :=
    match PriceDropAlertEmail.newLowestPrice payload with
    | Some newLowest =>
        [formatCurrency (Money.amount newLowest) (Money.currency newLowest) (Some 0)]
    | None => []
    end
    ++ [formatDate (PriceDropAlertEmail.detectedAt payload)] in
  join " • " previewParts.

Definition renderPriceDropAlertEmail `{Formatters, BlueprintRenderer}
    (payload : PriceDropAlertEmail.t) (blueprint : option Blueprint.t)
    : Exc RenderedEmail.t :=
  let baseSubject := baseSubjectOf payload in
  let fallbackPreview := fallbackPreviewOf payload in
  match blueprint with
  | None => Ok (renderFallbackEmail payload baseSubject fallbackPreview)
  | Some blueprint =>
      try_catch (renderBlueprintEmail_priceDrop payload blueprint baseSubject fallbackPreview)
        (λ _, Ok (renderFallbackEmail payload baseSubject fallbackPreview))
  end.

End PriceDropAlert.

(** ** [ai-email-service] and [send-notification] *)

Module AiEmailService.

Import AiEmailAgent.

Definition renderPriceDropEmailWithAI `{Formatters, AiGateway, BlueprintRenderer}
    (payload : PriceDropAlertEmail.t) : Exc RenderedEmail.t :=
  let context := buildPriceDropBlueprintContext payload in
  try_catch
    (blueprint ← generatePriceDropBlueprint context;
     match blueprint with
     | None => PriceDropAlert.renderPriceDropAlertEmail payload None
     | Some blueprint => PriceDropAlert.renderPriceDropAlertEmail payload (Some blueprint)
     end)
    (λ _, PriceDropAlert.renderPriceDropAlertEmail payload None).

Definition renderDailyDigestEmailWithAI `{Formatters, AiGateway, BlueprintRenderer}
    (payload : DailyPriceUpdateEmail.t) : Exc RenderedEmail.t :=
  let context := buildDailyDigestBlueprintContext payload in
  try_catch
    (blueprint ← generateDailyDigestBlueprint context;
     match blueprint with
     | None => DailyPriceUpdate.renderDailyPriceUpdateEmail payload None
     | Some blueprint => DailyPriceUpdate.renderDailyPriceUpdateEmail payload (Some blueprint)
     end)
    (λ _, DailyPriceUpdate.renderDailyPriceUpdateEmail payload None).

(** [buildEmailContent]: the switch on the payload's [type]. *)
Definition buildEmailContent `{Formatters, AiGateway, BlueprintRenderer}
    (payload : NotificationEmailPayload) : Exc RenderedEmail.t :=
  match payload with
  | daily_price_update payload => renderDailyDigestEmailWithAI payload
  | price_drop_alert payload => renderPriceDropEmailWithAI payload
  end.

(** Rendering a payload with no blueprint: the template of its kind,
    called without options. *)
Definition renderWithoutBlueprint `{Formatters, BlueprintRenderer}
    (payload : NotificationEmailPayload) : Exc RenderedEmail.t :=
  match payload with
  | daily_price_update payload => DailyPriceUpdate.renderDailyPriceUpdateEmail payload None
  | price_drop_alert payload => PriceDropAlert.renderPriceDropAlertEmail payload None
  end.

End AiEmailService.

(** ** The result filter as the specification words it

    Three predicates on a flight, each vacuous when its criterion is
    not in force, to be compared with [Fetcher.keepFlight]. *)

Module FilterSpec.

(** The price ceiling in force; a ceiling of 0 is no ceiling. *)
Definition priceCeiling (c : Filters.t) : option Qc :=
  match Filters.price c with
  | Some p => if bool_decide (p = 0%Qc) then None else Some p
  | None => None
  end.

(** The allow-set in force: the upper-cased codes of a non-empty list. *)
Definition allowSet (c : Filters.t) : option (gset string) :=
  match Filters.airlines c with
  | Some (code :: codes) => Some (Fetcher.allowedAirlines (code :: codes))
  | _ => None
  end.

(** The stops tier in force. *)
Definition stopsTier (c : Filters.t) : option string :=
  match Filters.stops c with
  | Some tier => if bool_decide (tier = "") then None else Some tier
  | None => None
  end.

(** The numeric ceiling of a tier: NONSTOP 0, ONE_STOP 1, TWO_STOPS 2,
    no bound otherwise. *)
Inductive tierCeiling : string → option Z → Prop :=
| ceiling_nonstop : tierCeiling "NONSTOP" (Some 0)
| ceiling_one_stop : tierCeiling "ONE_STOP" (Some 1)
| ceiling_two_stops : tierCeiling "TWO_STOPS" (Some 2)
| ceiling_any tier :
    tier ≠ "NONSTOP" → tier ≠ "ONE_STOP" → tier ≠ "TWO_STOPS" → tierCeiling tier None.

Definition price_pred (c : Filters.t) (F : FlightOption.t) : Prop :=
  ∀ p, priceCeiling c = Some p → ¬ (p < FlightOption.totalPrice F)%Qc.

Definition airline_pred (c : Filters.t) (F : FlightOption.t) : Prop :=
  ∀ allowed, allowSet c = Some allowed →
    ∃ slice leg,
      slice ∈ FlightOption.slices F ∧ leg ∈ Slice.legs slice
      ∧ Leg.airlineCode leg ∈ allowed.

Definition stops_pred (c : Filters.t) (F : FlightOption.t) : Prop :=
  ∀ tier bound, stopsTier c = Some tier → tierCeiling tier (Some bound) →
    ∀ slice, slice ∈ FlightOption.slices F → Slice.stops slice ≤ bound.

Definition satisfies (c : Filters.t) (F : FlightOption.t) : Prop :=
  price_pred c F ∧ airline_pred c F ∧ stops_pred c F.

(** The bundle [c] with its price ceiling removed. *)
Definition withoutPrice (c : Filters.t) : Filters.t :=
  Filters.mk (Filters.dateFrom c) (Filters.dateTo c) (Filters.departureTimeRange c)
    (Filters.arrivalTimeRange c) (Filters.class c) (Filters.stops c)
    (Filters.airlines c) None.

(** Equality of two codes ignoring letter case. *)
Definition eq_ignore_case (a b : string) : Prop := toUpperCase a = toUpperCase b.

End FilterSpec.

(** ** The batch processor as the specification words it

    Per alert: translate; when the translator returns null, skip;
    otherwise validate and search; cap the results, then filter them.
    A failure yields no entry, and neither does an empty result. *)

Module BatchSpec.

Inductive outcome :=
| Skipped
| Failed (e : string)
| Found (flights : list FlightOption.t).

Definition processAlert `{Runtime, Fetcher.SearchService}
    (now : Z) (alert : Alert.t) (maxFlights : Z) : outcome :=
  match Fetcher.convertAlertFiltersToFlightFilters now (Alert.filters alert) with
  | None => Skipped
  | Some query =>
      match Fetcher.parseFlightFiltersInput query with
      | Throw e => Failed e
      | Ok validated =>
          match Fetcher.searchFlights validated with
          | Throw e => Failed e
          | Ok raw =>
              Found (Fetcher.filterFlightsByAlertCriteria
                       (take (Z.to_nat maxFlights) raw) (Alert.filters alert))
          end
      end
  end.

(** What the per-alert fetch resolves to for each outcome. *)
Definition resultOf (alert : Alert.t) (o : outcome) : option AlertWithFlights.t :=
  match o with
  | Found flights => Some (AlertWithFlights.mk alert flights)
  | _ => None
  end.

(** The entries an alert contributes to the output: one or none. *)
Definition entries `{Runtime, Fetcher.SearchService}
    (now : Z) (alert : Alert.t) (maxFlights : Z) : list AlertWithFlights.t :=
  match processAlert now alert maxFlights with
  | Found (flight :: flights) => [AlertWithFlights.mk alert (flight :: flights)]
  | _ => []
  end.

End BatchSpec.

(** [sub] occurs in [s]. *)
Definition contains (sub s : string) : Prop := ∃ pre post, s = pre +:+ sub +:+ post.

(** ** Concrete inputs and collaborators, to run the model *)

Module Examples.

Definition usd (amount : Z) : Qc := Q2Qc (inject_Z amount).

(** 2025-06-05T10:30:00.000Z *)
Definition now : Z := 1749119400000.

Definition leg (code : string) : Leg.t :=
  Leg.mk code "SFO" "2025-06-06T08:00:00.000Z" "JFK" "2025-06-06T16:30:00.000Z".

Definition flight (price stops : Z) (code : string) : FlightOption.t :=
  FlightOption.mk (usd price) "USD" [Slice.mk stops 330 [leg code]].

Definition rawFlights : list FlightOption.t :=
  [flight 250 0 "AA"; flight 280 0 "UA"; flight 350 1 "DL"].

Definition sixFlights : list FlightOption.t :=
  [flight 310 0 "AA"; flight 320 0 "AA"; flight 330 0 "AA";
   flight 340 0 "AA"; flight 350 0 "AA"; flight 120 0 "AA"].

(** Route SFO to JFK from 2025-06-01, nonstop, at most 300. *)
Definition criteria : Filters.t :=
  Filters.mk (Some "2025-06-01") None None None None (Some "NONSTOP") None (Some (usd 300)).

Definition alertFilters (origin : string) (c : Filters.t) : AlertFilters.t :=
  AlertFilters.mk (Route.mk origin "JFK") (Some c).

Definition alert (id origin : string) (c : Filters.t) (alertEnd : option string) : Alert.t :=
  Alert.mk id "user-1" "daily" Status.active (alertFilters origin c) alertEnd.

Definition airlinesOnly (codes : list string) : Filters.t :=
  Filters.mk None None None None None None (Some codes) None.

Definition zeroPrice : Filters.t :=
  Filters.mk None None None None None (Some "NONSTOP") None (Some (usd 0)).

(** A search service that knows two origins and fails on a third. *)
Definition resultsFor (origin : string) : Exc (list FlightOption.t) :=
  if bool_decide (origin = "SFO") then Ok rawFlights
  else if bool_decide (origin = "BOS") then Ok sixFlights
  else if bool_decide (origin = "LAX") then Throw "search failed"
  else Ok [].

Definition searchByOrigin : Fetcher.SearchService :=
  {| Fetcher.ValidatedFilters := FlightFiltersInput.t;
     Fetcher.parseFlightFiltersInput := λ q, Ok q;
     Fetcher.searchFlights := λ q,
       match FlightFiltersInput.segments q with
       | seg :: _ => resultsFor (Segment.origin seg)
       | [] => Ok []
       end |}.

(** An alert whose only matching flight is ranked sixth. *)
Definition bosAlert : Alert.t := alert "a-4" "BOS" criteria None.

(** An alert ending at [now], to the millisecond. *)
Definition endingNow : Alert.t :=
  alert "a-5" "SFO" criteria (Some "2025-06-05T10:30:00.000Z").

Definition threeAlerts : list Alert.t :=
  [ alert "a-1" "SFO" criteria None;
    alert "a-2" "LAX" criteria None;
    alert "a-3" "BOS" (airlinesOnly ["aa"]) None ].

(** Formatters that leave text as it is. *)
Definition plainFormatters : Formatters :=
  {| escapeHtml := λ s, s;
     formatCurrency := λ amount currency _, toFixed0 amount +:+ " " +:+ currency;
     formatDate := λ s, s;
     formatDateTime := λ s, s;
     joinWithAnd := PriceDropAlert.join ", ";
     Date_toLocaleString := λ s, s;
     URL_canParse := String.prefix "https://" |}.

Fixpoint replicate_char (n : nat) (ch : ascii) : string :=
  match n with
  | O => ""
  | S n' => String ch (replicate_char n' ch)
  end.

(** The baseline blueprint of the agent, as a response, with a subject
    of one's choosing. *)
Definition candidateWithSubject (subject : string) : json :=
  JObj
    [ ("metadata",
       JObj [ ("subject", JStr subject);
              ("previewText", JStr "Latest updates based on your alert");
              ("intro", JStr "Here is your latest flight update.") ]);
      ("sections",
       JArr
         [ JObj
             [ ("id", JStr "overview");
               ("title", JStr "Summary");
               ("description", JStr "Snapshot of the most important changes.");
               ("components",
                JArr
                  [ JObj [ ("id", JStr "overview-text");
                           ("type", JStr "text");
                           ("tone", JStr "concise");
                           ("headline", JStr "New flight insights");
                           ("body", JStr "No major updates were provided.") ] ]) ] ]) ].

Definition longSubject : string := replicate_char 121 "x".

(** A configured gateway that always answers with the same object. *)
Definition gatewayAnswering (response : Exc json) : AiGateway :=
  {| AI_GATEWAY_API_KEY := Some "key";
     BlueprintContext := unit;
     buildPriceDropBlueprintContext := λ _, ();
     buildDailyDigestBlueprintContext := λ _, ();
     generateObject := λ _ _ _, response |}.

Definition markerRenderer : BlueprintRenderer :=
  {| renderBlueprintEmail_daily := λ _ blueprint _ _,
       Ok (RenderedEmail.mk (Blueprint.Metadata.subject (Blueprint.metadata blueprint))
             "blueprint" "blueprint");
     renderBlueprintEmail_priceDrop := λ _ blueprint _ _,
       Ok (RenderedEmail.mk (Blueprint.Metadata.subject (Blueprint.metadata blueprint))
             "blueprint" "blueprint") |}.

Definition emptyDigest : DailyPriceUpdateEmail.t := DailyPriceUpdateEmail.mk "2025-01-01" [].

(** A store with one completed and one active alert. *)
Definition store : gmap string Alert.t :=
  {[ "a-1" := Alert.mk "a-1" "user-1" "daily" Status.completed
                (alertFilters "SFO" criteria) (Some "2025-06-01T00:00:00.000Z");
     "a-2" := alert "a-2" "LAX" criteria (Some "2025-06-05T10:30:00.000Z") ]}.

End Examples.

(** ** Further notions used to state properties of the code *)

Module QuerySpec.


(** The alerts of a route key, in input order. *)
Definition alertsOfKey (key : string) (alerts : list Alert.t) : list Alert.t :=
  filter (λ alert, Fetcher.routeKey alert = key) alerts.

End QuerySpec.

Module StoreSpec.

(** Some expired alert has id [k], and the update for it goes through. *)
Definition marked (reachable : string → bool) (expiredAlerts : list Alert.t) (k : string)
    : Prop :=
  ∃ alert, alert ∈ expiredAlerts ∧ Alert.id alert = k ∧ reachable k = true.

End StoreSpec.

(** ** [src/lib/notifications/ai-email-service.ts], the variant that
    hands the possibly null blueprint straight to the template *)

Module AiEmailServiceDirect.

Import AiEmailAgent.

Definition renderPriceDropEmailWithAI `{Formatters, AiGateway, BlueprintRenderer}
    (payload : PriceDropAlertEmail.t) : Exc RenderedEmail.t :=
  let context := buildPriceDropBlueprintContext payload in
  try_catch
    (blueprint ← generatePriceDropBlueprint context;
     PriceDropAlert.renderPriceDropAlertEmail payload blueprint)
    (λ _, PriceDropAlert.renderPriceDropAlertEmail payload None).

Definition renderDailyDigestEmailWithAI `{Formatters, AiGateway, BlueprintRenderer}
    (payload : DailyPriceUpdateEmail.t) : Exc RenderedEmail.t :=
  let context := buildDailyDigestBlueprintContext payload in
  try_catch
    (blueprint ← generateDailyDigestBlueprint context;
     DailyPriceUpdate.renderDailyPriceUpdateEmail payload blueprint)
    (λ _, DailyPriceUpdate.renderDailyPriceUpdateEmail payload None).

End AiEmailServiceDirect.

(** ** The bounds a validated blueprint meets, read off the schema *)

Module BlueprintSpec.





End BlueprintSpec.

Module Examples2.

Import Examples.

(** A window from 2025-06-01 to 2025-06-05, seen on 2025-06-05. *)
Definition endingToday : Filters.t :=
  Filters.mk (Some "2025-06-01") (Some "2025-06-05") None None None None None None.

Definition unknownTier : Filters.t :=
  Filters.mk None None None None (Some "SUITE") (Some "THREE_STOPS") None None.

End Examples2.

(** ** [scripts/generate-email-to-user.ts]: the verbose batch *)

Module Script.

(** The query object the script's translator builds: the departure
    date of its segment is [filters?.dateFrom], possibly undefined. *)
Module Segment.
Record t := mk {
  origin : string;
  destination : string;
  departureDate : option string;
  departureTimeRange : option TimeRange.t;
  arrivalTimeRange : option TimeRange.t;
}.
End Segment.

Module FlightFiltersInput.
Record t := mk {
  tripType : TripType.t;
  segments : list Segment.t;
  dateRange : DateRange.t;
  seatType : SeatType.t;
  stops : MaxStops.t;
  airlines : option (list string);
  priceLimit : option PriceLimit.t;
}.
End FlightFiltersInput.

(** The search collaborator, as the script calls it. *)
Class SearchService := {
  ValidatedFilters : Type;
  parseFlightFiltersInput : FlightFiltersInput.t → Exc ValidatedFilters;
  searchFlights : ValidatedFilters → Exc (list FlightOption.t);
}.

(** The script's copy of the translator; [now] is its own reading of
    the clock.  The two tables are the ones of the core translator. *)
Definition convertAlertFiltersToFlightFilters
    (now : Z) (alertFilters : AlertFilters.t) : FlightFiltersInput.t :=
  let route := AlertFilters.route alertFilters in
  let tripType := TripType.ONE_WAY in
  let segments :=
    [ Segment.mk (Route.from route) (Route.to route)
        (Fetcher.opt alertFilters Filters.dateFrom)
        (Fetcher.opt alertFilters Filters.departureTimeRange)
        (Fetcher.opt alertFilters Filters.arrivalTimeRange) ] in
  let stops :=
    Fetcher.mapped Fetcher.stopsMap MaxStops.ANY (Fetcher.opt alertFilters Filters.stops) in
  let seatType :=
    Fetcher.mapped Fetcher.seatTypeMap SeatType.ECONOMY
      (Fetcher.opt alertFilters Filters.class) in
  let departureDate :=
    if truthy_str (Fetcher.opt alertFilters Filters.dateFrom)
    then default "" (Fetcher.opt alertFilters Filters.dateFrom)
    else toISODate now in
  FlightFiltersInput.mk tripType segments (DateRange.mk departureDate departureDate)
    seatType stops
    (if Fetcher.hasAirlines (Fetcher.opt alertFilters Filters.airlines)
     then Fetcher.opt alertFilters Filters.airlines else None)
    (if truthy_num (Fetcher.opt alertFilters Filters.price)
     then (λ p, PriceLimit.mk p Currency.USD) <$> Fetcher.opt alertFilters Filters.price
     else None).

(** [{...alert, filters: {...alert.filters, filters: {...filters, dateFrom}}}] *)
Definition withDateFrom (alert : Alert.t) (filters : Filters.t) (dateFrom : string)
    : Alert.t :=
  Alert.mk (Alert.id alert) (Alert.userId alert) (Alert.type alert) (Alert.status alert)
    (AlertFilters.mk (AlertFilters.route (Alert.filters alert))
       (Some (Filters.mk (Some dateFrom) (Filters.dateTo filters)
                (Filters.departureTimeRange filters) (Filters.arrivalTimeRange filters)
                (Filters.class filters) (Filters.stops filters)
                (Filters.airlines filters) (Filters.price filters))))
    (Alert.alertEnd alert).

(** What the checks before the [try] block of an iteration decide: to
    [continue], or to search with [modifiedAlert]. *)
Inductive plan :=
| skip
| search (modifiedAlert : Alert.t).

(** [endDate]: [null] when [filters.dateTo] is falsy, else a Date,
    possibly invalid. *)
Definition endDateOf `{Runtime} (filters : Filters.t) : option (option Z) :=
  if truthy_str (Filters.dateTo filters)
  then startOfDayOf <$> Filters.dateTo filters
  else None.

Definition planOf `{Runtime} (now : Z) (alert : Alert.t) : plan :=
  let today := Fetcher.today now in
  let tomorrowStr := Fetcher.tomorrowStr now in
  match AlertFilters.filters (Alert.filters alert) with
  | None => skip
  | Some filters =>
      if negb (truthy_str (Filters.dateFrom filters)) then skip
      else
        let startDate := startOfDayOf (default "" (Filters.dateFrom filters)) in
        let endDate := endDateOf filters in
        if match endDate with
           | Some endDate => date_lt endDate (Some today)
           | None => false
           end
        then skip
        else if date_lt startDate (Some today)
                && match endDate with
                   | Some endDate => date_le (Some today) endDate
                   | None => false
                   end
        then search (withDateFrom alert filters tomorrowStr)
        else if date_lt startDate (Some today) && negb (bool_decide (is_Some endDate))
        then skip
        else search alert
  end.





(** [MAX_FLIGHTS_PER_ALERT] *)
Definition MAX_FLIGHTS_PER_ALERT : Z := 5.

(** [DEDUPLICATION_HOURS] *)
Definition DEDUPLICATION_HOURS : Z := 23.

(** The notification log ([core/notifications.db]). *)
Class NotificationsDb := {
  hasAlertBeenProcessedRecently : string → Z → Exc bool;
}.

Definition filterUnprocessedAlerts `{NotificationsDb} (alerts : list Alert.t)
    : Exc (list Alert.t) :=
  results ← Promise_all
    ((λ alert,
        processed ← hasAlertBeenProcessedRecently (Alert.id alert) DEDUPLICATION_HOURS;
        Ok (alert, processed)) <$> alerts);
  Ok (fst <$> List.filter (λ r, negb (snd r)) results).

(** The airport table ([core/alerts.db]). *)
Module Airport.
Record t := mk { iata : string; city : string }.
End Airport.

Class AirportsDb := {
  getAirportByIata : string → Exc (option Airport.t);
}.

(** [s.split(sep)] for a one-character separator. *)
Fixpoint split (sep : ascii) (s : string) : list string :=
  match s with
  | EmptyString => [""]
  | String ch s' =>
      if bool_decide (ch = sep) then "" :: split sep s'
      else match split sep s' with
           | word :: words => String ch word :: words
           | [] => [String ch ""]
           end
  end.








End Script.

Module ScriptSpec.

(** A segment of the core translator, as an object of the script's
    query type. *)
Definition ofCoreSegment (segment : Segment.t) : Script.Segment.t :=
  Script.Segment.mk (Segment.origin segment) (Segment.destination segment)
    (Some (Segment.departureDate segment))
    (Segment.departureTimeRange segment) (Segment.arrivalTimeRange segment).

(** [dateTo] is absent, empty, or a date the runtime can parse. *)
Definition dateToReadable `{Runtime} (filters : Filters.t) : Prop :=
  ∀ dateTo, Filters.dateTo filters = Some dateTo → dateTo ≠ "" →
            is_Some (Date_parse dateTo).



(** The alert is not in the notification log of the last hours. *)
Definition unprocessed `{Script.NotificationsDb} (alert : Alert.t) : bool :=
  match Script.hasAlertBeenProcessedRecently (Alert.id alert) Script.DEDUPLICATION_HOURS with
  | Ok processed => negb processed
  | Throw _ => false
  end.

End ScriptSpec.

(** ** [lib/notifications/ai-email-context]: the daily digest context *)

Module AiEmailContext.

Module Endpoint.
Record t := mk { airport : string; dateTime : string }.
End Endpoint.

Module FlightSummary.
Record t := mk {
  price : Qc;
  currency : string;
  totalDurationMinutes : Z;
  totalStops : Z;
  airlines : list string;
  departure : option Endpoint.t;
  arrival : option Endpoint.t;
}.
End FlightSummary.

(** [Array.from(new Set(items))]: the first occurrences, in order. *)
Definition Set_from (items : list string) : list string :=
  foldl (λ seen item, if bool_decide (item ∈ seen) then seen else seen ++ [item]) [] items.

(** [items.sort(compare)[0]] needs the sort only up to stability, which
    the language guarantees: insertion from the right keeps equal
    elements in their order. *)
Fixpoint insert_by {A} (le : A → A → bool) (x : A) (sorted : list A) : list A :=
  match sorted with
  | [] => [x]
  | y :: sorted' => if le x y then x :: sorted else y :: insert_by le x sorted'
  end.

Definition sort_by {A} (le : A → A → bool) (items : list A) : list A :=
  foldr (insert_by le) [] items.

(** The legs carry their airline code; [leg.airlineCode ??
    leg.airlineName] is that code. *)
Definition summarizeFlight (option : FlightOption.t) : FlightSummary.t :=
  let firstLeg := Components.firstLeg option in
  let lastLeg := Components.lastLeg option in
  let totalDuration :=
    foldl (λ acc slice, acc + Slice.durationMinutes slice) 0 (FlightOption.slices option) in
  let totalStops :=
    foldl (λ acc slice, acc + Slice.stops slice) 0 (FlightOption.slices option) in
  let airlines :=
    List.filter (λ code, truthy_str (Some code))
      (Set_from (Leg.airlineCode <$> (FlightOption.slices option ≫= Slice.legs))) in
  FlightSummary.mk (FlightOption.totalPrice option) (FlightOption.currency option)
    totalDuration totalStops airlines
    ((λ leg, Endpoint.mk (Leg.departureAirportCode leg) (Leg.departureDateTime leg))
     <$> firstLeg)
    ((λ leg, Endpoint.mk (Leg.arrivalAirportCode leg) (Leg.arrivalDateTime leg))
     <$> lastLeg).

(** Pairs [{summary, raw}]. *)
Definition summarizeFlights (flights : list FlightOption.t) (limit : Z)
    : list (FlightSummary.t * FlightOption.t) :=
  (λ flight, (summarizeFlight flight, flight)) <$> slice0 flights limit.

Module DailyAlertContext.
Record t := mk {
  alert : AlertDescriptor.t;
  generatedAt : string;
  flights : list FlightSummary.t;
  best : option FlightSummary.t;
}.
End DailyAlertContext.

Definition summarizeDailyAlert (entry : DailyAlertSummary.t) : DailyAlertContext.t :=
  let summaries := summarizeFlights (DailyAlertSummary.flights entry) 3 in
  let best := fst <$> head summaries in
  let alert := DailyAlertSummary.alert entry in
  DailyAlertContext.mk
    (AlertDescriptor.mk (AlertDescriptor.id alert) (AlertDescriptor.label alert)
       (AlertDescriptor.origin alert) (AlertDescriptor.destination alert)
       (AlertDescriptor.seatType alert) (AlertDescriptor.stops alert)
       (AlertDescriptor.airlines alert) (AlertDescriptor.priceLimit alert))
    (DailyAlertSummary.generatedAt entry)
    (fst <$> summaries)
    best.

(** [bestSavings]: the first of the positively priced flights shown,
    sorted by price. *)
Definition bestSavings (alerts : list DailyAlertContext.t) : option FlightSummary.t :=
  head
    (sort_by (λ a b, bool_decide (FlightSummary.price a ≤ FlightSummary.price b)%Qc)
       (List.filter (λ flight, bool_decide (0 < FlightSummary.price flight)%Qc)
          (alerts ≫= DailyAlertContext.flights))).

Definition nonstopCount (alerts : list DailyAlertContext.t) : Z :=
  foldl (λ acc entry,
           acc + Z.of_nat (length (List.filter
                                     (λ flight, bool_decide (FlightSummary.totalStops flight = 0))
                                     (DailyAlertContext.flights entry))))
        0 alerts.

Definition topDealLine (flight : FlightSummary.t) : string :=
  "Top deal: " +:+ toFixed0 (FlightSummary.price flight) +:+ " " +:+
  FlightSummary.currency flight +:+ " from " +:+
  default "" (Endpoint.airport <$> FlightSummary.departure flight) +:+ " to " +:+
  default "" (Endpoint.airport <$> FlightSummary.arrival flight).

Definition deriveDailyHighlights (alerts : list DailyAlertContext.t) : list string :=
  if bool_decide (length alerts = 0%nat) then []
  else
    match bestSavings alerts with
    | Some flight => [topDealLine flight]
    | None => []
    end
    ++ (if bool_decide (0 < nonstopCount alerts)
        then [Number_toString (nonstopCount alerts) +:+ " nonstop options discovered today."]
        else []).

Module AggregateMetrics.
Record t := mk { alertCount : Z; flightOptions : Z; uniqueRoutes : Z }.
End AggregateMetrics.

Module DailyDigestContext.
Record t := mk {
  date : string;
  alerts : list DailyAlertContext.t;
  highlights : list string;
  aggregateMetrics : AggregateMetrics.t;
}.
End DailyDigestContext.

Definition buildDailyDigestBlueprintContext (payload : DailyPriceUpdateEmail.t)
    : DailyDigestContext.t :=
  let alertSummaries := summarizeDailyAlert <$> DailyPriceUpdateEmail.alerts payload in
  let totalFlights :=
    foldl (λ acc entry, acc + Z.of_nat (length (DailyAlertContext.flights entry)))
          0 alertSummaries in
  DailyDigestContext.mk (DailyPriceUpdateEmail.summaryDate payload) alertSummaries
    (deriveDailyHighlights alertSummaries)
    (AggregateMetrics.mk
       (Z.of_nat (length (DailyPriceUpdateEmail.alerts payload)))
       totalFlights
       (Z.of_nat (length (Set_from
          ((λ entry, AlertDescriptor.origin (DailyAlertContext.alert entry) +:+ "-" +:+
                     AlertDescriptor.destination (DailyAlertContext.alert entry))
           <$> alertSummaries))))).

(** The flights a digest context shows, over all its alerts. *)
Definition shown (alerts : list DailyAlertContext.t) : list FlightSummary.t :=
  alerts ≫= DailyAlertContext.flights.

End AiEmailContext.

(** ** Rendering a blueprint ([templates/blueprint-utils],
    [templates/blueprint-renderer], [templates/daily-price-update]) *)

(** [ChartBlock] of [components/chart] prints bar widths and values
    with the number formatting of the platform; its markup is left
    open. *)
Class ChartRenderer := {
  ChartBlock : string → string → option Blueprint.ChartUnit → Blueprint.ChartType →
               list (string * Qc) → Html.node;
}.

Module BlueprintUtils.

Import Html Components.

(** The card properties of a flight-card component. *)
Definition cardProps (component : Blueprint.Component) : option FlightCardProps.t :=
  match component with
  | Blueprint.FlightCardComponent _ title description highlights action =>
      Some (FlightCardProps.mk title description
              ((λ h, FlightHighlight.mk (fst h) (snd h)) <$> highlights)
              ((λ a, CardAction.mk (fst a) (snd a)) <$> action))
  | _ => None
  end.

Definition renderFlightCardGrid (cards : list Blueprint.Component) : option node :=
  if bool_decide (length cards = 0%nat) then None
  else Some (FlightCardGrid (omap cardProps cards)).

(** The state of the loop over the components of a section:
    [children] and [pendingCards]. *)
Definition flushCards (state : list node * list Blueprint.Component)
    : list node * list Blueprint.Component :=
  let '(children, pendingCards) := state in
  if bool_decide (length pendingCards = 0%nat) then state
  else (children ++ when (renderFlightCardGrid pendingCards), []).

Definition push (child : node) (state : list node * list Blueprint.Component)
    : list node * list Blueprint.Component :=
  (fst state ++ [child], snd state).

Definition step `{ChartRenderer} (state : list node * list Blueprint.Component)
    (component : Blueprint.Component) : list node * list Blueprint.Component :=
  match component with
  | Blueprint.FlightCardComponent _ _ _ _ _ => (fst state, snd state ++ [component])
  | Blueprint.TextBlockComponent _ headline body _ =>
      push (TextBlock headline body) (flushCards state)
  | Blueprint.BadgeRowComponent _ items =>
      push (BadgeRow items) (flushCards state)
  | Blueprint.ChartComponent _ title chartType unit data summary =>
      push (ChartBlock title summary unit chartType data) (flushCards state)
  end.

Definition sectionChildren `{ChartRenderer} (components : list Blueprint.Component)
    : list node :=
  fst (flushCards (foldl step ([], []) components)).

Definition renderSectionsFromBlueprint `{ChartRenderer} (sections : list Blueprint.Section.t)
    : list node :=
  (λ section,
     EmailSection (Blueprint.Section.title section) (Blueprint.Section.description section)
       (sectionChildren (Blueprint.Section.components section)))
  <$> sections.

Definition renderCallToActionBlock (cta : Blueprint.CallToAction.t) : node :=
  if negb (truthy_str (Blueprint.CallToAction.url cta))
  then TextBlock None (Blueprint.CallToAction.label cta)
  else
    elem Tag.div (style "margin-top:8px")
      [ elem Tag.a
          [(Attr.href, default "" (Blueprint.CallToAction.url cta));
           (Attr.style, "display:inline-block;padding:10px 16px;border-radius:8px;background:#4338ca;color:#ffffff;text-decoration:none;font-size:13px;font-weight:600")]
          [text (Blueprint.CallToAction.label cta)] ].

End BlueprintUtils.

Module BlueprintRendererImpl.

Import Html Components.

(** A component rendered on its own, a flight card in a grid of one. *)
Definition renderComponent `{ChartRenderer} (component : Blueprint.Component) : node :=
  match component with
  | Blueprint.TextBlockComponent _ headline body _ => TextBlock headline body
  | Blueprint.BadgeRowComponent _ items => BadgeRow items
  | Blueprint.ChartComponent _ title chartType unit data summary =>
      ChartBlock title summary unit chartType data
  | Blueprint.FlightCardComponent _ title description highlights action =>
      FlightCardGrid
        [ FlightCardProps.mk title description
            ((λ h, FlightHighlight.mk (fst h) (snd h)) <$> highlights)
            ((λ a, CardAction.mk (fst a) (snd a)) <$> action) ]
  end.

Definition sectionsOf `{ChartRenderer} (blueprint : Blueprint.t) : list node :=
  (λ section,
     EmailSection (Blueprint.Section.title section) (Blueprint.Section.description section)
       (renderComponent <$> Blueprint.Section.components section))
  <$> Blueprint.sections blueprint.

(** [{cond ? <EmailSection><TextBlock body={body} /></EmailSection> : null}] *)
Definition bodySection (body : option string) : option node :=
  if truthy_str body
  then (λ body, EmailSection None None [TextBlock None body]) <$> body
  else None.

(** The pair [{subject, html}]. *)
Definition renderEmailFromBlueprint `{ChartRenderer}
    (blueprint : Blueprint.t) (fallbackSubject fallbackPreview : string)
    (hero : option node) : string * string :=
  let metadata := Blueprint.metadata blueprint in
  let subject := Blueprint.Metadata.subject metadata in
  let previewText := Blueprint.Metadata.previewText metadata in
  let sections := sectionsOf blueprint in
  let intro := bodySection (Some (Blueprint.Metadata.intro metadata)) in
  let personalization := bodySection (Blueprint.Metadata.personalization metadata) in
  let callToAction :=
    (λ cta, EmailSection None None [TextBlock None (Blueprint.CallToAction.label cta)])
    <$> Blueprint.Metadata.callToAction metadata in
  let html :=
    Templates.wrapWithLayout previewText
      (when hero ++ when intro ++ sections ++ when callToAction ++ when personalization) in
  (subject, html).

End BlueprintRendererImpl.

Module DailyBlueprint.

Import Html Components.

(** [renderBlueprintEmail] of the daily template; [_payload] is not
    used. *)
Definition renderBlueprintEmail `{ChartRenderer}
    (_payload : DailyPriceUpdateEmail.t) (blueprint : Blueprint.t)
    (fallbackSubject fallbackPreview : string) : RenderedEmail.t :=
  let metadata := Blueprint.metadata blueprint in
  let subject := Blueprint.Metadata.subject metadata in
  let previewText := Blueprint.Metadata.previewText metadata in
  let intro := BlueprintRendererImpl.bodySection (Some (Blueprint.Metadata.intro metadata)) in
  let personalization :=
    BlueprintRendererImpl.bodySection (Blueprint.Metadata.personalization metadata) in
  let callToAction :=
    BlueprintUtils.renderCallToActionBlock <$> Blueprint.Metadata.callToAction metadata in
  let html :=
    Templates.wrapWithLayout previewText
      (when intro
       ++ BlueprintUtils.renderSectionsFromBlueprint (Blueprint.sections blueprint)
       ++ when callToAction ++ when personalization) in
  Templates.renderEmail subject html.

End DailyBlueprint.

Module PriceDropBlueprint.

Import Html Components.

(** [renderBlueprintEmail] of the price drop template: the hero comes
    from the payload, the rest from the blueprint. *)
Definition renderBlueprintEmail `{Formatters, ChartRenderer}
    (payload : PriceDropAlertEmail.t) (blueprint : Blueprint.t)
    (fallbackSubject fallbackPreview : string) : RenderedEmail.t :=
  let metadata := Blueprint.metadata blueprint in
  let subject := Blueprint.Metadata.subject metadata in
  let previewText := Blueprint.Metadata.previewText metadata in
  let intro := BlueprintRendererImpl.bodySection (Some (Blueprint.Metadata.intro metadata)) in
  let personalization :=
    BlueprintRendererImpl.bodySection (Blueprint.Metadata.personalization metadata) in
  let callToAction :=
    BlueprintUtils.renderCallToActionBlock <$> Blueprint.Metadata.callToAction metadata in
  let sections := BlueprintUtils.renderSectionsFromBlueprint (Blueprint.sections blueprint) in
  let html :=
    Templates.wrapWithLayout previewText
      ([PriceDropAlert.renderHero payload] ++ when intro ++ sections
       ++ when callToAction ++ when personalization) in
  Templates.renderEmail subject html.

End PriceDropBlueprint.

(** ** [lib/notifications/send-notification] *)

Module Recipient.
Record t := mk { email : string; name : option string }.
End Recipient.

Module NotificationSendRequest.
Record t := mk { recipient : Recipient.t; payload : NotificationEmailPayload }.
End NotificationSendRequest.

Module ResendMessage.
Record t := mk {
  from : string;
  to : string;
  subject : string;
  html : string;
  text : string;
}.
End ResendMessage.

(** The mail client ([resend-client]) and the sender address of the
    environment. *)
Class Mailer := {
  RESEND_FROM_EMAIL : option string;
  SendResult : Type;
  sendWithResend : ResendMessage.t → Exc SendResult;
}.

Module SendNotification.

Definition formatRecipient (recipient : Recipient.t) : string :=
  if truthy_str (Recipient.name recipient)
  then default "" (Recipient.name recipient) +:+ " <" +:+ Recipient.email recipient +:+ ">"
  else Recipient.email recipient.

Definition sendNotificationEmail `{Formatters, AiGateway, BlueprintRenderer, Mailer}
    (request : NotificationSendRequest.t) : Exc SendResult :=
  content ← AiEmailService.buildEmailContent (NotificationSendRequest.payload request);
  let fromAddress := default "Flight Alerts <alerts@resend.dev>" RESEND_FROM_EMAIL in
  sendWithResend
    (ResendMessage.mk fromAddress
       (formatRecipient (NotificationSendRequest.recipient request))
       (RenderedEmail.subject content) (RenderedEmail.html content)
       (RenderedEmail.text content)).

End SendNotification.

(** The text of a list of nodes in document order, followed by [rest]. *)
Definition textOfAll (nodes : list Html.node) (rest : string) : string :=
  foldr Html.textOf rest nodes.

(** ** More concrete inputs and collaborators *)

Module Examples3.

Import Examples.

(** An airport table that knows San Francisco only. *)
Definition airports : Script.AirportsDb :=
  {| Script.getAirportByIata := λ code,
       if bool_decide (code = "SFO")
       then Ok (Some (Script.Airport.mk "SFO" "San Francisco"))
       else Ok None |}.

(** A chart shown as its title and summary. *)
Definition plainChart : ChartRenderer :=
  {| ChartBlock := λ title summary _ _ _,
       Html.elem Tag.div [] [Html.text title; Html.text summary] |}.




(** An alert whose window started on 2025-06-01 and ends on
    2025-06-05, the day of [now]. *)
Definition windowAlert : Alert.t := alert "a-6" "SFO" Examples2.endingToday None.

End Examples3.

(** * Verification *)

Import Fetcher.

(** ** Result filter *)

Section result_filter.

Implicit Types (c : Filters.t) (F : FlightOption.t) (flights : list FlightOption.t).

Lemma tierCeiling_maxStopsOf tier bound :
  FilterSpec.tierCeiling tier bound ↔ maxStopsOf tier = bound.
Proof.
  unfold maxStopsOf. split.
  - intros Hc. destruct Hc; try reflexivity.
    repeat (case_bool_decide; [congruence|]). reflexivity.
  - intros <-. repeat (case_bool_decide; [subst; constructor|]).
    by constructor.
Qed.

Lemma hasMatchingAirline_spec (allowed : gset string) F :
  hasMatchingAirline allowed F = true ↔
  ∃ slice leg, slice ∈ FlightOption.slices F ∧ leg ∈ Slice.legs slice
               ∧ Leg.airlineCode leg ∈ allowed.
Proof.
  unfold hasMatchingAirline. rewrite existsb_exists. split.
  - intros (slice & Hs & Hl). apply existsb_exists in Hl as (leg & Hl & Hb).
    apply bool_decide_eq_true in Hb.
    exists slice, leg. by rewrite !list_elem_of_In.
  - intros (slice & leg & Hs & Hl & Hin). exists slice.
    split; [by apply list_elem_of_In|].
    apply existsb_exists. exists leg.
    split; [by apply list_elem_of_In|]. by apply bool_decide_eq_true.
Qed.

Lemma hasValidStops_spec (maxStops : option Z) F :
  hasValidStops maxStops F = true ↔
  ∀ bound, maxStops = Some bound →
    ∀ slice, slice ∈ FlightOption.slices F → Slice.stops slice ≤ bound.
Proof.
  unfold hasValidStops. rewrite forallb_forall. split.
  - intros Hall bound -> slice Hs. apply list_elem_of_In in Hs.
    specialize (Hall slice Hs). simpl in Hall. by apply bool_decide_eq_true in Hall.
  - intros Hall slice Hs. destruct maxStops as [bound|]; [|done].
    simpl. apply bool_decide_eq_true. apply (Hall bound eq_refl).
    by apply list_elem_of_In.
Qed.

Lemma price_guard_spec c F : exceedsPrice c F = false ↔ FilterSpec.price_pred c F.
Proof.
  unfold exceedsPrice, FilterSpec.price_pred, FilterSpec.priceCeiling, truthy_num.
  destruct (Filters.price c) as [p|]; simpl; [|split; [intros _ p' [=]|done]].
  case_bool_decide as Hz; simpl.
  - split; [intros _ p' [=]|done].
  - rewrite bool_decide_eq_false. split.
    + intros Hn p' [= <-]. done.
    + intros Hp. by apply Hp.
Qed.

Lemma airline_guard_spec c F : failsAirlines c F = false ↔ FilterSpec.airline_pred c F.
Proof.
  unfold failsAirlines, FilterSpec.airline_pred, FilterSpec.allowSet, hasAirlines.
  destruct (Filters.airlines c) as [[|code codes]|]; simpl;
    try (split; [intros _ a [=]|done]).
  rewrite negb_false_iff, hasMatchingAirline_spec. split.
  - intros Hex a [= <-]. done.
  - intros Hp. by apply Hp.
Qed.

Lemma stops_guard_spec c F : failsStops c F = false ↔ FilterSpec.stops_pred c F.
Proof.
  unfold failsStops, FilterSpec.stops_pred, FilterSpec.stopsTier, truthy_str.
  destruct (Filters.stops c) as [tier|]; simpl; [|split; [intros _ t b [=]|done]].
  case_bool_decide as Hz; simpl.
  - split; [intros _ t b [=]|done].
  - rewrite negb_false_iff, hasValidStops_spec. split.
    + intros Hv t b [= <-] Hc. apply Hv. by apply tierCeiling_maxStopsOf.
    + intros Hp b Hb. apply (Hp tier b eq_refl). by apply tierCeiling_maxStopsOf.
Qed.

(** The filter callback keeps a flight exactly when the three
    predicates hold together. *)
Lemma keepFlight_spec c F : keepFlight c F = true ↔ FilterSpec.satisfies c F.
Proof.
  unfold FilterSpec.satisfies.
  rewrite <- price_guard_spec, <- airline_guard_spec, <- stops_guard_spec.
  unfold keepFlight.
  repeat match goal with |- context [if ?b then _ else _] => destruct b end;
    intuition congruence.
Qed.

Lemma filter_sublist_of {A} (p : A → bool) (l : list A) : List.filter p l `sublist_of` l.
Proof.
  induction l as [|x l IH]; simpl; [constructor|].
  destruct (p x); by constructor.
Qed.

End result_filter.


(** ** Airline matching *)

Lemma upper_ascii_idemp (ch : ascii) : upper_ascii (upper_ascii ch) = upper_ascii ch.
Proof. destruct ch as [[] [] [] [] [] [] [] []]; reflexivity. Qed.

Lemma toUpperCase_idemp (s : string) : toUpperCase (toUpperCase s) = toUpperCase s.
Proof. induction s as [|ch s IH]; simpl; [done|]. by rewrite upper_ascii_idemp, IH. Qed.

Lemma elem_of_allowedAirlines (codes : list string) (x : string) :
  x ∈ allowedAirlines codes ↔ ∃ code, code ∈ codes ∧ x = toUpperCase code.
Proof.
  unfold allowedAirlines. rewrite elem_of_list_to_set, list_elem_of_fmap.
  split; intros (code & H1 & H2); exists code; done.
Qed.

(** C8, amended.  With a non-empty allow list, a flight passes the
    airline guard exactly when some leg's airline code, taken as it is,
    equals the upper-cased form of an allowed code.  Letter case is thus
    ignored on the side of the allow list only: a leg whose code is in
    upper case matches every allowed code equal to it up to case, and a
    flight none of whose leg codes is in upper case is dropped. *)
Theorem airline_match_upper_cased_allow_list
    (c : Filters.t) (codes : list string) (F : FlightOption.t) :
  Filters.airlines c = Some codes → codes ≠ [] →
  (failsAirlines c F = false
   ↔ ∃ slice leg code,
       slice ∈ FlightOption.slices F ∧ leg ∈ Slice.legs slice ∧ code ∈ codes
       ∧ Leg.airlineCode leg = toUpperCase code)
  ∧ (∀ slice leg code,
       slice ∈ FlightOption.slices F → leg ∈ Slice.legs slice → code ∈ codes →
       toUpperCase (Leg.airlineCode leg) = Leg.airlineCode leg →
       FilterSpec.eq_ignore_case (Leg.airlineCode leg) code →
       failsAirlines c F = false)
  ∧ ((∀ slice leg,
        slice ∈ FlightOption.slices F → leg ∈ Slice.legs slice →
        toUpperCase (Leg.airlineCode leg) ≠ Leg.airlineCode leg) →
     keepFlight c F = false).
Proof.
  intros Hc Hne.
  assert (Hiff : failsAirlines c F = false
   ↔ ∃ slice leg code,
       slice ∈ FlightOption.slices F ∧ leg ∈ Slice.legs slice ∧ code ∈ codes
       ∧ Leg.airlineCode leg = toUpperCase code).
  { unfold failsAirlines, hasAirlines. rewrite Hc. simpl.
    destruct codes as [|code0 codes']; [done|]. simpl.
    rewrite negb_false_iff, hasMatchingAirline_spec. split.
    - intros (slice & leg & Hs & Hl & Hin).
      apply elem_of_allowedAirlines in Hin as (code & Hin & Heq). eauto 10.
    - intros (slice & leg & code & Hs & Hl & Hin & Heq).
      exists slice, leg. split_and!; try done.
      apply elem_of_allowedAirlines. eauto. }
  split_and!; [exact Hiff| |].
  - intros slice leg code Hs Hl Hin Hup Hcase. apply Hiff.
    exists slice, leg, code. split_and!; try done.
    unfold FilterSpec.eq_ignore_case in Hcase. congruence.
  - intros Hlow. unfold keepFlight.
    destruct (exceedsPrice c F); [done|].
    destruct (failsAirlines c F); [done|].
    destruct (proj1 Hiff eq_refl) as (slice & leg & code & Hs & Hl & Hin & Heq).
    destruct (Hlow slice leg Hs Hl). rewrite Heq. apply toUpperCase_idemp.
Qed.

(** ** Filter translator *)

Section translator.

Context `{Runtime}.
Implicit Types (af : AlertFilters.t) (now : Z).









(** C10.  A price ceiling of 0 is treated as no ceiling: the price
    guard of the result filter never fires, so a flight is kept on the
    airline and stops predicates alone and the filter behaves as on the
    bundle without a price; and the translator leaves [priceLimit] out
    of the query. *)
Theorem zero_price_ceiling_is_absent
    now af (c : Filters.t) (flights : list FlightOption.t) :
  AlertFilters.filters af = Some c → Filters.price c = Some 0%Qc →
  (∀ F, exceedsPrice c F = false)
  ∧ (∀ F, keepFlight c F = true
          ↔ FilterSpec.airline_pred c F ∧ FilterSpec.stops_pred c F)
  ∧ filterFlightsByAlertCriteria flights af
    = filterFlightsByAlertCriteria flights
        (AlertFilters.mk (AlertFilters.route af) (Some (FilterSpec.withoutPrice c)))
  ∧ (∀ q, convertAlertFiltersToFlightFilters now af = Some q →
          FlightFiltersInput.priceLimit q = None).
Proof.
  intros Hc Hp.
  assert (Hprice : ∀ F, exceedsPrice c F = false).
  { intros F. unfold exceedsPrice. by rewrite Hp. }
  split_and!; [exact Hprice| | |].
  - intros F. rewrite <- airline_guard_spec, <- stops_guard_spec.
    unfold keepFlight. rewrite Hprice.
    destruct (failsAirlines c F), (failsStops c F); intuition congruence.
  - unfold filterFlightsByAlertCriteria. rewrite Hc. simpl.
    apply filter_ext. intros F. unfold keepFlight. rewrite Hprice. reflexivity.
  - unfold convertAlertFiltersToFlightFilters.
    destruct (rangeExpired now af); [done|]. intros q [= <-]. simpl.
    unfold opt. rewrite Hc. simpl. by rewrite Hp.
Qed.

End translator.

(** ** Batch processor *)

Section batch.

Context `{Runtime, SearchService}.
Implicit Types (alert : Alert.t) (now maxFlights : Z).

Lemma slice0_nonneg {A} (l : list A) (n : Z) : 0 ≤ n → slice0 l n = take (Z.to_nat n) l.
Proof. intros Hn. unfold slice0. destruct (Z.ltb_spec n 0); [lia|done]. Qed.

(** The [try]/[catch] of [fetchFlightsForAlert] absorbs every failure. *)
Lemma fetchFlightsForAlert_total now alert maxFlights :
  0 ≤ maxFlights →
  fetchFlightsForAlert now alert maxFlights
  = Ok (BatchSpec.resultOf alert (BatchSpec.processAlert now alert maxFlights)).
Proof.
  intros Hn. unfold fetchFlightsForAlert, fetchFlightsForAlert_body, BatchSpec.processAlert.
  destruct (convertAlertFiltersToFlightFilters now (Alert.filters alert)) as [q|]; [|done].
  destruct (parseFlightFiltersInput q) as [v|e]; simpl; [|done].
  destruct (searchFlights v) as [raw|e]; simpl; [|done].
  by rewrite slice0_nonneg.
Qed.

Lemma fetchFlightsForAlert_never_throws now alert maxFlights :
  fetchFlightsForAlert now alert maxFlights
  = Ok (match fetchFlightsForAlert_body now alert maxFlights with
        | Ok r => r
        | Throw _ => None
        end).
Proof.
  unfold fetchFlightsForAlert, try_catch.
  by destruct (fetchFlightsForAlert_body now alert maxFlights).
Qed.

Lemma Promise_all_imap_Ok {A B} (f : nat → A → B) (l : list A) :
  Promise_all (imap (λ i a, Ok (f i a)) l) = Ok (imap f l).
Proof.
  revert f. induction l as [|a l IH]; intros f; [done|].
  simpl. change (Promise_all (imap ((λ i a0, Ok (f i a0)) ∘ S) l))
    with (Promise_all (imap (λ i a0, Ok ((f ∘ S) i a0)) l)).
  by rewrite IH.
Qed.

Lemma omap_successful_entries (clock : nat → Z) maxFlights (alerts : list Alert.t) :
  omap successful
    (imap (λ i alert, BatchSpec.resultOf alert (BatchSpec.processAlert (clock i) alert maxFlights))
       alerts)
  = concat (imap (λ i alert, BatchSpec.entries (clock i) alert maxFlights) alerts).
Proof.
  revert clock. induction alerts as [|alert alerts IH]; intros clock; [done|].
  simpl. specialize (IH (clock ∘ S)). unfold compose in *. rewrite <- IH.
  unfold BatchSpec.entries.
  destruct (BatchSpec.processAlert (clock 0%nat) alert maxFlights) as [| |[|F fl]]; done.
Qed.

(** C4.  For a count [maxFlights >= 0]: whenever an entry is attached
    to an alert, its flights are the result filter applied to the first
    [maxFlights] results of the search collaborator, in that order; and
    when translation, validation and search succeed, that entry is
    attached.  The cap comes first: a result at position [maxFlights] or
    later has no part in the attached flights, whether or not it
    satisfies the criteria.  The default count is 5. *)
Theorem cap_applied_before_filter now alert maxFlights :
  0 ≤ maxFlights →
  (∀ entry, fetchFlightsForAlert now alert maxFlights = Ok (Some entry) →
     ∃ q v raw,
       convertAlertFiltersToFlightFilters now (Alert.filters alert) = Some q
       ∧ parseFlightFiltersInput q = Ok v ∧ searchFlights v = Ok raw
       ∧ AlertWithFlights.alert entry = alert
       ∧ AlertWithFlights.flights entry
         = filterFlightsByAlertCriteria (take (Z.to_nat maxFlights) raw)
             (Alert.filters alert))
  ∧ (∀ q v raw,
       convertAlertFiltersToFlightFilters now (Alert.filters alert) = Some q →
       parseFlightFiltersInput q = Ok v → searchFlights v = Ok raw →
       fetchFlightsForAlert now alert maxFlights
       = Ok (Some (AlertWithFlights.mk alert
                     (filterFlightsByAlertCriteria (take (Z.to_nat maxFlights) raw)
                        (Alert.filters alert))))
       ∧ (∀ pre F post,
            raw = pre ++ F :: post → (Z.to_nat maxFlights ≤ length pre)%nat →
            filterFlightsByAlertCriteria (take (Z.to_nat maxFlights) raw)
              (Alert.filters alert)
            = filterFlightsByAlertCriteria (take (Z.to_nat maxFlights) pre)
                (Alert.filters alert)))
  ∧ defaultMaxFlights = 5.
Proof.
  intros Hn. split_and!; [| |done].
  - intros entry. rewrite fetchFlightsForAlert_total by done.
    unfold BatchSpec.processAlert.
    destruct (convertAlertFiltersToFlightFilters now (Alert.filters alert)) as [q|]; [|done].
    destruct (parseFlightFiltersInput q) as [v|e] eqn:Hv; [|done].
    destruct (searchFlights v) as [raw|e] eqn:Hraw; [|done].
    simpl. intros [= <-]. exists q, v, raw. by split_and!.
  - intros q v raw Hq Hv Hraw. split.
    + rewrite fetchFlightsForAlert_total by done.
      unfold BatchSpec.processAlert. by rewrite Hq, Hv, Hraw.
    + intros pre F post -> Hlen. by rewrite take_app_le.
Qed.

(** C5.  The batch never throws, whatever the collaborator does: it
    returns the concatenation, in alert order, of what each alert
    contributes on its own, which is one entry when its processing
    succeeds with at least one flight left after filtering and nothing
    when translation skips it, validation or search throws, or no
    flight is left. *)
Theorem batch_fault_isolation (clock : nat → Z) (alerts : list Alert.t) maxFlights :
  (∃ out, fetchFlightDataForAlerts clock alerts maxFlights = Ok out)
  ∧ (0 ≤ maxFlights →
     fetchFlightDataForAlerts clock alerts maxFlights
     = Ok (concat (imap (λ i alert, BatchSpec.entries (clock i) alert maxFlights) alerts)))
  ∧ (∀ now alert,
       (∀ e, BatchSpec.processAlert now alert maxFlights = BatchSpec.Failed e →
             BatchSpec.entries now alert maxFlights = [])
       ∧ (BatchSpec.processAlert now alert maxFlights = BatchSpec.Skipped →
          BatchSpec.entries now alert maxFlights = [])
       ∧ (BatchSpec.processAlert now alert maxFlights = BatchSpec.Found [] →
          BatchSpec.entries now alert maxFlights = [])
       ∧ (∀ flights, flights ≠ [] →
            BatchSpec.processAlert now alert maxFlights = BatchSpec.Found flights →
            BatchSpec.entries now alert maxFlights
            = [AlertWithFlights.mk alert flights])).
Proof.
  split_and!.
  - unfold fetchFlightDataForAlerts. case_bool_decide; [eauto|].
    rewrite (imap_ext _ (λ i alert,
      Ok (match fetchFlightsForAlert_body (clock i) alert maxFlights with
          | Ok r => r
          | Throw _ => None
          end))).
    2:{ intros i alert _. apply fetchFlightsForAlert_never_throws. }
    rewrite Promise_all_imap_Ok. simpl. eauto.
  - intros Hn. unfold fetchFlightDataForAlerts. case_bool_decide as Hlen.
    { destruct alerts; [done|discriminate]. }
    rewrite (imap_ext _
      (λ i alert, Ok (BatchSpec.resultOf alert (BatchSpec.processAlert (clock i) alert maxFlights)))).
    2:{ intros i alert _. by apply fetchFlightsForAlert_total. }
    rewrite Promise_all_imap_Ok. simpl. by rewrite omap_successful_entries.
  - intros now alert. unfold BatchSpec.entries. split_and!.
    + by intros e ->.
    + by intros ->.
    + by intros ->.
    + intros [|F fl] Hne ->; done.
Qed.

End batch.

(** ** Alert lifecycle *)

Import Lifecycle.

Section lifecycle.

Context `{Runtime}.
Implicit Types (alert : Alert.t) (now : Z) (db : gmap string Alert.t).

Lemma isExpired_spec now alert : isExpired now alert = true ↔ endsBy now alert.
Proof.
  unfold isExpired, endsBy. destruct (Alert.alertEnd alert) as [s|].
  - simpl. case_bool_decide as Hempty; simpl.
    + subst s. split; [done|]. intros (? & e & [= <-] & He & _).
      by rewrite Date_parse_empty in He.
    + destruct (Date_parse s) as [e|] eqn:He; simpl.
      * rewrite bool_decide_eq_true. split; [eauto|].
        intros (? & e' & [= <-] & Hp & Hle). rewrite He in Hp. by injection Hp as ->.
      * split; [done|]. intros (? & ? & [= <-] & Hp & _). congruence.
  - split; [done|]. by intros (? & ? & [=] & _).
Qed.

Lemma partition_loop now (alerts activeAlerts expiredAlerts : list Alert.t) :
  foldl (λ '(activeAlerts, expiredAlerts) alert,
           if isExpired now alert
           then (activeAlerts, expiredAlerts ++ [alert])
           else (activeAlerts ++ [alert], expiredAlerts))
        (activeAlerts, expiredAlerts) alerts
  = (activeAlerts ++ List.filter (λ alert, negb (isExpired now alert)) alerts,
     expiredAlerts ++ List.filter (isExpired now) alerts).
Proof.
  revert activeAlerts expiredAlerts.
  induction alerts as [|alert alerts IH]; intros activeAlerts expiredAlerts; simpl.
  - by rewrite !app_nil_r.
  - destruct (isExpired now alert); simpl; rewrite IH, <- app_assoc; done.
Qed.

(** The loop is a partition by [isExpired], each group in input order. *)
Lemma partitionByExpiry_filter now (alerts : list Alert.t) :
  partitionByExpiry now alerts
  = (List.filter (λ alert, negb (isExpired now alert)) alerts,
     List.filter (isExpired now) alerts).
Proof. unfold partitionByExpiry. by rewrite partition_loop. Qed.

Lemma not_isExpired_spec now alert :
  negb (isExpired now alert) = true ↔ ¬ endsBy now alert.
Proof.
  rewrite negb_true_iff, <- isExpired_spec.
  destruct (isExpired now alert); split; congruence.
Qed.

(** C3, amended.  The expiry partition places in the expired group
    exactly the alerts whose [alertEnd] is at or before [now], an alert
    whose [alertEnd] equals [now] included, and every other alert in
    the active group, every alert with no [alertEnd] included; each
    group keeps the order of the input and no alert is lost or
    duplicated. *)
Theorem expiry_partition_at_or_before now (alerts : list Alert.t) :
  (∀ alert, alert ∈ (partitionByExpiry now alerts).2
            ↔ alert ∈ alerts ∧ endsBy now alert)
  ∧ (∀ alert, alert ∈ (partitionByExpiry now alerts).1
              ↔ alert ∈ alerts ∧ ¬ endsBy now alert)
  ∧ (∀ alert alertEnd,
       alert ∈ alerts → Alert.alertEnd alert = Some alertEnd →
       Date_parse alertEnd = Some now → alert ∈ (partitionByExpiry now alerts).2)
  ∧ (∀ alert,
       alert ∈ alerts → Alert.alertEnd alert = None →
       alert ∈ (partitionByExpiry now alerts).1)
  ∧ (partitionByExpiry now alerts).1 `sublist_of` alerts
  ∧ (partitionByExpiry now alerts).2 `sublist_of` alerts
  ∧ (length (partitionByExpiry now alerts).1 + length (partitionByExpiry now alerts).2
     = length alerts)%nat.
Proof.
  rewrite partitionByExpiry_filter. simpl.
  assert (Hexp : ∀ alert, alert ∈ List.filter (isExpired now) alerts
                          ↔ alert ∈ alerts ∧ endsBy now alert).
  { intros alert.
    by rewrite list_elem_of_In, filter_In, <- list_elem_of_In, isExpired_spec. }
  assert (Hact : ∀ alert, alert ∈ List.filter (λ a, negb (isExpired now a)) alerts
                          ↔ alert ∈ alerts ∧ ¬ endsBy now alert).
  { intros alert.
    by rewrite list_elem_of_In, filter_In, <- list_elem_of_In, not_isExpired_spec. }
  split_and!; [exact Hexp|exact Hact| | |apply filter_sublist_of..|].
  - intros alert alertEnd Hin Hend Hparse. apply Hexp. split; [done|].
    exists alertEnd, now. split_and!; [done|done|lia].
  - intros alert Hin Hnone. apply Hact. split; [done|].
    intros (alertEnd & e & Hend & _). congruence.
  - clear Hexp Hact. induction alerts as [|alert alerts IH]; [done|].
    simpl. destruct (isExpired now alert); simpl; lia.
Qed.

#[local] Instance status_mono_refl : Reflexive status_mono.
Proof. intros db k. destruct (db !! k); auto. Qed.

#[local] Instance status_mono_trans : Transitive status_mono.
Proof.
  intros db1 db2 db3 H12 H23 k. specialize (H12 k). specialize (H23 k).
  destruct (db1 !! k), (db2 !! k), (db3 !! k); try done.
  destruct H12, H23; [left|right|right|right]; congruence.
Qed.

Lemma updateAlert_completed_mono (reachable : bool) (alertId : string) db :
  status_mono db (AlertStore.updateAlert reachable alertId completedPatch db).1.
Proof.
  unfold AlertStore.updateAlert. destruct reachable; [|reflexivity].
  destruct (db !! alertId) as [row|] eqn:Hrow; [|reflexivity].
  simpl. intros k. destruct (decide (alertId = k)) as [->|Hne].
  - rewrite lookup_insert_eq, Hrow. simpl. auto.
  - rewrite lookup_insert_ne by done. destruct (db !! k); auto.
Qed.

Lemma runUpdates_loop_mono (reachable : string → bool) (expiredAlerts : list Alert.t)
    db (results : list (Exc (option Alert.t))) :
  status_mono db
    (foldl (λ '(db, results) '(alertId, patch),
              let '(db', r) :=
                AlertStore.updateAlert (reachable alertId) alertId patch db in
              (db', results ++ [r]))
           (db, results) (issuedUpdates expiredAlerts)).1.
Proof.
  revert db results.
  induction expiredAlerts as [|alert l IH]; intros db results; [reflexivity|].
  simpl.
  pose proof (updateAlert_completed_mono (reachable (Alert.id alert)) (Alert.id alert) db)
    as Hstep.
  destruct (AlertStore.updateAlert (reachable (Alert.id alert)) (Alert.id alert)
              completedPatch db) as [db1 r].
  simpl in Hstep. etrans; [exact Hstep|]. apply IH.
Qed.

Lemma runUpdates_mono (reachable : string → bool) (expiredAlerts : list Alert.t) db :
  status_mono db (runUpdates reachable (issuedUpdates expiredAlerts) db).1.
Proof. apply runUpdates_loop_mono. Qed.

Lemma lm_step_mono db db' : lm_step db db' → status_mono db db'.
Proof.
  intros (reachable & now & alerts & ->). unfold filterAndUpdateExpiredAlerts.
  destruct (partitionByExpiry now alerts) as [activeAlerts expiredAlerts].
  case_bool_decide; [|reflexivity].
  pose proof (runUpdates_mono reachable expiredAlerts db) as Hrun.
  by destruct (runUpdates reachable (issuedUpdates expiredAlerts) db).
Qed.

Lemma lm_steps_mono db db' : rtc lm_step db db' → status_mono db db'.
Proof.
  induction 1 as [|db1 db2 db3 Hstep _ IH]; [reflexivity|].
  etrans; [by apply lm_step_mono|done].
Qed.

(** C9.  Every update the lifecycle manager issues carries the status
    [completed] (and touches nothing else), so along any sequence of
    its runs a completed alert stays completed, and an alert that is
    active at the end was active all along: no run moves an alert back
    to active. *)
Theorem completed_never_reverts :
  (∀ now (alerts : list Alert.t) alertId patch,
     (alertId, patch) ∈ issuedUpdates (partitionByExpiry now alerts).2 →
     UpdateAlertInput.status patch = Some Status.completed
     ∧ UpdateAlertInput.status patch ≠ Some Status.active)
  ∧ (∀ db db' alertId row,
       rtc lm_step db db' → db !! alertId = Some row →
       Alert.status row = Status.completed →
       ∃ row', db' !! alertId = Some row' ∧ Alert.status row' = Status.completed)
  ∧ (∀ db db' alertId row',
       rtc lm_step db db' → db' !! alertId = Some row' →
       Alert.status row' = Status.active →
       ∃ row, db !! alertId = Some row ∧ Alert.status row = Status.active).
Proof.
  split_and!.
  - intros now alerts alertId patch Hin.
    apply list_elem_of_fmap in Hin as (alert & [= _ ->] & _). done.
  - intros db db' alertId row Hsteps Hrow Hst.
    apply lm_steps_mono in Hsteps. specialize (Hsteps alertId).
    rewrite Hrow in Hsteps. destruct (db' !! alertId) as [row'|]; [|done].
    exists row'. split; [done|]. destruct Hsteps; congruence.
  - intros db db' alertId row' Hsteps Hrow Hst.
    apply lm_steps_mono in Hsteps. specialize (Hsteps alertId).
    rewrite Hrow in Hsteps. destruct (db !! alertId) as [row|]; [|done].
    exists row. split; [done|]. destruct Hsteps; congruence.
Qed.

End lifecycle.

(** ** Markup and its stripping *)

Section markup.

Import Html.

#[local] Arguments String.append !_ _ / : simpl nomatch.

(** Induction on element trees, with the children covered. *)
Lemma node_ind' (P : node → Prop) :
  (∀ s, P (text s)) →
  (∀ tag attrs children, Forall P children → P (elem tag attrs children)) →
  ∀ n, P n.
Proof.
  intros Htext Helem. fix IH 1. intros [s|tag attrs children]; [apply Htext|].
  apply Helem. induction children as [|child children IHc]; constructor; [apply IH|apply IHc].
Qed.

Lemma contains_String sub ch s : contains sub s → contains sub (String ch s).
Proof. intros (pre & post & ->). by exists (String ch pre), post. Qed.

Lemma contains_app_l sub t s : contains sub s → contains sub (t +:+ s).
Proof.
  intros Hs. induction t as [|ch t IH]; [done|]. simpl. by apply contains_String.
Qed.

Lemma contains_here sub post : contains sub (sub +:+ post).
Proof. by exists "", post. Qed.

Lemma contains_escaped sub s rest : contains sub rest → contains sub (escaped s rest).
Proof.
  intros Hr. induction s as [|ch s IH]; [done|]. simpl. by apply contains_app_l.
Qed.

Lemma contains_attributes sub attrs rest :
  contains sub rest → contains sub (attributes attrs rest).
Proof.
  intros Hr. induction attrs as [|[name value] attrs IH]; [done|].
  simpl. apply contains_String, contains_app_l, contains_String, contains_String.
  by apply contains_escaped, contains_String.
Qed.

Lemma append_assoc (a b c : string) : (a +:+ b) +:+ c = a +:+ (b +:+ c).
Proof. induction a as [|ch a IH]; simpl; [done|]. by f_equal. Qed.

Lemma escaped_app s rest : escaped s rest = escaped s "" +:+ rest.
Proof.
  induction s as [|ch s IH]; simpl; [done|]. rewrite append_assoc. by f_equal.
Qed.

(** What follows an element's markup is found in the whole. *)
Lemma contains_markup_rest sub n :
  ∀ rest, contains sub rest → contains sub (markup n rest).
Proof.
  induction n as [s|tag attrs children IH] using node_ind'; intros rest Hr.
  - by apply contains_escaped.
  - simpl. apply contains_String, contains_app_l, contains_attributes.
    destruct (Tag.isVoid tag); [by apply contains_String, contains_String|].
    apply contains_String.
    induction IH as [|child children Hchild _ IHc].
    + by apply contains_String, contains_String, contains_app_l, contains_String.
    + by apply Hchild.
Qed.

(** The text of a text node occurs, escaped, in the markup. *)
Lemma markup_hasText t n :
  ∀ rest, hasText t n → contains (escaped t "") (markup n rest).
Proof.
  induction n as [s|tag attrs children IH] using node_ind'; intros rest Ht.
  - simpl in *. subst s. rewrite (escaped_app t rest). apply contains_here.
  - simpl in *. destruct Ht as [-> Hany].
    apply contains_String, contains_app_l, contains_attributes, contains_String.
    induction IH as [|child children Hchild _ IHc]; [done|].
    destruct Hany as [Hhere|Hlater].
    + by apply Hchild.
    + by apply contains_markup_rest, IHc.
Qed.

(** Escaped text holds no markup: stripping passes through it, and
    inside a tag it is skipped whole. *)
Lemma strip_escape_char ch rest :
  strip_from false (escape_char ch +:+ rest) = escape_char ch +:+ strip_from false rest.
Proof.
  unfold escape_char.
  repeat (case_bool_decide; [subst ch; reflexivity|]).
  simpl. by rewrite bool_decide_eq_false_2.
Qed.

Lemma strip_escaped s rest :
  strip_from false (escaped s rest) = escaped s (strip_from false rest).
Proof.
  induction s as [|ch s IH]; [done|]. simpl. by rewrite strip_escape_char, IH.
Qed.

Lemma strip_tag_escape_char ch rest :
  strip_from true (escape_char ch +:+ rest) = strip_from true rest.
Proof.
  unfold escape_char.
  repeat (case_bool_decide; [subst ch; reflexivity|]).
  simpl. by rewrite bool_decide_eq_false_2.
Qed.

Lemma strip_tag_escaped s rest : strip_from true (escaped s rest) = strip_from true rest.
Proof.
  induction s as [|ch s IH]; [done|]. simpl. by rewrite strip_tag_escape_char.
Qed.

Lemma strip_tag_name tag rest : strip_from true (Tag.name tag +:+ rest) = strip_from true rest.
Proof. by destruct tag. Qed.

Lemma strip_attr_name attr rest :
  strip_from true (Attr.text attr +:+ rest) = strip_from true rest.
Proof. by destruct attr. Qed.

Lemma strip_attributes attrs rest :
  strip_from true (attributes attrs rest) = strip_from true rest.
Proof.
  induction attrs as [|[name value] attrs IH]; [done|].
  simpl. rewrite strip_attr_name. simpl. by rewrite strip_tag_escaped.
Qed.

(** Stripping the markup of a tree leaves its text. *)
Lemma strip_markup n :
  ∀ rest, strip_from false (markup n rest) = textOf n (strip_from false rest).
Proof.
  induction n as [s|tag attrs children IH] using node_ind'; intros rest.
  - apply strip_escaped.
  - simpl. rewrite strip_tag_name, strip_attributes.
    destruct (Tag.isVoid tag); [done|]. simpl.
    induction IH as [|child children Hchild _ IHc].
    + simpl. by rewrite strip_tag_name.
    + by rewrite Hchild, IHc.
Qed.

Lemma strip_doctype m : strip_from false (Templates.DOCTYPE +:+ m) = strip_from false m.
Proof. reflexivity. Qed.

(** The plain text of a laid-out page is the text of its tree. *)
Lemma stripHtml_wrapWithLayout previewText children :
  stripHtml (Templates.wrapWithLayout previewText children)
  = textOf (Components.EmailLayout previewText children) "".
Proof.
  unfold stripHtml, Templates.wrapWithLayout, renderToStaticMarkup.
  rewrite strip_doctype. apply strip_markup.
Qed.

Lemma textOf_layout previewText children :
  ∃ rest, textOf (Components.EmailLayout previewText children) "" = "Flight Alerts" +:+ rest.
Proof. eexists. reflexivity. Qed.

Lemma renderEmail_nonempty subject previewText children :
  subject ≠ "" →
  let email := Templates.renderEmail subject (Templates.wrapWithLayout previewText children) in
  RenderedEmail.subject email ≠ "" ∧ RenderedEmail.html email ≠ ""
  ∧ RenderedEmail.text email ≠ "".
Proof.
  intros Hs. cbn [RenderedEmail.subject RenderedEmail.html RenderedEmail.text
                   Templates.renderEmail].
  split_and!; [exact Hs|by unfold Templates.wrapWithLayout|].
  rewrite stripHtml_wrapWithLayout.
  destruct (textOf_layout previewText children) as [rest ->]. discriminate.
Qed.

Lemma contains_textOf_rest sub n :
  ∀ rest, contains sub rest → contains sub (textOf n rest).
Proof.
  induction n as [s|tag attrs children IH] using node_ind'; intros rest Hr.
  - by apply contains_escaped.
  - simpl. destruct (Tag.isVoid tag); [done|].
    induction IH as [|child children Hchild _ IHc]; [done|]. by apply Hchild.
Qed.

(** ... and in the stripped text. *)
Lemma textOf_hasText t n :
  ∀ rest, hasText t n → contains (escaped t "") (textOf n rest).
Proof.
  induction n as [s|tag attrs children IH] using node_ind'; intros rest Ht.
  - simpl in *. subst s. rewrite (escaped_app t rest). apply contains_here.
  - simpl in *. destruct Ht as [-> Hany].
    induction IH as [|child children Hchild _ IHc]; [done|].
    destruct Hany as [Hhere|Hlater].
    + by apply Hchild.
    + by apply contains_textOf_rest, IHc.
Qed.

End markup.

(** ** Fallback rendering *)

Section fallback.

Context `{Formatters, BlueprintRenderer}.

Import Html.

(** Looks for a text node by walking the tree. *)
Ltac find_text :=
  lazymatch goal with
  | |- _ ∧ _ => split; [reflexivity|find_text]
  | |- _ ∨ _ => (left; find_text) || (right; find_text)
  | |- _ = _ => reflexivity
  end.

Lemma empty_digest_hasText previewText summaryDate :
  hasText DailyPriceUpdate.noMatches
    (Components.EmailLayout previewText
       ([ Components.EmailSection (Some "Daily flight price update") None
            [ Components.TextBlock None
                ("Summary for " +:+ escapeHtml (formatDate summaryDate)) ] ]
        ++ DailyPriceUpdate.renderFallbackSections (DailyPriceUpdateEmail.mk summaryDate []))).
Proof. simpl. find_text. Qed.

(** C6.  Rendering any notification payload with no blueprint returns
    (it does not throw) an email whose subject, html and text are all
    non-empty, the text being the html with its markup stripped.  For a
    daily digest without alerts, the subject is built from the formatted
    summary date and both html and text carry the sentence saying that
    no matches were found. *)
Theorem fallback_always_renders (payload : NotificationEmailPayload) :
  (∃ email,
     AiEmailService.renderWithoutBlueprint payload = Ok email
     ∧ RenderedEmail.subject email ≠ ""
     ∧ RenderedEmail.html email ≠ ""
     ∧ RenderedEmail.text email ≠ ""
     ∧ RenderedEmail.text email = stripHtml (RenderedEmail.html email))
  ∧ (∀ summaryDate,
       payload = daily_price_update (DailyPriceUpdateEmail.mk summaryDate []) →
       ∃ email,
         AiEmailService.renderWithoutBlueprint payload = Ok email
         ∧ RenderedEmail.subject email
           = "Daily update: " +:+ formatDate summaryDate +:+ " alerts"
         ∧ contains DailyPriceUpdate.noMatches (RenderedEmail.html email)
         ∧ contains DailyPriceUpdate.noMatches (RenderedEmail.text email)).
Proof.
  split.
  - destruct payload as [payload|payload]; eexists; (split; [reflexivity|]).
    + unfold DailyPriceUpdate.renderFallbackEmail.
      destruct (renderEmail_nonempty (DailyPriceUpdate.subjectOf payload)
                  (DailyPriceUpdate.previewTextOf payload)
                  ([ Components.EmailSection (Some "Daily flight price update") None
                       [ Components.TextBlock None
                           ("Summary for " +:+
                            escapeHtml (formatDate (DailyPriceUpdateEmail.summaryDate payload))) ] ]
                   ++ DailyPriceUpdate.renderFallbackSections payload))
        as (Hs & Hh & Ht); [done|].
      by split_and!.
    + unfold PriceDropAlert.renderFallbackEmail.
      match goal with
      | |- context [Templates.renderEmail ?subject (Templates.wrapWithLayout ?p ?c)] =>
          destruct (renderEmail_nonempty subject p c) as (Hs & Hh & Ht); [done|]
      end.
      by split_and!.
  - intros summaryDate ->. eexists. split; [reflexivity|].
    unfold DailyPriceUpdate.renderFallbackEmail, Templates.renderEmail.
    cbn [RenderedEmail.subject RenderedEmail.html RenderedEmail.text].
    split_and!; [reflexivity| |].
    + unfold Templates.wrapWithLayout, renderToStaticMarkup.
      apply contains_app_l.
      apply (markup_hasText DailyPriceUpdate.noMatches), empty_digest_hasText.
    + rewrite stripHtml_wrapWithLayout.
      apply (textOf_hasText DailyPriceUpdate.noMatches), empty_digest_hasText.
Qed.

End fallback.

(** ** Blueprint validation and the content pipeline *)

Section pipeline.

Context `{Formatters, AiGateway, BlueprintRenderer}.

Import AiEmailAgent AiEmailService.

(** What [generateBlueprint] returns is decided by the collaborator's
    answer alone. *)
Lemma generateBlueprint_rejected type prompt context :
  (∀ candidate, generateObject type prompt context = Ok candidate →
                Schemas.safeParse candidate = None) →
  generateBlueprint type prompt context = Ok None.
Proof.
  intros Hrej. unfold generateBlueprint.
  destruct (negb (truthy_str AI_GATEWAY_API_KEY)); [done|].
  destruct (generateObject type prompt context) as [candidate|e] eqn:Hgen; [|done].
  simpl. destruct (truthy candidate); [|done].
  by rewrite (Hrej candidate eq_refl).
Qed.

(** C7.  When the AI response for a payload parses but fails the
    blueprint schema, blueprint generation yields null and the pipeline
    returns exactly what rendering that payload with no blueprint
    returns: the blueprint renderer has no part in the result. *)
Theorem invalid_blueprint_renders_fallback
    (payload : NotificationEmailPayload) (candidate : json) :
  aiResponse payload = Ok candidate →
  Schemas.safeParse candidate = None →
  buildEmailContent payload = renderWithoutBlueprint payload
  ∧ match payload with
    | daily_price_update payload =>
        generateDailyDigestBlueprint (buildDailyDigestBlueprintContext payload)
    | price_drop_alert payload =>
        generatePriceDropBlueprint (buildPriceDropBlueprintContext payload)
    end = Ok None.
Proof.
  intros Hresp Hparse.
  destruct payload as [payload|payload]; simpl in Hresp.
  - assert (generateDailyDigestBlueprint (buildDailyDigestBlueprintContext payload)
            = Ok None) as Hgen.
    { apply generateBlueprint_rejected. intros c Hc. congruence. }
    split; [|exact Hgen].
    unfold buildEmailContent, renderDailyDigestEmailWithAI. rewrite Hgen. reflexivity.
  - assert (generatePriceDropBlueprint (buildPriceDropBlueprintContext payload)
            = Ok None) as Hgen.
    { apply generateBlueprint_rejected. intros c Hc. congruence. }
    split; [|exact Hgen].
    unfold buildEmailContent, renderPriceDropEmailWithAI. rewrite Hgen. reflexivity.
Qed.

End pipeline.

(** ** The model at work on concrete inputs *)

Section examples.

Import Examples.

#[local] Existing Instance IsoRuntime.utc.
#[local] Existing Instance searchByOrigin.
#[local] Existing Instance plainFormatters.
#[local] Existing Instance markerRenderer.

Example translate_past_start :
  (λ q, (Segment.departureDate <$> FlightFiltersInput.segments q,
         FlightFiltersInput.dateRange q, FlightFiltersInput.stops q))
  <$> convertAlertFiltersToFlightFilters now (alertFilters "SFO" criteria)
  = Some (["2025-06-06"], DateRange.mk "2025-06-06" "2025-06-06", MaxStops.NON_STOP).
Proof. vm_compute. reflexivity. Qed.

(** The date put in the query is the UTC calendar date of local
    midnight tomorrow: the next day in UTC, the current local day two
    hours east of it. *)
Example tomorrowStr_utc : tomorrowStr now = "2025-06-06".
Proof. vm_compute. reflexivity. Qed.

Example tomorrowStr_east : tomorrowStr (H:=IsoRuntime.at_offset 7200000) now = "2025-06-05".
Proof. vm_compute. reflexivity. Qed.

Example filter_spec_scenario :
  filterFlightsByAlertCriteria rawFlights (alertFilters "SFO" criteria)
  = [flight 250 0 "AA"; flight 280 0 "UA"].
Proof. vm_compute. reflexivity. Qed.

Example blueprint_subject_bound :
  is_Some (Schemas.safeParse (candidateWithSubject (replicate_char 120 "x")))
  ∧ Schemas.safeParse (candidateWithSubject longSubject) = None.
Proof. split; [vm_compute; eauto|vm_compute; reflexivity]. Qed.

Example empty_digest_subject :
  RenderedEmail.subject <$>
    match DailyPriceUpdate.renderDailyPriceUpdateEmail emptyDigest None with
    | Ok email => Some email
    | Throw _ => None
    end
  = Some "Daily update: 2025-01-01 alerts".
Proof. vm_compute. reflexivity. Qed.



Lemma expiry_partition_at_or_before_witness :
  Lifecycle.partitionByExpiry now [endingNow; bosAlert] = ([bosAlert], [endingNow])
  ∧ endingNow ∈ (Lifecycle.partitionByExpiry now [endingNow; bosAlert]).2
  ∧ bosAlert ∈ (Lifecycle.partitionByExpiry now [endingNow; bosAlert]).1.
Proof.
  destruct (expiry_partition_at_or_before now [endingNow; bosAlert])
    as (_ & _ & Hboundary & Hnone & _).
  split_and!; [vm_compute; reflexivity| |].
  - apply (Hboundary endingNow "2025-06-05T10:30:00.000Z");
      [apply list_elem_of_here|reflexivity|vm_compute; reflexivity].
  - apply (Hnone bosAlert); [apply list_elem_of_further, list_elem_of_here|reflexivity].
Defined.

(** C3 as stated fails: an alert whose [alertEnd] equals [now] is in
    the expired group, so the expired group is not made of the alerts
    ending strictly before [now]. *)
Lemma expiry_partition_not_strict :
  ¬ (∀ (now : Z) (alerts : list Alert.t) (alert : Alert.t),
       alert ∈ (Lifecycle.partitionByExpiry now alerts).2
       ↔ alert ∈ alerts
         ∧ ∃ alertEnd e, Alert.alertEnd alert = Some alertEnd
                         ∧ Date_parse alertEnd = Some e ∧ e < now).
Proof.
  intros Hclaim.
  destruct (Hclaim Examples.now [endingNow] endingNow) as [Hstrict _].
  destruct Hstrict as (_ & alertEnd & e & Hend & Hparse & Hlt).
  - vm_compute. apply list_elem_of_here.
  - injection Hend as <-. vm_compute in Hparse. injection Hparse as <-.
    unfold Examples.now in Hlt. lia.
Qed.

Lemma cap_applied_before_filter_witness :
  0 ≤ defaultMaxFlights
  ∧ fetchFlightsForAlert now bosAlert defaultMaxFlights
    = Ok (Some (AlertWithFlights.mk bosAlert []))
  ∧ keepFlight criteria (flight 120 0 "AA") = true.
Proof.
  assert (0 ≤ defaultMaxFlights) as Hn by (unfold defaultMaxFlights; lia).
  split_and!; [exact Hn| |vm_compute; reflexivity].
  destruct (cap_applied_before_filter now bosAlert defaultMaxFlights Hn) as (_ & Hfwd & _).
  refine (proj1 (Hfwd _ _ sixFlights _ _ _));
    [reflexivity|reflexivity|vm_compute; reflexivity].
Defined.

Lemma batch_fault_isolation_witness :
  0 ≤ defaultMaxFlights
  ∧ ∃ out,
      fetchFlightDataForAlerts (λ _, now) threeAlerts defaultMaxFlights = Ok out
      ∧ (λ entry, (Alert.id (AlertWithFlights.alert entry),
                   length (AlertWithFlights.flights entry))) <$> out
        = [("a-1", 2%nat); ("a-3", 5%nat)].
Proof.
  assert (0 ≤ defaultMaxFlights) as Hn by (unfold defaultMaxFlights; lia).
  split; [exact Hn|].
  destruct (batch_fault_isolation (λ _, now) threeAlerts defaultMaxFlights)
    as (_ & Heq & _).
  eexists. split; [exact (Heq Hn)|vm_compute; reflexivity].
Defined.

Lemma fallback_always_renders_witness :
  ∃ email,
    AiEmailService.renderWithoutBlueprint (daily_price_update emptyDigest) = Ok email
    ∧ RenderedEmail.subject email = "Daily update: 2025-01-01 alerts"
    ∧ contains DailyPriceUpdate.noMatches (RenderedEmail.text email).
Proof.
  destruct (fallback_always_renders (daily_price_update emptyDigest)) as [_ Hempty].
  destruct (Hempty "2025-01-01" eq_refl) as (email & Hr & Hs & _ & Ht).
  exists email. split_and!; [exact Hr|rewrite Hs; reflexivity|exact Ht].
Defined.

Lemma invalid_blueprint_renders_fallback_witness :
  let gateway := gatewayAnswering (Ok (candidateWithSubject longSubject)) in
  AiEmailAgent.aiResponse (daily_price_update emptyDigest)
  = Ok (candidateWithSubject longSubject)
  ∧ Schemas.safeParse (candidateWithSubject longSubject) = None
  ∧ AiEmailService.buildEmailContent (daily_price_update emptyDigest)
    = AiEmailService.renderWithoutBlueprint (daily_price_update emptyDigest).
Proof.
  intros gateway. split_and!; [reflexivity|vm_compute; reflexivity|].
  apply (invalid_blueprint_renders_fallback (daily_price_update emptyDigest)
           (candidateWithSubject longSubject));
    [reflexivity|vm_compute; reflexivity].
Defined.

Lemma airline_match_upper_cased_allow_list_witness :
  Filters.airlines (airlinesOnly ["aa"]) = Some ["aa"]
  ∧ ["aa"] ≠ []
  ∧ failsAirlines (airlinesOnly ["aa"]) (flight 250 0 "AA") = false.
Proof.
  assert (["aa"] ≠ @nil string) as Hne by (intros Heq; inversion Heq).
  split_and!; [reflexivity|exact Hne|].
  destruct (airline_match_upper_cased_allow_list (airlinesOnly ["aa"]) ["aa"]
              (flight 250 0 "AA") eq_refl Hne) as (_ & Hupper & _).
  apply (Hupper (Slice.mk 0 330 [leg "AA"]) (leg "AA") "aa");
    [apply list_elem_of_here|apply list_elem_of_here|apply list_elem_of_here
    |reflexivity|reflexivity].
Defined.

(** C8 as stated fails: a leg code in lower case does not pass the
    airline guard against an allowed code that differs from it only in
    case. *)
Lemma airline_match_not_case_insensitive :
  ¬ (∀ (c : Filters.t) (codes : list string) (F : FlightOption.t),
       Filters.airlines c = Some codes → codes ≠ [] →
       (∃ slice leg code,
          slice ∈ FlightOption.slices F ∧ leg ∈ Slice.legs slice ∧ code ∈ codes
          ∧ FilterSpec.eq_ignore_case (Leg.airlineCode leg) code) →
       failsAirlines c F = false).
Proof.
  intros Hclaim.
  assert (failsAirlines (airlinesOnly ["AA"]) (flight 250 0 "aa") = true) as Hcode
    by (vm_compute; reflexivity).
  rewrite (Hclaim (airlinesOnly ["AA"]) ["AA"] (flight 250 0 "aa") eq_refl) in Hcode.
  - discriminate Hcode.
  - intros Heq. inversion Heq.
  - exists (Slice.mk 0 330 [leg "aa"]), (leg "aa"), "AA".
    split_and!; [apply list_elem_of_here..|reflexivity].
Qed.

Example lower_case_leg_is_dropped :
  filterFlightsByAlertCriteria [flight 250 0 "aa"] (alertFilters "SFO" (airlinesOnly ["AA"]))
  = [].
Proof. vm_compute. reflexivity. Qed.

Lemma completed_never_reverts_witness :
  let db' := (Lifecycle.filterAndUpdateExpiredAlerts (λ _, true) now
                [alert "a-2" "LAX" criteria (Some "2025-06-05T10:30:00.000Z")] store).1 in
  rtc Lifecycle.lm_step store db'
  ∧ ∃ row', db' !! "a-1" = Some row' ∧ Alert.status row' = Status.completed.
Proof.
  intros db'.
  assert (rtc Lifecycle.lm_step store db') as Hsteps.
  { apply rtc_once. eexists (λ _, true), now, _. reflexivity. }
  split; [exact Hsteps|].
  destruct completed_never_reverts as (_ & Hstay & _).
  eapply (Hstay store db' "a-1"); [exact Hsteps|vm_compute; reflexivity|reflexivity].
Defined.

Lemma zero_price_ceiling_is_absent_witness :
  AlertFilters.filters (alertFilters "SFO" zeroPrice) = Some zeroPrice
  ∧ Filters.price zeroPrice = Some 0%Qc
  ∧ exceedsPrice zeroPrice (flight 350 0 "DL") = false
  ∧ filterFlightsByAlertCriteria rawFlights (alertFilters "SFO" zeroPrice)
    = [flight 250 0 "AA"; flight 280 0 "UA"].
Proof.
  split_and!; [reflexivity|reflexivity| |].
  - by destruct (zero_price_ceiling_is_absent now (alertFilters "SFO" zeroPrice)
                   zeroPrice rawFlights eq_refl eq_refl) as (Hprice & _).
  - destruct (zero_price_ceiling_is_absent now (alertFilters "SFO" zeroPrice)
                zeroPrice rawFlights eq_refl eq_refl) as (_ & _ & -> & _).
    vm_compute. reflexivity.
Defined.

End examples.

(** * Further properties of the code *)

(** ** The filter translator and the result filter together *)

Section translator_more.

Context `{Runtime}.
Implicit Types (af : AlertFilters.t) (now : Z) (c : Filters.t).







End translator_more.

(** ** Grouping, capping and the batch output *)

Section batch_more.

Context `{Runtime, SearchService}.
Implicit Types (alert : Alert.t) (alerts : list Alert.t) (now maxFlights : Z).

Lemma groupAlertsByRoute_loop alerts (routeMap : gmap string (list Alert.t)) (key : string) :
  foldl (λ routeMap alert,
           let existing := default [] (routeMap !! routeKey alert) in
           <[routeKey alert := existing ++ [alert]]> routeMap)
        routeMap alerts !! key
  = match QuerySpec.alertsOfKey key alerts with
    | [] => routeMap !! key
    | found => Some (default [] (routeMap !! key) ++ found)
    end.
Proof.
  revert routeMap. induction alerts as [|alert alerts IH]; intros routeMap; [done|].
  simpl. rewrite IH. unfold QuerySpec.alertsOfKey. rewrite filter_cons.
  destruct (decide (routeKey alert = key)) as [Hkey|Hkey].
  - rewrite Hkey, lookup_insert_eq. simpl.
    destruct (filter _ alerts) as [|a l]; [done|]. by rewrite <- app_assoc.
  - by rewrite lookup_insert_ne.
Qed.

(** X4.  Grouping by route loses and invents nothing: the group
    stored under a key is the list of the alerts with that key, in
    input order, and a key no alert has is absent from the map. *)
Theorem groupAlertsByRoute_lookup alerts (key : string) :
  groupAlertsByRoute alerts !! key
  = match QuerySpec.alertsOfKey key alerts with
    | [] => None
    | found => Some found
    end.
Proof.
  unfold groupAlertsByRoute. rewrite groupAlertsByRoute_loop. rewrite lookup_empty.
  by destruct (QuerySpec.alertsOfKey key alerts).
Qed.

Lemma filter_take_prefix {A} (p : A → bool) (n : nat) (l : list A) :
  List.filter p (take n l) `prefix_of` take n (List.filter p l).
Proof.
  rewrite <- (take_drop n l) at 2. rewrite List.filter_app.
  assert (length (List.filter p (take n l)) ≤ n)%nat as Hlen.
  { etrans; [apply sublist_length, filter_sublist_of|]. rewrite length_take. lia. }
  rewrite take_app_ge by done. by eexists.
Qed.

Lemma filter_idemp {A} (p : A → bool) (l : list A) :
  List.filter p (List.filter p l) = List.filter p l.
Proof.
  induction l as [|x l IH]; [done|]. simpl.
  destruct (p x) eqn:Hp; [|done]. simpl. by rewrite Hp, IH.
Qed.

(** X5.  Filtering twice is filtering once; and capping before
    filtering, as the fetcher does, gives a prefix of what filtering
    before capping would give: it never attaches a flight the other
    order would not, only fewer. *)
Theorem cap_then_filter_is_prefix (flights : list FlightOption.t) (af : AlertFilters.t)
    (n : nat) :
  filterFlightsByAlertCriteria (filterFlightsByAlertCriteria flights af) af
  = filterFlightsByAlertCriteria flights af
  ∧ filterFlightsByAlertCriteria (take n flights) af
    `prefix_of` take n (filterFlightsByAlertCriteria flights af)
  ∧ (length (filterFlightsByAlertCriteria (take n flights) af) ≤ n)%nat.
Proof.
  unfold filterFlightsByAlertCriteria.
  destruct (AlertFilters.filters af) as [c|]; split_and!; try done.
  - apply filter_idemp.
  - apply filter_take_prefix.
  - etrans; [apply sublist_length, filter_sublist_of|]. rewrite length_take. lia.
  - rewrite length_take. lia.
Qed.

(** The batch output as the concatenation of the per-alert entries. *)
Lemma fetchFlightDataForAlerts_entries (clock : nat → Z) alerts maxFlights :
  0 ≤ maxFlights →
  fetchFlightDataForAlerts clock alerts maxFlights
  = Ok (concat (imap (λ i alert, BatchSpec.entries (clock i) alert maxFlights) alerts)).
Proof.
  intros Hn. unfold fetchFlightDataForAlerts. case_bool_decide as Hlen.
  { destruct alerts; [done|discriminate]. }
  rewrite (imap_ext _
    (λ i alert, Ok (BatchSpec.resultOf alert
                      (BatchSpec.processAlert (clock i) alert maxFlights)))).
  2:{ intros i alert _. by apply fetchFlightsForAlert_total. }
  rewrite Promise_all_imap_Ok. simpl. by rewrite omap_successful_entries.
Qed.

Lemma entries_alert now alert maxFlights entry :
  entry ∈ BatchSpec.entries now alert maxFlights →
  AlertWithFlights.alert entry = alert
  ∧ ∃ raw,
      AlertWithFlights.flights entry
      = filterFlightsByAlertCriteria (take (Z.to_nat maxFlights) raw) (Alert.filters alert)
      ∧ AlertWithFlights.flights entry ≠ [].
Proof.
  unfold BatchSpec.entries, BatchSpec.processAlert.
  destruct (convertAlertFiltersToFlightFilters now (Alert.filters alert)) as [q|];
    [|by intros ?%elem_of_nil].
  destruct (parseFlightFiltersInput q) as [v|e]; [|by intros ?%elem_of_nil].
  destruct (searchFlights v) as [raw|e]; [|by intros ?%elem_of_nil].
  destruct (filterFlightsByAlertCriteria _ _) as [|F fl] eqn:Hf; [by intros ?%elem_of_nil|].
  intros ->%list_elem_of_singleton. simpl. split; [done|]. exists raw. by rewrite Hf.
Qed.

Lemma entries_alerts_sublist (clock : nat → Z) maxFlights alerts :
  AlertWithFlights.alert <$>
    concat (imap (λ i alert, BatchSpec.entries (clock i) alert maxFlights) alerts)
  `sublist_of` alerts.
Proof.
  revert clock. induction alerts as [|alert alerts IH]; intros clock; [done|].
  simpl. rewrite fmap_app. specialize (IH (clock ∘ S)).
  unfold BatchSpec.entries at 1.
  destruct (BatchSpec.processAlert (clock 0%nat) alert maxFlights) as [| |[|F fl]]; simpl;
    first [by apply sublist_cons|by apply sublist_skip].
Qed.

(** X6.  What the batch returns for a count [maxFlights >= 0]: the
    alerts of its entries are a subsequence of the input alerts, in
    order; every entry has at least one flight and at most [maxFlights];
    and with a criteria bundle each attached flight satisfies the price,
    airline and stops predicates. *)
Theorem batch_output_invariants (clock : nat → Z) alerts maxFlights out :
  0 ≤ maxFlights →
  fetchFlightDataForAlerts clock alerts maxFlights = Ok out →
  AlertWithFlights.alert <$> out `sublist_of` alerts
  ∧ (length out ≤ length alerts)%nat
  ∧ ∀ entry, entry ∈ out →
      AlertWithFlights.alert entry ∈ alerts
      ∧ (1 ≤ length (AlertWithFlights.flights entry) ≤ Z.to_nat maxFlights)%nat
      ∧ ∀ c F, AlertFilters.filters (Alert.filters (AlertWithFlights.alert entry)) = Some c →
               F ∈ AlertWithFlights.flights entry → FilterSpec.satisfies c F.
Proof.
  intros Hn. rewrite fetchFlightDataForAlerts_entries by done. intros [= <-].
  pose proof (entries_alerts_sublist clock maxFlights alerts) as Hsub.
  split_and!; [exact Hsub| |].
  - apply sublist_length in Hsub. by rewrite length_fmap in Hsub.
  - intros entry Hin. split.
    { eapply sublist_subseteq; [exact Hsub|]. by apply list_elem_of_fmap_2. }
    apply list_elem_of_In, in_concat in Hin as (es & Hes & Hentry).
    apply list_elem_of_In in Hes, Hentry.
    apply list_elem_of_lookup in Hes as (i & Hes).
    rewrite list_lookup_imap in Hes.
    destruct (alerts !! i) as [alert|]; [|done]. injection Hes as <-.
    apply entries_alert in Hentry as (-> & raw & Hflights & Hne).
    split.
    + rewrite Hflights in *. split.
      * destruct (filterFlightsByAlertCriteria _ _); [done|simpl; lia].
      * unfold filterFlightsByAlertCriteria.
        destruct (AlertFilters.filters (Alert.filters alert)).
        -- etrans; [apply sublist_length, filter_sublist_of|]. rewrite length_take. lia.
        -- rewrite length_take. lia.
    + intros c F Hc HF. rewrite Hflights in HF.
      unfold filterFlightsByAlertCriteria in HF. rewrite Hc in HF.
      apply list_elem_of_In, filter_In in HF as [_ Hkeep]. by apply keepFlight_spec.
Qed.

End batch_more.

(** ** The store and the expiry run *)

Section store_more.

Import StoreSpec.

Context `{Runtime}.
Implicit Types (alert : Alert.t) (now : Z) (db : gmap string Alert.t).

Lemma applyUpdates_idemp (updates : UpdateAlertInput.t) (row : Alert.t) :
  AlertStore.applyUpdates updates (AlertStore.applyUpdates updates row)
  = AlertStore.applyUpdates updates row.
Proof.
  unfold AlertStore.applyUpdates. simpl.
  by destruct (UpdateAlertInput.status updates), (UpdateAlertInput.filters updates),
    (UpdateAlertInput.alertEnd updates).
Qed.


#[local] Instance marked_dec (reachable : string → bool) (l : list Alert.t) (k : string) :
  Decision (marked reachable l k).
Proof.
  refine (cast_if (decide (Exists (λ alert, Alert.id alert = k ∧ reachable k = true) l)));
    unfold marked; rewrite Exists_exists in *; naive_solver.
Defined.

Lemma updateAlert_completed_lookup (reachable : string → bool) alert db (k : string) :
  (AlertStore.updateAlert (reachable (Alert.id alert)) (Alert.id alert) completedPatch db).1
  !! k
  = if decide (Alert.id alert = k ∧ reachable k = true)
    then AlertStore.applyUpdates completedPatch <$> db !! k
    else db !! k.
Proof.
  unfold AlertStore.updateAlert.
  destruct (decide (Alert.id alert = k ∧ reachable k = true)) as [[<- Hr]|Hn].
  - rewrite Hr. destruct (db !! Alert.id alert) as [row|] eqn:Hrow; simpl.
    + by rewrite lookup_insert_eq.
    + by rewrite Hrow.
  - destruct (reachable (Alert.id alert)) eqn:Hr; [|done].
    destruct (db !! Alert.id alert) as [row|] eqn:Hrow; [|done]. simpl.
    rewrite lookup_insert_ne; [done|]. intros Hk. apply Hn. by subst k.
Qed.

Lemma runUpdates_loop_lookup (reachable : string → bool) (expiredAlerts : list Alert.t)
    db (results : list (Exc (option Alert.t))) (k : string) :
  let db' :=
    (foldl (λ '(db, results) '(alertId, patch),
              let '(db', r) :=
                AlertStore.updateAlert (reachable alertId) alertId patch db in
              (db', results ++ [r]))
           (db, results) (issuedUpdates expiredAlerts)).1 in
  (marked reachable expiredAlerts k →
   db' !! k = AlertStore.applyUpdates completedPatch <$> db !! k)
  ∧ (¬ marked reachable expiredAlerts k → db' !! k = db !! k).
Proof.
  revert db results.
  induction expiredAlerts as [|alert l IH]; intros db results; simpl.
  { split; [|done]. intros (a & Ha & _). by apply elem_of_nil in Ha. }
  pose proof (updateAlert_completed_lookup reachable alert db k) as Hdb1.
  destruct (AlertStore.updateAlert (reachable (Alert.id alert)) (Alert.id alert)
              completedPatch db) as [db1 r1].
  simpl in Hdb1. destruct (IH db1 (results ++ [r1])) as [Hm Hn].
  assert (AlertStore.applyUpdates completedPatch <$> db1 !! k
          = AlertStore.applyUpdates completedPatch <$> db !! k) as Hidem.
  { rewrite Hdb1. case_decide; [|done].
    destruct (db !! k) as [row|]; [|done]. simpl. by rewrite applyUpdates_idemp. }
  destruct (decide (marked reachable l k)) as [Hl|Hl].
  - split.
    + intros _. by rewrite (Hm Hl).
    + intros Hnot. destruct Hnot. destruct Hl as (a & Ha & Hid & Hr).
      exists a. split_and!; [by apply list_elem_of_further|done..].
  - rewrite (Hn Hl), Hdb1. case_decide as Hhere.
    + split; [done|]. intros Hnot. destruct Hnot, Hhere as [Hid Hr].
      exists alert. split_and!; [apply list_elem_of_here|done..].
    + split; [|done]. intros (a & [->|Ha]%elem_of_cons & Hid & Hr).
      * by destruct Hhere.
      * destruct Hl. by exists a.
Qed.

Lemma Promise_all_Ok {A} (ps : list (Exc A)) :
  (∀ p, p ∈ ps → ∃ a, p = Ok a) → ∃ r, Promise_all ps = Ok r.
Proof.
  induction ps as [|p ps IH]; intros Hall; [by eexists|].
  destruct (Hall p) as [a ->]; [apply list_elem_of_here|].
  destruct IH as [r Hr]; [intros q Hq; apply Hall; by apply list_elem_of_further|].
  simpl. rewrite Hr. by eexists.
Qed.

Lemma Promise_all_Throw {A} (ps : list (Exc A)) p e :
  p ∈ ps → p = Throw e → ∃ e', Promise_all ps = Throw e'.
Proof.
  intros Hin ->. induction ps as [|q ps IH]; [by apply elem_of_nil in Hin|].
  apply elem_of_cons in Hin as [<-|Hin]; [by eexists|].
  destruct (IH Hin) as [e' He']. simpl. destruct q; [|by eexists].
  simpl. rewrite He'. by eexists.
Qed.

Lemma runUpdates_loop_results (reachable : string → bool) (expiredAlerts : list Alert.t)
    db (results : list (Exc (option Alert.t))) :
  let results' :=
    (foldl (λ '(db, results) '(alertId, patch),
              let '(db', r) :=
                AlertStore.updateAlert (reachable alertId) alertId patch db in
              (db', results ++ [r]))
           (db, results) (issuedUpdates expiredAlerts)).2 in
  (∀ r, r ∈ results' →
     r ∈ results ∨ (∃ row, r = Ok row)
     ∨ ∃ alert e, alert ∈ expiredAlerts ∧ reachable (Alert.id alert) = false ∧ r = Throw e)
  ∧ (∀ r, r ∈ results → r ∈ results')
  ∧ (∀ alert, alert ∈ expiredAlerts → reachable (Alert.id alert) = false →
       ∃ e, Throw e ∈ results').
Proof.
  revert db results.
  induction expiredAlerts as [|alert l IH]; intros db results; simpl.
  { split_and!; [auto|auto|]. by intros a ?%elem_of_nil. }
  destruct (AlertStore.updateAlert (reachable (Alert.id alert)) (Alert.id alert)
              completedPatch db) as [db1 r1] eqn:Hupd.
  destruct (IH db1 (results ++ [r1])) as (Hfrom & Hkeep & Hthrow).
  assert (reachable (Alert.id alert) = false → ∃ e, r1 = Throw e) as Hfail.
  { intros Hr. unfold AlertStore.updateAlert in Hupd. rewrite Hr in Hupd.
    injection Hupd as _ <-. by eexists. }
  assert (reachable (Alert.id alert) = true → ∃ row, r1 = Ok row) as Hok.
  { intros Hr. unfold AlertStore.updateAlert in Hupd. rewrite Hr in Hupd.
    destruct (db !! Alert.id alert); injection Hupd as _ <-; by eexists. }
  split_and!.
  - intros r Hin. destruct (Hfrom r Hin) as [Hacc|[Hrow|(a & e & Ha & Hr & ->)]].
    + apply elem_of_app in Hacc as [Hacc| ->%list_elem_of_singleton]; [by left|].
      destruct (reachable (Alert.id alert)) eqn:Hr.
      * right; left. by apply Hok.
      * right; right. destruct (Hfail eq_refl) as [e ->].
        exists alert, e. split_and!; [apply list_elem_of_here|done..].
    + by right; left.
    + right; right. exists a, e. split_and!; [by apply list_elem_of_further|done..].
  - intros r Hin. apply Hkeep, elem_of_app. by left.
  - intros a [->|Ha]%elem_of_cons Hr.
    + destruct (Hfail Hr) as [e ->]. exists e.
      apply Hkeep, elem_of_app. right. apply list_elem_of_here.
    + by apply (Hthrow a).
Qed.

Lemma partition_none_expired now (alerts : list Alert.t) :
  (partitionByExpiry now alerts).2 = [] → (partitionByExpiry now alerts).1 = alerts.
Proof.
  rewrite partitionByExpiry_filter. simpl.
  induction alerts as [|alert alerts IH]; [done|]. simpl.
  destruct (isExpired now alert); [done|]. simpl. intros Hnil. by rewrite IH.
Qed.

(** X8.  One run of the expiry step.  In the store, the rows of the
    expired alerts whose update goes through have their status set to
    completed and nothing else changed, and every other row is as
    before.  The run returns the active alerts when every update goes
    through; if the update of some expired alert fails the run throws,
    although the updates that went through stay in the store.  With no
    expired alert the store is not touched and all alerts are
    returned. *)
Theorem expiry_run_effect (reachable : string → bool) now (alerts : list Alert.t) db :
  let expiredAlerts := (partitionByExpiry now alerts).2 in
  let run := filterAndUpdateExpiredAlerts reachable now alerts db in
  (∀ k, marked reachable expiredAlerts k →
        run.1 !! k = AlertStore.applyUpdates completedPatch <$> db !! k)
  ∧ (∀ k, ¬ marked reachable expiredAlerts k → run.1 !! k = db !! k)
  ∧ ((∀ alert, alert ∈ expiredAlerts → reachable (Alert.id alert) = true) →
     run.2 = Ok (partitionByExpiry now alerts).1)
  ∧ (∀ alert, alert ∈ expiredAlerts → reachable (Alert.id alert) = false →
       ∃ e, run.2 = Throw e)
  ∧ (expiredAlerts = [] → run = (db, Ok alerts)).
Proof.
  intros expiredAlerts run. subst run expiredAlerts.
  unfold filterAndUpdateExpiredAlerts.
  pose proof (partition_none_expired now alerts) as Hnone.
  destruct (partitionByExpiry now alerts) as [activeAlerts expiredAlerts]. simpl in *.
  case_bool_decide as Hlen.
  - pose proof (runUpdates_loop_lookup reachable expiredAlerts db []) as Hlook.
    pose proof (runUpdates_loop_results reachable expiredAlerts db []) as (Hfrom & _ & Hthrow).
    unfold runUpdates.
    destruct (foldl _ _ _) as [db' results]. simpl in *.
    split_and!.
    + intros k. apply Hlook.
    + intros k. apply Hlook.
    + intros Hall. destruct (Promise_all_Ok results) as [r ->]; [|done].
      intros p Hp. destruct (Hfrom p Hp) as [Hnil|[Hrow|(a & e & Ha & Hr & _)]].
      * by apply elem_of_nil in Hnil.
      * done.
      * rewrite (Hall a Ha) in Hr. done.
    + intros a Ha Hr. destruct (Hthrow a Ha Hr) as [e He].
      destruct (Promise_all_Throw results (Throw e) e He eq_refl) as [e' ->]. by eexists.
    + intros ->. simpl in Hlen. lia.
  - destruct expiredAlerts as [|a l]; [|simpl in Hlen; lia].
    split_and!; try done.
    + intros k (a & Ha & _). by apply elem_of_nil in Ha.
    + intros a Ha. by apply elem_of_nil in Ha.
    + intros _. by rewrite Hnone.
Qed.

End store_more.

(** ** Blueprint generation and the content pipeline *)

Section pipeline_more.

Context `{Formatters, AiGateway, BlueprintRenderer}.

Import AiEmailAgent.



Lemma generate_never_throws type prompt context :
  ∃ r, generateBlueprint type prompt context = Ok r.
Proof.
  unfold generateBlueprint. destruct (negb _); [eauto|].
  destruct (generateObject type prompt context) as [c|e]; simpl; [|eauto].
  destruct (truthy c); [|eauto]. destruct (Schemas.safeParse c); eauto.
Qed.

Lemma daily_template_total payload blueprint :
  ∃ email, DailyPriceUpdate.renderDailyPriceUpdateEmail payload blueprint = Ok email.
Proof.
  unfold DailyPriceUpdate.renderDailyPriceUpdateEmail.
  destruct blueprint as [bp|]; [|eauto].
  destruct (renderBlueprintEmail_daily _ _ _ _); simpl; eauto.
Qed.

Lemma priceDrop_template_total payload blueprint :
  ∃ email, PriceDropAlert.renderPriceDropAlertEmail payload blueprint = Ok email.
Proof.
  unfold PriceDropAlert.renderPriceDropAlertEmail.
  destruct blueprint as [bp|]; [|eauto].
  destruct (renderBlueprintEmail_priceDrop _ _ _ _); simpl; eauto.
Qed.

(** X10.  The content pipeline always produces an email: whatever the
    gateway and the blueprint renderer do, [buildEmailContent] returns.
    A template given a blueprint whose rendering throws returns what it
    returns with no blueprint.  And the two versions of the service,
    with and without the null test on the blueprint, return the same. *)
Theorem content_pipeline_total (payload : NotificationEmailPayload) :
  (∃ email, AiEmailService.buildEmailContent payload = Ok email)
  ∧ (∀ p blueprint e,
       renderBlueprintEmail_daily p blueprint (DailyPriceUpdate.subjectOf p)
         (DailyPriceUpdate.previewTextOf p) = Throw e →
       DailyPriceUpdate.renderDailyPriceUpdateEmail p (Some blueprint)
       = DailyPriceUpdate.renderDailyPriceUpdateEmail p None)
  ∧ (∀ p blueprint e,
       renderBlueprintEmail_priceDrop p blueprint (PriceDropAlert.baseSubjectOf p)
         (PriceDropAlert.fallbackPreviewOf p) = Throw e →
       PriceDropAlert.renderPriceDropAlertEmail p (Some blueprint)
       = PriceDropAlert.renderPriceDropAlertEmail p None)
  ∧ (∀ p, AiEmailServiceDirect.renderDailyDigestEmailWithAI p
          = AiEmailService.renderDailyDigestEmailWithAI p)
  ∧ (∀ p, AiEmailServiceDirect.renderPriceDropEmailWithAI p
          = AiEmailService.renderPriceDropEmailWithAI p).
Proof.
  split_and!.
  - destruct payload as [p|p]; simpl.
    + unfold AiEmailService.renderDailyDigestEmailWithAI, generateDailyDigestBlueprint.
      destruct (generate_never_throws "daily-update" dailyDigestPrompt
                  (buildDailyDigestBlueprintContext p)) as [[bp|] ->];
        unfold mbind, Exc_bind, try_catch.
      * destruct (daily_template_total p (Some bp)) as [email ->]. eauto.
      * destruct (daily_template_total p None) as [email ->]. eauto.
    + unfold AiEmailService.renderPriceDropEmailWithAI, generatePriceDropBlueprint.
      destruct (generate_never_throws "price-drop" priceDropPrompt
                  (buildPriceDropBlueprintContext p)) as [[bp|] ->];
        unfold mbind, Exc_bind, try_catch.
      * destruct (priceDrop_template_total p (Some bp)) as [email ->]. eauto.
      * destruct (priceDrop_template_total p None) as [email ->]. eauto.
  - intros p bp e He. unfold DailyPriceUpdate.renderDailyPriceUpdateEmail. by rewrite He.
  - intros p bp e He. unfold PriceDropAlert.renderPriceDropAlertEmail. by rewrite He.
  - intros p. unfold AiEmailServiceDirect.renderDailyDigestEmailWithAI,
      AiEmailService.renderDailyDigestEmailWithAI.
    by destruct (generateDailyDigestBlueprint _) as [[bp|]|e].
  - intros p. unfold AiEmailServiceDirect.renderPriceDropEmailWithAI,
      AiEmailService.renderPriceDropEmailWithAI.
    by destruct (generatePriceDropBlueprint _) as [[bp|]|e].
Qed.

End pipeline_more.

(** ** What schema validation guarantees *)

Section schema_more.

Context `{Formatters}.

Import Zod Schemas BlueprintSpec.













End schema_more.

(** ** The verbose batch of the script *)

Section script_more.

Context `{Runtime, Script.SearchService}.
Implicit Types (now : Z) (alert : Alert.t) (filters : Filters.t).

Lemma toISODate_nonempty (t : Z) : toISODate t ≠ "".
Proof.
  unfold toISODate. destruct (civil_from_days _) as [[y m] d].
  destruct (year_string y); discriminate.
Qed.

Lemma truthy_tomorrowStr now : truthy_str (Some (tomorrowStr now)) = true.
Proof.
  unfold truthy_str. rewrite bool_decide_eq_false_2; [reflexivity|].
  apply toISODate_nonempty.
Qed.

Lemma script_convert_dated (clock : Z) (af : AlertFilters.t) filters (dateFrom : string) :
  AlertFilters.filters af = Some filters →
  Filters.dateFrom filters = Some dateFrom →
  truthy_str (Some dateFrom) = true →
  Script.convertAlertFiltersToFlightFilters clock af
  = Script.FlightFiltersInput.mk TripType.ONE_WAY
      [ Script.Segment.mk (Route.from (AlertFilters.route af))
          (Route.to (AlertFilters.route af)) (Some dateFrom)
          (Filters.departureTimeRange filters) (Filters.arrivalTimeRange filters) ]
      (DateRange.mk dateFrom dateFrom)
      (mapped seatTypeMap SeatType.ECONOMY (Filters.class filters))
      (mapped stopsMap MaxStops.ANY (Filters.stops filters))
      (if hasAirlines (Filters.airlines filters) then Filters.airlines filters else None)
      (if truthy_num (Filters.price filters)
       then (λ p, PriceLimit.mk p Currency.USD) <$> Filters.price filters
       else None).
Proof.
  intros Hf Hd Ht. unfold Script.convertAlertFiltersToFlightFilters, opt.
  rewrite Hf. cbn [mbind option_bind]. rewrite Hd, Ht. reflexivity.
Qed.

Lemma planOf_eq now alert :
  Script.planOf now alert
  = match AlertFilters.filters (Alert.filters alert) with
    | None => Script.skip
    | Some filters =>
        if negb (truthy_str (Filters.dateFrom filters)) then Script.skip
        else
          if match Script.endDateOf filters with
             | Some endDate => date_lt endDate (Some (today now))
             | None => false
             end
          then Script.skip
          else if date_lt (startOfDayOf (default "" (Filters.dateFrom filters)))
                    (Some (today now))
                  && match Script.endDateOf filters with
                     | Some endDate => date_le (Some (today now)) endDate
                     | None => false
                     end
          then Script.search (Script.withDateFrom alert filters (tomorrowStr now))
          else if date_lt (startOfDayOf (default "" (Filters.dateFrom filters)))
                    (Some (today now))
                  && negb (bool_decide (is_Some (Script.endDateOf filters)))
          then Script.skip
          else Script.search alert
    end.
Proof. reflexivity. Qed.

Lemma rangeExpired_endDate now (af : AlertFilters.t) filters :
  AlertFilters.filters af = Some filters →
  rangeExpired now af
  = match Script.endDateOf filters with
    | Some endDate => date_lt endDate (Some (today now))
    | None => false
    end.
Proof.
  intros Hf. unfold rangeExpired, Script.endDateOf, opt. rewrite Hf.
  cbn [mbind option_bind].
  destruct (Filters.dateTo filters) as [dateTo|]; [|reflexivity].
  destruct (truthy_str (Some dateTo)); reflexivity.
Qed.

Lemma core_convert_dated now (af : AlertFilters.t) filters (dateFrom : string) :
  AlertFilters.filters af = Some filters →
  Filters.dateFrom filters = Some dateFrom →
  truthy_str (Some dateFrom) = true →
  rangeExpired now af = false →
  ∃ q, convertAlertFiltersToFlightFilters now af = Some q
       ∧ FlightFiltersInput.tripType q = TripType.ONE_WAY
       ∧ FlightFiltersInput.segments q
         = [ Segment.mk (Route.from (AlertFilters.route af)) (Route.to (AlertFilters.route af))
               (if date_lt (startOfDayOf dateFrom) (Some (today now))
                then tomorrowStr now else dateFrom)
               (Filters.departureTimeRange filters) (Filters.arrivalTimeRange filters) ]
       ∧ DateRange.from (FlightFiltersInput.dateRange q)
         = (if date_lt (startOfDayOf dateFrom) (Some (today now))
            then tomorrowStr now else dateFrom)
       ∧ FlightFiltersInput.seatType q
         = mapped seatTypeMap SeatType.ECONOMY (Filters.class filters)
       ∧ FlightFiltersInput.stops q = mapped stopsMap MaxStops.ANY (Filters.stops filters)
       ∧ FlightFiltersInput.airlines q
         = (if hasAirlines (Filters.airlines filters) then Filters.airlines filters else None)
       ∧ FlightFiltersInput.priceLimit q
         = (if truthy_num (Filters.price filters)
            then (λ p, PriceLimit.mk p Currency.USD) <$> Filters.price filters
            else None).
Proof.
  intros Hf Hd Ht Hexp. unfold convertAlertFiltersToFlightFilters. rewrite Hexp.
  eexists. split; [reflexivity|].
  cbn [FlightFiltersInput.tripType FlightFiltersInput.segments FlightFiltersInput.dateRange
       FlightFiltersInput.seatType FlightFiltersInput.stops FlightFiltersInput.airlines
       FlightFiltersInput.priceLimit DateRange.from].
  unfold effectiveDateFrom, opt. rewrite Hf. cbn [mbind option_bind]. rewrite Hd, Ht.
  split_and!; reflexivity.
Qed.

Lemma endDate_readable filters :
  ScriptSpec.dateToReadable filters → Script.endDateOf filters ≠ Some None.
Proof.
  intros Hread. unfold Script.endDateOf.
  destruct (Filters.dateTo filters) as [dateTo|] eqn:Hdt; [|by destruct (truthy_str None)].
  destruct (truthy_str (Some dateTo)) eqn:Ht; [|done].
  destruct (Hread dateTo Hdt) as [e He].
  { intros ->. done. }
  cbn [fmap option_fmap option_map]. unfold startOfDayOf. rewrite He. done.
Qed.

(** X12.  Whenever the script goes on to search for an alert whose
    [dateTo] is absent or a readable date, the core translator accepts
    the alert too, and the script's query has the same single segment,
    departing on the date the core translator chose, the same cabin,
    stops bound, airline list and price limit; only the end of its
    date range differs, being the departure date itself. *)
Theorem script_search_agrees_with_core now (clock : Z) alert filters modifiedAlert :
  AlertFilters.filters (Alert.filters alert) = Some filters →
  ScriptSpec.dateToReadable filters →
  Script.planOf now alert = Script.search modifiedAlert →
  ∃ q, convertAlertFiltersToFlightFilters now (Alert.filters alert) = Some q
       ∧ let s := Script.convertAlertFiltersToFlightFilters clock
                    (Alert.filters modifiedAlert) in
         Script.FlightFiltersInput.segments s
         = ScriptSpec.ofCoreSegment <$> FlightFiltersInput.segments q
         ∧ Script.FlightFiltersInput.dateRange s
           = DateRange.mk (DateRange.from (FlightFiltersInput.dateRange q))
               (DateRange.from (FlightFiltersInput.dateRange q))
         ∧ Script.FlightFiltersInput.tripType s = FlightFiltersInput.tripType q
         ∧ Script.FlightFiltersInput.seatType s = FlightFiltersInput.seatType q
         ∧ Script.FlightFiltersInput.stops s = FlightFiltersInput.stops q
         ∧ Script.FlightFiltersInput.airlines s = FlightFiltersInput.airlines q
         ∧ Script.FlightFiltersInput.priceLimit s = FlightFiltersInput.priceLimit q.
Proof.
  intros Hf Hread Hplan. rewrite planOf_eq, Hf in Hplan.
  destruct (Filters.dateFrom filters) as [dateFrom|] eqn:Hdf; [|done].
  destruct (truthy_str (Some dateFrom)) eqn:Htf; [|done].
  cbn [negb default id] in Hplan.
  pose proof (rangeExpired_endDate now (Alert.filters alert) filters Hf) as Hexpired.
  pose proof (endDate_readable filters Hread) as Hvalid.
  pose proof (truthy_tomorrowStr now) as Htomorrow.
  pose proof (core_convert_dated now (Alert.filters alert) filters dateFrom Hf Hdf Htf)
    as Hcore.
  set (tomorrowDate := tomorrowStr now) in *. clearbody tomorrowDate.
  set (todayDate := today now) in *. clearbody todayDate.
  assert (∃ past, date_lt (startOfDayOf dateFrom) (Some todayDate) = past
                  ∧ modifiedAlert
                    = (if past then Script.withDateFrom alert filters tomorrowDate else alert)
                  ∧ rangeExpired now (Alert.filters alert) = false)
    as (past & Hpast & -> & Hfresh).
  { rewrite Hexpired. destruct (Script.endDateOf filters) as [[e|]|]; [| |].
    - destruct (date_lt (Some e) (Some todayDate)) eqn:Hexp; [done|].
      assert (date_le (Some todayDate) (Some e) = true) as Hle.
      { cbn [date_lt date_le] in *. apply bool_decide_eq_false in Hexp.
        apply bool_decide_eq_true. lia. }
      rewrite Hle, andb_true_r in Hplan.
      destruct (date_lt (startOfDayOf dateFrom) (Some todayDate)); cbn [andb] in Hplan.
      + injection Hplan as <-. by exists true.
      + injection Hplan as <-. by exists false.
    - done.
    - rewrite andb_false_r in Hplan.
      rewrite (bool_decide_eq_false_2 (is_Some None)) in Hplan by apply is_Some_None.
      cbn [negb] in Hplan. rewrite andb_true_r in Hplan.
      destruct (date_lt (startOfDayOf dateFrom) (Some todayDate)); cbn [andb] in Hplan;
        [done|].
      injection Hplan as <-. by exists false. }
  destruct (Hcore Hfresh) as (q & Hq & Htrip & Hsegments & Hfrom & Hseat & Hstops
                                & Hairlines & Hprice).
  exists q. split; [exact Hq|]. cbv zeta.
  rewrite Htrip, Hsegments, Hfrom, Hseat, Hstops, Hairlines, Hprice, Hpast.
  destruct past.
  - rewrite (script_convert_dated clock
               (Alert.filters (Script.withDateFrom alert filters tomorrowDate))
               _ tomorrowDate eq_refl eq_refl Htomorrow).
    split_and!; reflexivity.
  - rewrite (script_convert_dated clock _ _ dateFrom Hf Hdf Htf).
    split_and!; reflexivity.
Qed.







End script_more.

(** ** Deduplication and descriptors in the script *)

Section script_alerts_more.

Context `{Runtime, Script.NotificationsDb, Script.AirportsDb}.

Lemma checks_outcome (alerts : list Alert.t) :
  match Promise_all
          ((λ alert,
              processed ← Script.hasAlertBeenProcessedRecently (Alert.id alert)
                            Script.DEDUPLICATION_HOURS;
              Ok (alert, processed)) <$> alerts) with
  | Ok results =>
      Forall (λ alert, ∃ processed,
                Script.hasAlertBeenProcessedRecently (Alert.id alert)
                  Script.DEDUPLICATION_HOURS = Ok processed) alerts
      ∧ fst <$> List.filter (λ r, negb (snd r)) results
        = List.filter ScriptSpec.unprocessed alerts
  | Throw e =>
      ∃ alert, alert ∈ alerts
               ∧ Script.hasAlertBeenProcessedRecently (Alert.id alert)
                   Script.DEDUPLICATION_HOURS = Throw e
  end.
Proof.
  induction alerts as [|alert alerts IH]; simpl; [done|].
  unfold ScriptSpec.unprocessed at 1.
  destruct (Script.hasAlertBeenProcessedRecently (Alert.id alert) _) as [processed|e] eqn:Hc;
    simpl.
  - destruct (Promise_all _) as [results|e]; simpl.
    + destruct IH as [Hall Heq]. split; [constructor; eauto|].
      destruct processed; simpl; [done|]. f_equal. exact Heq.
    + destruct IH as (a & Hin & Ha). exists a. split; [by right|done].
  - exists alert. split; [by left|done].
Qed.

(** X15.  Deduplication is all or nothing.  When every look-up in the
    notification log returns, the alerts kept are exactly those not
    processed in the last 23 hours, in input order; when a look-up
    throws, the whole call throws with the error of one of the alerts,
    and no alert is kept. *)
Theorem filterUnprocessedAlerts_outcome (alerts : list Alert.t) :
  match Script.filterUnprocessedAlerts alerts with
  | Ok kept =>
      Forall (λ alert, ∃ processed,
                Script.hasAlertBeenProcessedRecently (Alert.id alert) 23 = Ok processed)
        alerts
      ∧ kept = List.filter ScriptSpec.unprocessed alerts
  | Throw e =>
      ∃ alert, alert ∈ alerts
               ∧ Script.hasAlertBeenProcessedRecently (Alert.id alert) 23 = Throw e
  end.
Proof.
  unfold Script.filterUnprocessedAlerts. pose proof (checks_outcome alerts) as Hc.
  destruct (Promise_all _) as [results|e]; simpl; done.
Qed.


End script_alerts_more.

(** ** The daily digest context *)

Section context_more.

Import AiEmailContext.

Implicit Types (alerts : list DailyAlertContext.t) (payload : DailyPriceUpdateEmail.t).

Lemma sort_by_head_min {A} (le : A → A → bool) (items : list A) :
  (∀ a b c, le a b = true → le b c = true → le a c = true) →
  (∀ a b, le a b = true ∨ le b a = true) →
  match head (sort_by le items) with
  | Some m => m ∈ items ∧ ∀ x, x ∈ items → le m x = true
  | None => items = []
  end.
Proof.
  intros Htrans Htotal. induction items as [|x items IH]; simpl; [done|].
  destruct (sort_by le items) as [|y sorted]; simpl in *.
  - subst items. split; [by left|]. intros z ->%list_elem_of_singleton.
    by destruct (Htotal x x).
  - destruct IH as [Hy Hmin]. destruct (le x y) eqn:Hxy; simpl.
    + split; [by left|]. intros z [->|Hz]%elem_of_cons.
      * by destruct (Htotal x x).
      * eapply Htrans; [exact Hxy|]. by apply Hmin.
    + split; [by right|]. intros z [->|Hz]%elem_of_cons.
      * destruct (Htotal x y); congruence.
      * by apply Hmin.
Qed.

Lemma bestSavings_spec alerts :
  match bestSavings alerts with
  | Some deal =>
      deal ∈ shown alerts ∧ (0 < FlightSummary.price deal)%Qc
      ∧ ∀ flight, flight ∈ shown alerts → (0 < FlightSummary.price flight)%Qc →
                  (FlightSummary.price deal ≤ FlightSummary.price flight)%Qc
  | None => ∀ flight, flight ∈ shown alerts → ¬ (0 < FlightSummary.price flight)%Qc
  end.
Proof.
  unfold bestSavings. fold (shown alerts).
  set (positive := List.filter _ (shown alerts)).
  assert (∀ flight, flight ∈ positive ↔
                    flight ∈ shown alerts ∧ (0 < FlightSummary.price flight)%Qc) as Hpos.
  { intros flight. unfold positive. rewrite !list_elem_of_In, filter_In.
    by rewrite bool_decide_eq_true. }
  match goal with
  | |- context [sort_by ?le positive] => pose proof (sort_by_head_min le positive) as Hmin
  end.
  destruct (head (sort_by _ positive)) as [deal|].
  - destruct Hmin as [Hin Hle].
    + intros a b c Hab%bool_decide_eq_true Hbc%bool_decide_eq_true.
      apply bool_decide_eq_true. by eapply Qcle_trans.
    + intros a b. rewrite !bool_decide_eq_true.
      destruct (Qclt_le_dec (FlightSummary.price b) (FlightSummary.price a)) as [Hlt|Hge];
        [right; by apply Qclt_le_weak|by left].
    + apply Hpos in Hin as [Hin Hprice]. split_and!; [done|done|].
      intros flight Hf Hfp. specialize (Hle flight (proj2 (Hpos flight) (conj Hf Hfp))).
      by apply bool_decide_eq_true in Hle.
  - intros flight Hf Hfp.
    assert (positive = []) as Hnil.
    { apply Hmin.
      - intros a b c Hab%bool_decide_eq_true Hbc%bool_decide_eq_true.
        apply bool_decide_eq_true. by eapply Qcle_trans.
      - intros a b. rewrite !bool_decide_eq_true.
        destruct (Qclt_le_dec (FlightSummary.price b) (FlightSummary.price a)) as [Hlt|Hge];
          [right; by apply Qclt_le_weak|by left]. }
    assert (flight ∈ positive) as Hin by by apply Hpos.
    rewrite Hnil in Hin. by apply elem_of_nil in Hin.
Qed.

(** X17.  The top deal of the digest context is the cheapest of the
    positively priced flights the context shows, and its line heads
    the highlights.  When no shown flight has a positive price there
    is no top deal, and at most the nonstop line remains. *)
Theorem top_deal_is_cheapest_shown alerts :
  match bestSavings alerts with
  | Some deal =>
      deal ∈ shown alerts ∧ (0 < FlightSummary.price deal)%Qc
      ∧ (∀ flight, flight ∈ shown alerts → (0 < FlightSummary.price flight)%Qc →
                   (FlightSummary.price deal ≤ FlightSummary.price flight)%Qc)
      ∧ head (deriveDailyHighlights alerts) = Some (topDealLine deal)
  | None =>
      (∀ flight, flight ∈ shown alerts → ¬ (0 < FlightSummary.price flight)%Qc)
      ∧ (length (deriveDailyHighlights alerts) ≤ 1)%nat
  end.
Proof.
  pose proof (bestSavings_spec alerts) as Hspec. unfold deriveDailyHighlights.
  destruct (bestSavings alerts) as [deal|].
  - destruct Hspec as (Hin & Hpos & Hmin). split_and!; [done..|].
    case_bool_decide as Hlen; [|done].
    destruct alerts; [|done]. by apply elem_of_nil in Hin.
  - split; [done|]. repeat case_bool_decide; simpl; lia.
Qed.

Lemma Set_from_length (items : list string) : (length (Set_from items) ≤ length items)%nat.
Proof.
  unfold Set_from.
  assert (∀ seen, length (foldl (λ seen item,
                     if bool_decide (item ∈ seen) then seen else seen ++ [item]) seen items)
                  ≤ length seen + length items)%nat as Hgen.
  { induction items as [|item items IH]; intros seen; simpl; [lia|].
    etrans; [apply IH|]. case_bool_decide; [lia|]. rewrite length_app. simpl. lia. }
  apply (Hgen []).
Qed.

Lemma flightOptions_shown alerts (acc : Z) :
  foldl (λ acc entry, acc + Z.of_nat (length (DailyAlertContext.flights entry))) acc alerts
  = acc + Z.of_nat (length (shown alerts)).
Proof.
  revert acc. induction alerts as [|entry alerts IH]; intros acc; simpl; [lia|].
  rewrite IH. unfold shown. simpl. rewrite length_app. lia.
Qed.

Lemma nonstopCount_shown alerts :
  nonstopCount alerts
  = Z.of_nat (length (List.filter
                        (λ flight, bool_decide (FlightSummary.totalStops flight = 0))
                        (shown alerts))).
Proof.
  unfold nonstopCount.
  assert (∀ acc,
    foldl (λ acc entry,
             acc + Z.of_nat (length (List.filter
                                       (λ flight, bool_decide (FlightSummary.totalStops flight = 0))
                                       (DailyAlertContext.flights entry)))) acc alerts
    = acc + Z.of_nat (length (List.filter
                                (λ flight, bool_decide (FlightSummary.totalStops flight = 0))
                                (shown alerts)))) as Hgen.
  { induction alerts as [|entry alerts IH]; intros acc; simpl; [lia|].
    rewrite IH. unfold shown. simpl. rewrite List.filter_app, length_app. lia. }
  apply (Hgen 0).
Qed.

Lemma summarizeDailyAlert_flights (entry : DailyAlertSummary.t) :
  DailyAlertContext.flights (summarizeDailyAlert entry)
  = summarizeFlight <$> take 3 (DailyAlertSummary.flights entry).
Proof.
  unfold summarizeDailyAlert, summarizeFlights. simpl.
  by rewrite <- list_fmap_compose.
Qed.

(** X18.  The digest context shows at most three flights of each
    alert, the first three in order, and [best] is the first of them.
    Its metrics count what is shown: [flightOptions] is the number of
    shown flights, at most three times [alertCount]; [uniqueRoutes] is
    at most [alertCount].  There are at most two highlights, and none
    when no flight is shown. *)
Theorem daily_context_bounds payload :
  let context := buildDailyDigestBlueprintContext payload in
  let metrics := DailyDigestContext.aggregateMetrics context in
  Forall2 (λ entry summary,
             DailyAlertContext.flights summary
             = summarizeFlight <$> take 3 (DailyAlertSummary.flights entry)
             ∧ DailyAlertContext.best summary
               = summarizeFlight <$> head (DailyAlertSummary.flights entry))
    (DailyPriceUpdateEmail.alerts payload) (DailyDigestContext.alerts context)
  ∧ AggregateMetrics.flightOptions metrics
    = Z.of_nat (length (shown (DailyDigestContext.alerts context)))
  ∧ AggregateMetrics.flightOptions metrics ≤ 3 * AggregateMetrics.alertCount metrics
  ∧ 0 ≤ AggregateMetrics.uniqueRoutes metrics ≤ AggregateMetrics.alertCount metrics
  ∧ (length (DailyDigestContext.highlights context) ≤ 2)%nat
  ∧ (AggregateMetrics.flightOptions metrics = 0 →
     DailyDigestContext.highlights context = []).
Proof.
  intros context metrics. subst metrics context. unfold buildDailyDigestBlueprintContext.
  cbn [DailyDigestContext.aggregateMetrics DailyDigestContext.alerts
       DailyDigestContext.highlights AggregateMetrics.flightOptions
       AggregateMetrics.alertCount AggregateMetrics.uniqueRoutes].
  set (entries := DailyPriceUpdateEmail.alerts payload).
  rewrite flightOptions_shown, Z.add_0_l.
  split; [|split; [done|split; [|split; [|split]]]].
  - apply Forall2_fmap_r, Forall_Forall2_diag, Forall_forall. intros entry _.
    split; [apply summarizeDailyAlert_flights|].
    unfold summarizeDailyAlert, summarizeFlights. simpl.
    by destruct (DailyAlertSummary.flights entry).
  - induction entries as [|entry entries IH]; [done|].
    rewrite fmap_cons. unfold shown in *.
    rewrite bind_cons, length_app, summarizeDailyAlert_flights, length_fmap, length_take.
    cbn [length]. lia.
  - split; [lia|]. apply inj_le. etrans; [apply Set_from_length|].
    by rewrite !length_fmap.
  - unfold deriveDailyHighlights. case_bool_decide; [simpl; lia|].
    rewrite length_app. destruct (bestSavings _); case_bool_decide; simpl; lia.
  - intros Hzero. assert (shown (summarizeDailyAlert <$> entries) = []) as Hnone.
    { destruct (shown _); [done|]. simpl in Hzero. lia. }
    unfold deriveDailyHighlights. case_bool_decide; [done|].
    rewrite nonstopCount_shown. unfold bestSavings. fold (shown (summarizeDailyAlert <$> entries)).
    rewrite Hnone. simpl. repeat case_bool_decide; (done || lia).
Qed.

End context_more.

(** ** Rendering a blueprint *)

Section blueprint_more.

Context `{ChartRenderer}.

Import Html Components.

Implicit Types (components pending : list Blueprint.Component) (children : list node).

Lemma textOf_elem tag attrs children rest :
  Tag.isVoid tag = false →
  textOf (elem tag attrs children) rest = textOfAll children rest.
Proof.
  intros Hvoid. simpl. rewrite Hvoid. unfold textOfAll.
  induction children as [|child children IH]; simpl; [done|]. by rewrite IH.
Qed.

Lemma textOfAll_app children1 children2 rest :
  textOfAll (children1 ++ children2) rest = textOfAll children1 (textOfAll children2 rest).
Proof. unfold textOfAll. by rewrite foldr_app. Qed.

Lemma textOfAll_cons child children rest :
  textOfAll (child :: children) rest = textOf child (textOfAll children rest).
Proof. done. Qed.

Lemma textOf_EmailSection title description children rest :
  textOf (EmailSection title description children) rest
  = textOfAll (when (if truthy_str title
                     then (λ t, elem Tag.h2
                                  (style "margin:0 0 8px;font-size:18px;font-weight:600;color:#0f172a")
                                  [text t]) <$> title
                     else None)
               ++ when (if truthy_str description
                        then (λ d, elem Tag.p
                                     (style "margin:0 0 16px;font-size:14px;color:#64748b")
                                     [text d]) <$> description
                        else None))
      (textOfAll children rest).
Proof.
  unfold EmailSection. rewrite textOf_elem by done.
  rewrite app_assoc, textOfAll_app. f_equal.
Qed.

Lemma textOf_FlightCardGrid cards rest :
  textOf (FlightCardGrid cards) rest = textOfAll (FlightCard <$> cards) rest.
Proof. unfold FlightCardGrid. by rewrite textOf_elem. Qed.

Lemma textOf_pending pending rest :
  Forall (λ component, is_Some (BlueprintUtils.cardProps component)) pending →
  textOfAll (FlightCard <$> omap BlueprintUtils.cardProps pending) rest
  = textOfAll (BlueprintRendererImpl.renderComponent <$> pending) rest.
Proof.
  induction 1 as [|component pending [props Hprops] _ IH]; [done|].
  destruct component; try done.
  cbn [omap list_omap BlueprintUtils.cardProps]. rewrite !fmap_cons, !textOfAll_cons, IH.
  unfold BlueprintRendererImpl.renderComponent. by rewrite textOf_FlightCardGrid.
Qed.

Lemma flushCards_text children pending rest :
  Forall (λ component, is_Some (BlueprintUtils.cardProps component)) pending →
  snd (BlueprintUtils.flushCards (children, pending)) = []
  ∧ textOfAll (fst (BlueprintUtils.flushCards (children, pending))) rest
    = textOfAll children
        (textOfAll (BlueprintRendererImpl.renderComponent <$> pending) rest).
Proof.
  intros Hcards. unfold BlueprintUtils.flushCards, BlueprintUtils.renderFlightCardGrid.
  case_bool_decide as Hlen.
  - destruct pending; [done|]. simpl in Hlen. lia.
  - cbn [fst snd when]. split; [done|]. rewrite textOfAll_app. f_equal.
    rewrite textOfAll_cons, textOf_FlightCardGrid. by apply textOf_pending.
Qed.

Lemma loop_text components :
  ∀ children pending rest,
    Forall (λ component, is_Some (BlueprintUtils.cardProps component)) pending →
    textOfAll (fst (BlueprintUtils.flushCards
                      (foldl BlueprintUtils.step (children, pending) components))) rest
    = textOfAll children
        (textOfAll (BlueprintRendererImpl.renderComponent <$> (pending ++ components)) rest).
Proof.
  induction components as [|component components IH]; intros children pending rest Hcards.
  { rewrite app_nil_r. simpl foldl. by apply flushCards_text. }
  simpl foldl.
  destruct (flushCards_text children pending
              (textOf (BlueprintRendererImpl.renderComponent component)
                 (textOfAll (BlueprintRendererImpl.renderComponent <$> components) rest))
              Hcards) as [Hnil Htext].
  assert (textOfAll children
            (textOfAll (BlueprintRendererImpl.renderComponent <$> pending ++ component :: components)
               rest)
          = textOfAll (fst (BlueprintUtils.flushCards (children, pending)))
              (textOf (BlueprintRendererImpl.renderComponent component)
                 (textOfAll (BlueprintRendererImpl.renderComponent <$> components) rest)))
    as Hflush.
  { rewrite Htext. by rewrite fmap_app, textOfAll_app, fmap_cons. }
  destruct component; unfold BlueprintUtils.step at 2; cbn [fst snd].
  2: { rewrite IH.
       - by rewrite <- app_assoc.
       - apply Forall_app. split; [done|]. constructor; [by eexists|done]. }
  all: unfold BlueprintUtils.push; cbn [fst snd]; rewrite Hnil;
    rewrite IH by done; rewrite app_nil_l, textOfAll_app, Hflush; done.
Qed.

Lemma sectionChildren_text components rest :
  textOfAll (BlueprintUtils.sectionChildren components) rest
  = textOfAll (BlueprintRendererImpl.renderComponent <$> components) rest.
Proof.
  unfold BlueprintUtils.sectionChildren. rewrite loop_text by done. done.
Qed.

(** X19.  Gathering consecutive flight cards of a section into one
    grid, as the section renderer of the templates does, changes the
    markup only: the text of the rendered sections, in document order,
    is the text of the sections rendered with every component on its
    own. *)
Theorem grouping_preserves_text (blueprint : Blueprint.t) (rest : string) :
  textOfAll (BlueprintUtils.renderSectionsFromBlueprint (Blueprint.sections blueprint)) rest
  = textOfAll (BlueprintRendererImpl.sectionsOf blueprint) rest.
Proof.
  unfold BlueprintUtils.renderSectionsFromBlueprint, BlueprintRendererImpl.sectionsOf.
  induction (Blueprint.sections blueprint) as [|section sections IH]; [done|].
  rewrite !fmap_cons, !textOfAll_cons, IH.
  rewrite !textOf_EmailSection. f_equal. apply sectionChildren_text.
Qed.

End blueprint_more.

(** ** What the rendered emails contain *)

Section rendering_more.

Context `{Formatters, ChartRenderer}.

Import Html Components.











(** X23.  A flight card of the fallback templates has between three
    and five highlights, so it would pass the highlight bound the
    schema puts on AI cards: price, duration and stops always, in this
    order, then the departure when the first slice has a leg and the
    arrival when the last slice has one. *)
Theorem flight_highlights_shape (flight : FlightOption.t) :
  FlightHighlight.label <$> buildFlightHighlights flight
  = ["Price"; "Duration"; "Stops"]
    ++ match firstLeg flight with Some _ => ["Departure"] | None => [] end
    ++ match lastLeg flight with Some _ => ["Arrival"] | None => [] end
  ∧ (3 ≤ length (buildFlightHighlights flight) ≤ 5)%nat
  ∧ (FlightOption.slices flight = [] → length (buildFlightHighlights flight) = 3%nat).
Proof.
  split; [|split].
  - unfold buildFlightHighlights. by destruct (firstLeg flight), (lastLeg flight).
  - unfold buildFlightHighlights. destruct (firstLeg flight), (lastLeg flight); simpl; lia.
  - intros Hnone. unfold buildFlightHighlights, firstLeg, lastLeg. by rewrite Hnone.
Qed.

End rendering_more.

(** ** Sending *)

Section sending_more.

Context `{Formatters, AiGateway, BlueprintRenderer, Mailer}.

Import AiEmailAgent.

Lemma buildEmailContent_total (payload : NotificationEmailPayload) :
  ∃ email, AiEmailService.buildEmailContent payload = Ok email.
Proof.
  destruct payload as [p|p]; simpl.
  - unfold AiEmailService.renderDailyDigestEmailWithAI, generateDailyDigestBlueprint.
    destruct (generate_never_throws "daily-update" dailyDigestPrompt
                (buildDailyDigestBlueprintContext p)) as [[bp|] ->];
      unfold mbind, Exc_bind, try_catch.
    + destruct (daily_template_total p (Some bp)) as [email ->]. eauto.
    + destruct (daily_template_total p None) as [email ->]. eauto.
  - unfold AiEmailService.renderPriceDropEmailWithAI, generatePriceDropBlueprint.
    destruct (generate_never_throws "price-drop" priceDropPrompt
                (buildPriceDropBlueprintContext p)) as [[bp|] ->];
      unfold mbind, Exc_bind, try_catch.
    + destruct (priceDrop_template_total p (Some bp)) as [email ->]. eauto.
    + destruct (priceDrop_template_total p None) as [email ->]. eauto.
Qed.

(** X24.  Sending a notification hands the mail client exactly one
    message: the rendered subject, page and text, the recipient as
    [name <email>] when a non-empty name is known and the bare address
    otherwise, and the configured sender or the default one.  The
    outcome of the call is the outcome of the mail client: building the
    content never makes it fail. *)
Theorem sendNotificationEmail_outcome (request : NotificationSendRequest.t) :
  ∃ email,
    AiEmailService.buildEmailContent (NotificationSendRequest.payload request) = Ok email
    ∧ SendNotification.sendNotificationEmail request
      = sendWithResend
          (ResendMessage.mk
             (default "Flight Alerts <alerts@resend.dev>" RESEND_FROM_EMAIL)
             (match Recipient.name (NotificationSendRequest.recipient request) with
              | Some name =>
                  if bool_decide (name = "")
                  then Recipient.email (NotificationSendRequest.recipient request)
                  else name +:+ " <" +:+
                       Recipient.email (NotificationSendRequest.recipient request) +:+ ">"
              | None => Recipient.email (NotificationSendRequest.recipient request)
              end)
             (RenderedEmail.subject email) (RenderedEmail.html email)
             (RenderedEmail.text email)).
Proof.
  destruct (buildEmailContent_total (NotificationSendRequest.payload request))
    as [email Hemail].
  exists email. split; [done|].
  unfold SendNotification.sendNotificationEmail. rewrite Hemail.
  unfold mbind, Exc_bind. do 2 f_equal.
  unfold SendNotification.formatRecipient.
  destruct (Recipient.name _) as [name|]; [|done]. simpl. by case_bool_decide.
Qed.

End sending_more.

(** ** The further properties on concrete inputs *)

Section more_examples.

Import Examples Examples2 Examples3.

#[local] Existing Instance IsoRuntime.utc.
#[local] Existing Instance plainFormatters.
#[local] Existing Instance airports.
#[local] Existing Instance plainChart.
#[local] Existing Instance searchByOrigin.



Lemma batch_output_invariants_witness :
  0 ≤ defaultMaxFlights
  ∧ ∃ out,
      fetchFlightDataForAlerts (λ _, now) threeAlerts defaultMaxFlights = Ok out
      ∧ AlertWithFlights.alert <$> out `sublist_of` threeAlerts
      ∧ (length out ≤ length threeAlerts)%nat.
Proof.
  assert (0 ≤ defaultMaxFlights) as Hn by (unfold defaultMaxFlights; lia).
  split; [exact Hn|].
  assert (∃ out, fetchFlightDataForAlerts (λ _, now) threeAlerts defaultMaxFlights = Ok out)
    as [out Hout] by (eexists; vm_compute; reflexivity).
  destruct (batch_output_invariants (λ _, now) threeAlerts defaultMaxFlights out Hn Hout)
    as (Hsub & Hlen & _).
  exists out. exact (conj Hout (conj Hsub Hlen)).
Defined.


Lemma script_search_agrees_with_core_witness :
  Script.planOf now windowAlert
  = Script.search (Script.withDateFrom windowAlert endingToday "2025-06-06")
  ∧ ∃ q, convertAlertFiltersToFlightFilters now (Alert.filters windowAlert) = Some q
         ∧ Script.FlightFiltersInput.dateRange
             (Script.convertAlertFiltersToFlightFilters now
                (Alert.filters (Script.withDateFrom windowAlert endingToday "2025-06-06")))
           = DateRange.mk (DateRange.from (FlightFiltersInput.dateRange q))
               (DateRange.from (FlightFiltersInput.dateRange q)).
Proof.
  assert (Script.planOf now windowAlert
          = Script.search (Script.withDateFrom windowAlert endingToday "2025-06-06"))
    as Hplan by (vm_compute; reflexivity).
  assert (ScriptSpec.dateToReadable endingToday) as Hread.
  { intros dateTo [= <-] _. vm_compute. eexists. reflexivity. }
  split; [exact Hplan|].
  destruct (script_search_agrees_with_core now now windowAlert endingToday _
              eq_refl Hread Hplan) as (q & Hq & _ & Hrange & _).
  exists q. exact (conj Hq Hrange).
Defined.




End more_examples.
